(** * AstroFlare: technical indicators and backtest accuracy metrics

    A shallow embedding of
      - [backend/src/services/technicalIndicators.js]
        (class [TechnicalIndicatorsService]),
      - [backend/src/services/backtestingService.js]
        (class [BacktestingService]) and
      - [backend/src/services/coinGeckoService.js]
        (class [CoinGeckoService]),
    followed by the properties of the engine that the specification states.

    Numbers.  A JavaScript Number is modelled twice.

    In [JS] it is a real number, or one of the three special values
    [Infinity], [-Infinity] and [NaN].  Arithmetic on finite values is exact
    there (no rounding, no overflow, a single zero); the special values
    follow the IEEE-754 rules that JavaScript uses, so that a division by
    zero, [0/0] or a comparison with [NaN] behaves as in the source.  The
    services are stated on these numbers where what is proved does not
    depend on the last digits: guards, lengths, comparisons, absent values,
    results that are exact.

    In [Numeric] the functions whose results do depend on rounding or on
    overflow are written over the operations they use, and read on the
    binary64 Numbers of the engine (primitive floats, on which they run)
    and on real numbers whose every result is rounded by a rounding that is
    only assumed monotone. *)

From Stdlib Require Import Reals Lra Lia List Bool Arith ZArith Sorted
  Permutation.
From Stdlib Require String.
From Stdlib Require Floats.
Import ListNotations.

Set Implicit Arguments.

Import String.StringSyntax.
Abbreviation string := String.string.
Delimit Scope string_scope with string.

(* ================================================================== *)
(** ** JavaScript numbers and values *)
(* ================================================================== *)

Module JS.

Local Open Scope R_scope.

Inductive num : Type :=
| Fin (r : R)
| PInf
| NInf
| NaN.

(** [null], [undefined] or a Number: what an array of prices can hold. *)
Inductive value : Type :=
| VNull
| VUndefined
| VNum (x : num).

Definition neg (x : num) : num :=
  match x with
  | Fin r => Fin (- r)
  | PInf => NInf
  | NInf => PInf
  | NaN => NaN
  end.

(** [x + y] *)
Definition add (x y : num) : num :=
  match x, y with
  | NaN, _ | _, NaN => NaN
  | Fin a, Fin b => Fin (a + b)
  | PInf, NInf | NInf, PInf => NaN
  | PInf, _ | _, PInf => PInf
  | NInf, _ | _, NInf => NInf
  end.

(** [x - y] *)
Definition sub (x y : num) : num := add x (neg y).

(** The infinity that carries the sign of [a] times [+Infinity]
    ([NaN] when [a] is zero). *)
Definition scaleInf (a : R) (positive : bool) : num :=
  if Req_dec_T a 0 then NaN
  else if Rlt_dec 0 a then (if positive then PInf else NInf)
       else (if positive then NInf else PInf).

(** [x * y] *)
Definition mul (x y : num) : num :=
  match x, y with
  | NaN, _ | _, NaN => NaN
  | Fin a, Fin b => Fin (a * b)
  | Fin a, PInf | PInf, Fin a => scaleInf a true
  | Fin a, NInf | NInf, Fin a => scaleInf a false
  | PInf, PInf | NInf, NInf => PInf
  | PInf, NInf | NInf, PInf => NInf
  end.

(** [x / y]; the only zero is the positive one, so a non-zero finite value
    divided by zero is the infinity of its own sign. *)
Definition div (x y : num) : num :=
  match x, y with
  | NaN, _ | _, NaN => NaN
  | Fin a, Fin b =>
      if Req_dec_T b 0 then
        (if Req_dec_T a 0 then NaN
         else if Rlt_dec 0 a then PInf else NInf)
      else Fin (a / b)
  | Fin _, (PInf | NInf) => Fin 0
  | PInf, Fin b => if Rlt_dec b 0 then NInf else PInf
  | NInf, Fin b => if Rlt_dec b 0 then PInf else NInf
  | (PInf | NInf), (PInf | NInf) => NaN
  end.

(** [Math.abs] *)
Definition Math_abs (x : num) : num :=
  match x with
  | Fin r => Fin (Rabs r)
  | PInf | NInf => PInf
  | NaN => NaN
  end.

(** [Math.sqrt] *)
Definition Math_sqrt (x : num) : num :=
  match x with
  | Fin r => if Rlt_dec r 0 then NaN else Fin (sqrt r)
  | PInf => PInf
  | NInf | NaN => NaN
  end.

(** [Math.pow(x, n)] for a natural exponent [n]. *)
Fixpoint Math_pow (x : num) (n : nat) : num :=
  match n with
  | O => Fin 1
  | S k => mul x (Math_pow x k)
  end.

(** [x < y] *)
Definition lt (x y : num) : bool :=
  match x, y with
  | NaN, _ | _, NaN => false
  | Fin a, Fin b => if Rlt_dec a b then true else false
  | _, NInf => false
  | NInf, _ => true
  | PInf, _ => false
  | _, PInf => true
  end.

(** [x > y] *)
Definition gt (x y : num) : bool := lt y x.

(** [x === y] on Numbers *)
Definition strictEq (x y : num) : bool :=
  match x, y with
  | Fin a, Fin b => if Req_dec_T a b then true else false
  | PInf, PInf | NInf, NInf => true
  | _, _ => false
  end.

(** [Math.min(x, y)] and [Math.max(x, y)] *)
Definition Math_min (x y : num) : num :=
  match x, y with
  | NaN, _ | _, NaN => NaN
  | _, _ => if lt y x then y else x
  end.

Definition Math_max (x y : num) : num :=
  match x, y with
  | NaN, _ | _, NaN => NaN
  | _, _ => if lt x y then y else x
  end.

Definition isNaN (x : num) : bool :=
  match x with NaN => true | _ => false end.

(** Truthiness of a Number: everything but [0] and [NaN]. *)
Definition truthy (x : num) : bool :=
  match x with
  | Fin r => if Req_dec_T r 0 then false else true
  | NaN => false
  | PInf | NInf => true
  end.

(** [x || y] on Numbers. *)
Definition orElse (x y : num) : num := if truthy x then x else y.

(** The Number of an array length or of a loop counter. *)
Definition ofNat (n : nat) : num := Fin (INR n).

(** [ToNumber] on the values an array of prices can hold. *)
Definition ToNumber (v : value) : num :=
  match v with
  | VNull => Fin 0
  | VUndefined => NaN
  | VNum x => x
  end.

(** [Number(x.toFixed(d))]: the decimal with [d] fraction digits nearest to
    [x], ties away from zero; [toFixed] prints values of magnitude [1e21]
    and more, and the special values, as [toString] does, so that [Number]
    gives them back unchanged. *)
Definition roundTo (d : nat) (x : num) : num :=
  match x with
  | Fin r =>
      if Rle_dec (10 ^ 21) (Rabs r) then Fin r
      else
        let n := IZR (Zfloor (Rabs r * 10 ^ d + / 2)) in
        Fin ((if Rlt_dec r 0 then - n else n) / 10 ^ d)
  | _ => x
  end.

(** [xs.reduce((a, b) => a + b, 0)] *)
Definition sum (xs : list num) : num := fold_left add xs (Fin 0).

End JS.

(* ================================================================== *)
(** ** [TechnicalIndicatorsService] *)
(* ================================================================== *)

Module TechnicalIndicators.
Import JS.

(** [xs.slice(-k)]: the last [k] elements; [slice(-0)] is [slice(0)], the
    whole array. *)
Definition sliceLast (A : Type) (k : nat) (xs : list A) : list A :=
  match k with
  | O => xs
  | S _ => skipn (length xs - k) xs
  end.

(** [calculateSMA(prices, period)]; [None] is [null]. *)
Definition calculateSMA (prices : list num) (period : nat) : option num :=
  if length prices <? period then None
  else
    let recent := sliceLast period prices in
    Some (div (sum recent) (ofNat period)).

(** One turn of the loop of [calculateEMA]. *)
Definition emaStep (multiplier ema price : num) : num :=
  add (mul price multiplier) (mul ema (sub (Fin 1) multiplier)).

(** [calculateEMA(prices, period)] *)
Definition calculateEMA (prices : list num) (period : nat) : option num :=
  if length prices <? period then None
  else
    let multiplier := div (Fin 2) (add (ofNat period) (Fin 1)) in
    let seed := div (sum (firstn period prices)) (ofNat period) in
    Some (fold_left (emaStep multiplier) (skipn period prices) seed).

(** The array [changes] of [calculateRSI]:
    [prices[i] - prices[i - 1]] for [i = 1 .. length - 1]. *)
Fixpoint priceChanges (prices : list num) : list num :=
  match prices with
  | previous :: (current :: _) as rest =>
      sub current previous :: priceChanges rest
  | _ => []
  end.

(** One turn of the second loop of [calculateRSI], on the pair
    [(gains, losses)]. *)
Definition rsiStep (acc : num * num) (change : num) : num * num :=
  let (gains, losses) := acc in
  if gt change (Fin 0) then (add gains change, losses)
  else (gains, add losses (Math_abs change)).

(** [(gains, losses)] after the loop over the last [period] changes. *)
Definition rsiGainsLosses (prices : list num) (period : nat) : num * num :=
  let changes := priceChanges prices in
  fold_left rsiStep (skipn (length changes - period) changes) (Fin 0, Fin 0).

Definition rsiAvgGain (prices : list num) (period : nat) : num :=
  div (fst (rsiGainsLosses prices period)) (ofNat period).

Definition rsiAvgLoss (prices : list num) (period : nat) : num :=
  div (snd (rsiGainsLosses prices period)) (ofNat period).

(** [calculateRSI(prices, period = 14)] *)
Definition calculateRSI (prices : list num) (period : nat) : option num :=
  if length prices <? period + 1 then None
  else
    let avgGain := rsiAvgGain prices period in
    let avgLoss := rsiAvgLoss prices period in
    if strictEq avgLoss (Fin 0) then Some (Fin 100)
    else
      let rs := div avgGain avgLoss in
      Some (sub (Fin 100) (div (Fin 100) (add (Fin 1) rs))).

(** The array [returns] of [calculateVolatility]: the simple return of each
    consecutive pair whose first price is positive. *)
Fixpoint simpleReturns (prices : list num) : list num :=
  match prices with
  | previous :: (current :: _) as rest =>
      if gt previous (Fin 0)
      then div (sub current previous) previous :: simpleReturns rest
      else simpleReturns rest
  | _ => []
  end.

(** [returns.reduce((sum, r) => sum + Math.pow(r - mean, 2), 0)] *)
Definition sumSquaredDeviations (returns : list num) (mean : num) : num :=
  fold_left (fun acc r => add acc (Math_pow (sub r mean) 2)) returns (Fin 0).

(** [calculateVolatility(prices)] *)
Definition calculateVolatility (prices : list num) : option num :=
  if length prices <? 2 then None
  else
    let returns := simpleReturns prices in
    let mean := div (sum returns) (ofNat (length returns)) in
    let variance :=
      div (sumSquaredDeviations returns mean) (ofNat (length returns)) in
    let stdDev := Math_sqrt variance in
    Some (mul (mul stdDev (Math_sqrt (Fin 365))) (Fin 100)).

Inductive Direction : Type := neutral | uptrend | downtrend.

Record Trend : Type := mkTrend {
  direction : Direction;
  strength : num;
  priceChange : num
}.

(** The four running sums of the regression loop of [calculateTrend]. *)
Record RegressionSums : Type := mkSums {
  sumX : num;
  sumY : num;
  sumXY : num;
  sumX2 : num
}.

Definition regressionStep (s : RegressionSums) (ip : nat * num)
  : RegressionSums :=
  let (i, price) := ip in
  mkSums (add (sumX s) (ofNat i))
         (add (sumY s) price)
         (add (sumXY s) (mul (ofNat i) price))
         (add (sumX2 s) (mul (ofNat i) (ofNat i))).

Definition regressionSums (prices : list num) : RegressionSums :=
  fold_left regressionStep
    (combine (seq 0 (length prices)) prices)
    (mkSums (Fin 0) (Fin 0) (Fin 0) (Fin 0)).

(** [calculateTrend(prices)] *)
Definition calculateTrend (prices : list num) : Trend :=
  if length prices <? 10 then mkTrend neutral (Fin 0) (Fin 0)
  else
    let first := nth 0 prices NaN in
    let last := nth (length prices - 1) prices NaN in
    let priceChange := mul (div (sub last first) first) (Fin 100) in
    let n := ofNat (length prices) in
    let s := regressionSums prices in
    let slope :=
      div (sub (mul n (sumXY s)) (mul (sumX s) (sumY s)))
          (sub (mul n (sumX2 s)) (mul (sumX s) (sumX s))) in
    let avgPrice := div (sumY s) n in
    let strength := Math_abs (mul (div slope avgPrice) (Fin 100)) in
    let direction :=
      if gt priceChange (Fin 1) then uptrend
      else if lt priceChange (neg (Fin 1)) then downtrend
      else neutral in
    mkTrend direction
            (Math_min (Fin 100) (Math_max (Fin 0) (mul strength (Fin 100))))
            priceChange.

Record Indicators : Type := mkIndicators {
  sma7 : option num;
  sma30 : option num;
  ema12 : option num;
  rsi : option num;
  volatility : option num;
  trend : Trend;
  currentPrice : value
}.

(** The test [p && p > 0] of the price filter. *)
Definition isValidPrice (p : value) : bool :=
  match p with
  | VNum x => truthy x && gt x (Fin 0)
  | VNull | VUndefined => false
  end.

(** The Numbers of the entries that passed the filter. *)
Definition numbersOf (ps : list value) : list num := map ToNumber ps.

(** [calculateAllIndicators(prices, currentPrice)] *)
Definition calculateAllIndicators (prices : list value) (currentPrice : value)
  : Indicators :=
  let validPrices := numbersOf (filter isValidPrice prices) in
  mkIndicators (calculateSMA validPrices 7)
               (calculateSMA validPrices 30)
               (calculateEMA validPrices 12)
               (calculateRSI validPrices 14)
               (calculateVolatility validPrices)
               (calculateTrend validPrices)
               currentPrice.

(** [getRiskLevel(volatility)]; [None] is [null]. *)
Definition getRiskLevel (volatility : option num) : string :=
  match volatility with
  | None => "Unknown"%string
  | Some v =>
      if negb (truthy v) then "Unknown"%string
      else if gt v (Fin 30) then "Very High"%string
      else if gt v (Fin 20) then "High"%string
      else if gt v (Fin 10) then "Medium"%string
      else "Low"%string
  end.

(** [getRSIInterpretation(rsi)] *)
Definition getRSIInterpretation (rsi : option num) : string :=
  match rsi with
  | None => "Insufficient data"%string
  | Some r =>
      if negb (truthy r) then "Insufficient data"%string
      else if gt r (Fin 70) then "Overbought"%string
      else if gt r (Fin 50) then "Bullish"%string
      else if gt r (Fin 30) then "Neutral"%string
      else "Oversold"%string
  end.

End TechnicalIndicators.

(* ================================================================== *)
(** ** [BacktestingService] *)
(* ================================================================== *)

Module Backtesting.
Import JS TechnicalIndicators.

(** A call that returns normally or throws an [Error] with a message. *)
Inductive outcome (A : Type) : Type :=
| Returned (a : A)
| Thrown (message : string).
Arguments Returned {A} a.
Arguments Thrown {A} message.

Definition isReturned (A : Type) (o : outcome A) : bool :=
  match o with Returned _ => true | Thrown _ => false end.

(** *** Accuracy metrics *)

Record MetricSet : Type := mkMetrics {
  absoluteErrors : list num;
  percentageErrors : list num;
  mae : num;
  mape : num;
  rmse : num;
  directionalAccuracy : num;
  directionalCorrect : list bool
}.

(** What one turn of the loop of [calculateMetrics] pushes on [errors],
    [percentageErrors] and [directionalCorrect]. *)
Record PointScore : Type := mkPoint {
  absoluteError : num;
  percentageError : num;
  directionOk : bool
}.

Definition scorePoint (basePrice predictedPrice actualPrice : num)
  : PointScore :=
  let absoluteError := Math_abs (sub predictedPrice actualPrice) in
  let percentageError :=
    mul (Math_abs (div (sub predictedPrice actualPrice) actualPrice))
        (Fin 100) in
  let predictedDirection := gt predictedPrice basePrice in
  let actualDirection := gt actualPrice basePrice in
  mkPoint absoluteError percentageError
          (Bool.eqb predictedDirection actualDirection).

(** The loop of [calculateMetrics]; [basePrice] is [currentPrice] at index
    [0] and [actual[i - 1]] afterwards. *)
Fixpoint scorePoints (basePrice : num) (predicted actual : list num)
  : list PointScore :=
  match predicted, actual with
  | p :: predicted', a :: actual' =>
      scorePoint basePrice p a :: scorePoints a predicted' actual'
  | _, _ => []
  end.

(** [basePrice] at index [i]: [i === 0 ? currentPrice : actual[i - 1]]. *)
Definition basePriceAt (currentPrice : num) (actual : list num) (i : nat)
  : num :=
  match i with
  | O => currentPrice
  | S j => nth j actual NaN
  end.

(** [errors.reduce((sum, err) => sum + err * err, 0)] *)
Definition sumOfSquares (errors : list num) : num :=
  fold_left (fun acc err => add acc (mul err err)) errors (Fin 0).

(** The values of [calculateMetrics] before [toFixed]: the locals [errors],
    [percentageErrors], [mae], [mape], [rmse], [directionalAccuracy] and
    [directionalCorrect]. *)
Definition unroundedMetrics (predicted actual : list num) (currentPrice : num)
  : MetricSet :=
  let points := scorePoints currentPrice predicted actual in
  let errors := map absoluteError points in
  let percentageErrors := map percentageError points in
  let directionalCorrect := map directionOk points in
  let mae := div (sum errors) (ofNat (length errors)) in
  let mape :=
    div (sum percentageErrors) (ofNat (length percentageErrors)) in
  let mse := div (sumOfSquares errors) (ofNat (length errors)) in
  let rmse := Math_sqrt mse in
  let directionalAccuracy :=
    div (ofNat (length (filter (fun b : bool => b) directionalCorrect)))
        (ofNat (length directionalCorrect)) in
  mkMetrics errors percentageErrors mae mape rmse directionalAccuracy
            directionalCorrect.

(** The object literal that [calculateMetrics] returns. *)
Definition roundMetrics (m : MetricSet) : MetricSet :=
  mkMetrics (absoluteErrors m) (percentageErrors m)
            (roundTo 4 (mae m)) (roundTo 2 (mape m)) (roundTo 4 (rmse m))
            (roundTo 4 (directionalAccuracy m)) (directionalCorrect m).

(** [calculateMetrics(predictedPrices, actualPrices, currentPrice)], called
    with an array of predicted prices. *)
Definition calculateMetrics (predicted actual : list num) (currentPrice : num)
  : outcome MetricSet :=
  if negb (length predicted =? length actual) then
    Thrown "Predicted and actual prices arrays must have the same length"%string
  else Returned (roundMetrics (unroundedMetrics predicted actual currentPrice)).

(** *** Results of a trial and of a batch *)

Record DataPoint : Type := mkDataPoint {
  timestamp : Z;
  date : string;
  price : value
}.

Record DatedPrice : Type := mkDatedPrice {
  priceDate : string;
  datedPrice : value
}.

Record Prediction : Type := mkPrediction {
  predictionDirection : string;
  priceTarget : num;
  confidence : num;
  analysis : string
}.

(** What [geminiService.generatePrediction] resolves to, as far as
    [runBacktest] reads it. *)
Record PredictionResult : Type := mkPredictionResult {
  prediction : option Prediction;
  predictionCurrentPrice : value
}.

Record FormattedData : Type := mkFormattedData {
  fdAsset : string;
  fdDataPoints : list DataPoint;
  fdCurrentPrice : value;
  fdCurrentTimestamp : Z;
  fdTotalDataPoints : nat;
  fdTimeRange : string * string;
  fdTechnicalIndicators : Indicators;
  fdPriceChange24h : num
}.

(** *** The runner *)

(** Dates are [Date] objects, modelled by their time value in milliseconds;
    the local time zone of the process is taken to be UTC. *)
Definition msPerDay : Z := 86400000.

(** [d.setHours(0, 0, 0, 0)] *)
Definition startOfDay (d : Z) : Z := (d - d mod msPerDay)%Z.

(** [d.setDate(d.getDate() + k)] *)
Definition addDays (d k : Z) : Z := (d + k * msPerDay)%Z.

(** The array [predictedPrices] that step 8 of [runBacktest] builds. *)
Definition predictedPricesFor (predictedPrice currentPrice : num)
  (daysToPredict : nat) : list num :=
  if daysToPredict =? 1 then [predictedPrice]
  else
    let priceChange := sub predictedPrice currentPrice in
    let dailyChange := div priceChange (ofNat daysToPredict) in
    map (fun i => add currentPrice (mul dailyChange (ofNat i)))
        (seq 1 daysToPredict).

(** The filter [p != null && !isNaN(p)] of step 9. *)
Definition isKnownPrice (p : value) : bool :=
  match p with
  | VNum x => negb (isNaN x)
  | VNull | VUndefined => false
  end.

Record ReportedPrediction : Type := mkReported {
  reportedDirection : string;
  reportedPriceTarget : value;
  reportedConfidence : num;
  reportedAnalysis : string
}.

Record BacktestResult : Type := mkResult {
  asset : string;
  testDate : string;
  historicalDateRange : string * string;
  daysToPredict : nat;
  resultCurrentPrice : value;
  predictedPrice : value;
  predictedPrices : list num;
  actualPrices : list DatedPrice;
  resultPrediction : ReportedPrediction;
  metrics : option MetricSet;
  technicalIndicators : Indicators;
  dataPointsUsed : nat
}.

Record AggregateMetrics : Type := mkAggregate {
  averageMAE : num;
  averageMAPE : num;
  averageRMSE : num;
  averageDirectionalAccuracy : num
}.

(** [r.metrics?.field || 0] *)
Definition metricOrZero (field : MetricSet -> num) (r : BacktestResult)
  : num :=
  match metrics r with
  | Some m => orElse (field m) (Fin 0)
  | None => Fin 0
  end.

(** [results.reduce((sum, r) => sum + (r.metrics?.field || 0), 0)] *)
Definition totalOf (field : MetricSet -> num) (results : list BacktestResult)
  : num :=
  fold_left (fun acc r => add acc (metricOrZero field r)) results (Fin 0).

(** [calculateAggregateMetrics(results)] *)
Definition calculateAggregateMetrics (results : list BacktestResult)
  : AggregateMetrics :=
  match results with
  | [] => mkAggregate (Fin 0) (Fin 0) (Fin 0) (Fin 0)
  | _ :: _ =>
      let n := ofNat (length results) in
      mkAggregate
        (roundTo 4 (div (totalOf mae results) n))
        (roundTo 2 (div (totalOf mape results) n))
        (roundTo 4 (div (totalOf rmse results) n))
        (roundTo 4 (div (totalOf directionalAccuracy results) n))
  end.

Record BatchResult : Type := mkBatch {
  batchAsset : string;
  dateRange : string * string;
  stepDays : Z;
  batchDaysToPredict : nat;
  totalTests : nat;
  results : list BacktestResult;
  aggregateMetrics : AggregateMetrics
}.

Section Runner.

(** The collaborators of the service: [coinGeckoService], [geminiService]
    and the renderings of dates that the [Date] and [String] objects
    provide. *)
Variable getHistoricalData : string -> Z -> Z -> outcome (list DataPoint).
Variable generatePrediction : FormattedData -> outcome PredictionResult.
Variable getPricesForDates : string -> list Z -> outcome (list DatedPrice).
(** [d.toISOString().split('T')[0]] *)
Variable isoDay : Z -> string.
(** [s.split('T')[0]] *)
Variable dayPart : string -> string.

(** [historicalData[historicalData.length - k].price] *)
Definition priceFromEnd (historicalData : list DataPoint) (k : nat) : value :=
  match nth_error historicalData (length historicalData - k) with
  | Some dp => price dp
  | None => VUndefined
  end.

Definition dateFromEnd (historicalData : list DataPoint) (k : nat) : string :=
  match nth_error historicalData (length historicalData - k) with
  | Some dp => date dp
  | None => String.EmptyString
  end.

(** [runBacktest(asset, testDate, daysToPredict = 1)] *)
Definition runBacktest (asset : string) (testDate : Z) (daysToPredict : nat)
  : outcome BacktestResult :=
  (* Step 1 *)
  let historicalEndDate := startOfDay testDate in
  let historicalStartDate := addDays historicalEndDate (-30) in
  (* Step 2 *)
  match getHistoricalData asset historicalStartDate historicalEndDate with
  | Thrown e => Thrown e
  | Returned historicalData =>
  if length historicalData =? 0 then
    Thrown "No historical data available for the specified date range"%string
  else
  let currentPrice := priceFromEnd historicalData 1 in
  (* Step 3 *)
  let prices := filter isValidPrice (map price historicalData) in
  let indicators := calculateAllIndicators prices currentPrice in
  let priceChange24h :=
    if 2 <=? length historicalData then
      let yesterdayPrice := ToNumber (priceFromEnd historicalData 2) in
      mul (div (sub (ToNumber currentPrice) yesterdayPrice) yesterdayPrice)
          (Fin 100)
    else Fin 0 in
  (* Step 4 *)
  let formattedData :=
    mkFormattedData asset historicalData currentPrice
      (match nth_error historicalData (length historicalData - 1) with
       | Some dp => timestamp dp
       | None => 0%Z
       end)
      (length historicalData)
      (match historicalData with dp :: _ => date dp | [] => String.EmptyString end,
       dateFromEnd historicalData 1)
      indicators priceChange24h in
  (* Step 5 *)
  match generatePrediction formattedData with
  | Thrown e => Thrown e
  | Returned predictionResult =>
  let predictedPrice : value :=
    match prediction predictionResult with
    | Some p =>
        if truthy (priceTarget p) then VNum (priceTarget p)
        else predictionCurrentPrice predictionResult
    | None => predictionCurrentPrice predictionResult
    end in
  (* Step 6 *)
  let predictedDates :=
    map (fun i => startOfDay (addDays testDate (Z.of_nat i)))
        (seq 1 daysToPredict) in
  (* Step 7 *)
  match getPricesForDates asset predictedDates with
  | Thrown e => Thrown e
  | Returned actualPrices =>
  if length actualPrices =? 0 then
    Thrown "No actual prices found for predicted dates"%string
  else
  (* Step 8; the array is kept as the Numbers that [calculateMetrics]
     reads from its entries *)
  let predictedPrices :=
    predictedPricesFor (ToNumber predictedPrice) (ToNumber currentPrice)
                       daysToPredict in
  (* Step 9 *)
  let actualPriceArray :=
    numbersOf (filter isKnownPrice (map datedPrice actualPrices)) in
  let minLength := Nat.min (length predictedPrices) (length actualPriceArray) in
  let predictedPrices := firstn minLength predictedPrices in
  let actualPriceArray := firstn minLength actualPriceArray in
  match calculateMetrics predictedPrices actualPriceArray
                         (ToNumber currentPrice) with
  | Thrown e => Thrown e
  | Returned metrics =>
  (* Step 10 *)
  Returned
    (mkResult asset (isoDay testDate)
       (isoDay historicalStartDate, isoDay historicalEndDate)
       daysToPredict currentPrice
       (if daysToPredict =? 1 then predictedPrice
        else match nth_error predictedPrices (length predictedPrices - 1) with
             | Some x => VNum x
             | None => VUndefined
             end)
       predictedPrices
       (map (fun ap => mkDatedPrice (dayPart (priceDate ap)) (datedPrice ap))
            actualPrices)
       (match prediction predictionResult with
        | Some p =>
            mkReported
              (if String.eqb (predictionDirection p) String.EmptyString
               then "NEUTRAL"%string else predictionDirection p)
              predictedPrice
              (orElse (confidence p) (Fin 65))
              (analysis p)
        | None => mkReported "NEUTRAL"%string predictedPrice (Fin 65) String.EmptyString
        end)
       (Some metrics) indicators (length historicalData))
  end end end end.

(** The [while] loop of [runMultipleBacktests]: one turn per unit of
    [fuel]; [None] when the fuel runs out before [currentDate] passes
    [endDate].  A trial that throws is caught and leaves [results] as it
    is. *)
Fixpoint backtestLoop (fuel : nat) (asset : string) (endDate stepDays : Z)
  (daysToPredict : nat) (currentDate : Z) (results : list BacktestResult)
  : option (list BacktestResult) :=
  match fuel with
  | O => None
  | S fuel' =>
      if (currentDate <=? endDate)%Z then
        let results' :=
          match runBacktest asset currentDate daysToPredict with
          | Returned result => results ++ [result]
          | Thrown _ => results
          end in
        backtestLoop fuel' asset endDate stepDays daysToPredict
                     (addDays currentDate stepDays) results'
      else Some results
  end.

(** [runMultipleBacktests(asset, startDate, endDate, stepDays = 7,
    daysToPredict = 1)] *)
Definition runMultipleBacktests (fuel : nat) (asset : string)
  (startDate endDate stepDays : Z) (daysToPredict : nat)
  : option BatchResult :=
  match backtestLoop fuel asset endDate stepDays daysToPredict startDate []
  with
  | None => None
  | Some results =>
      let aggregateMetrics := calculateAggregateMetrics results in
      Some (mkBatch asset (isoDay startDate, isoDay endDate) stepDays
                    daysToPredict (length results) results aggregateMetrics)
  end.

End Runner.

End Backtesting.

(* ================================================================== *)
(** ** [CoinGeckoService] *)
(* ================================================================== *)

Module CoinGecko.
Import JS Backtesting.

(** The callback of the [reduce] that looks for the sample closest to
    [targetTimestamp]. *)
Definition closer (targetTimestamp : Z) (closest current : DataPoint)
  : DataPoint :=
  let closestDiff := Z.abs (timestamp closest - targetTimestamp) in
  let currentDiff := Z.abs (timestamp current - targetTimestamp) in
  if (currentDiff <? closestDiff)%Z then current else closest.

(** [dataPoints.reduce((closest, current) => ...)]: a [reduce] without an
    initial value starts from the first element and throws a [TypeError] on
    an empty array. *)
Definition closestPoint (dataPoints : list DataPoint) (targetTimestamp : Z)
  : outcome DataPoint :=
  match dataPoints with
  | [] => Thrown "Reduce of empty array with no initial value"%string
  | first :: rest => Returned (fold_left (closer targetTimestamp) rest first)
  end.

(** [d.setHours(23, 59, 59, 999)] *)
Definition endOfDay (d : Z) : Z := (startOfDay d + (msPerDay - 1))%Z.

(** [Math.min(...ts)] and [Math.max(...ts)] on a non-empty array of time
    values. *)
Definition earliest (first : Z) (rest : list Z) : Z :=
  fold_left Z.min rest first.

Definition latest (first : Z) (rest : list Z) : Z :=
  fold_left Z.max rest first.

Section Service.

(** The request to the CoinGecko API, and [d.toISOString()]. *)
Variable getHistoricalData : string -> Z -> Z -> outcome (list DataPoint).
Variable toISOString : Z -> string.

(** [getPriceOnDate(asset, date)] *)
Definition getPriceOnDate (asset : string) (date : Z) : outcome value :=
  let startDate := startOfDay date in
  let endDate := addDays (endOfDay date) 1 in
  match getHistoricalData asset startDate endDate with
  | Thrown e => Thrown e
  | Returned dataPoints =>
      if length dataPoints =? 0 then
        Thrown (String.append "No price data available for "
                  (String.append asset
                     (String.append " on " (toISOString date))))
      else
        match closestPoint dataPoints date with
        | Thrown e => Thrown e
        | Returned closestPoint => Returned (price closestPoint)
        end
  end.

(** [dates.map(date => ...)] of [getPricesForDates]: the first date whose
    callback throws ends the call. *)
Fixpoint pricesOnDates (dataPoints : list DataPoint) (dates : list Z)
  : outcome (list DatedPrice) :=
  match dates with
  | [] => Returned []
  | date :: dates' =>
      match closestPoint dataPoints date with
      | Thrown e => Thrown e
      | Returned closestPoint =>
          match pricesOnDates dataPoints dates' with
          | Thrown e => Thrown e
          | Returned prices =>
              Returned (mkDatedPrice (toISOString date) (price closestPoint)
                          :: prices)
          end
      end
  end.

(** [getPricesForDates(asset, dates)] *)
Definition getPricesForDates (asset : string) (dates : list Z)
  : outcome (list DatedPrice) :=
  match dates with
  | [] => Returned []
  | first :: rest =>
      let startDate := startOfDay (earliest first rest) in
      let endDate := addDays (endOfDay (latest first rest)) 1 in
      match getHistoricalData asset startDate endDate with
      | Thrown e => Thrown e
      | Returned dataPoints => pricesOnDates dataPoints dates
      end
  end.

End Service.

(** *** Daily prices

    The object [dailyPrices] of [getDailyPrices]: its keys are day strings
    ([YYYY-MM-DD], never an array index nor a property that every object
    has), which [Object.values] lists in the order of their first
    assignment. *)
Definition DailyTable : Type := list (string * DataPoint).

(** [dailyPrices[dayKey]] *)
Fixpoint lookupDay (dayKey : string) (dailyPrices : DailyTable)
  : option DataPoint :=
  match dailyPrices with
  | [] => None
  | (key, point) :: rest =>
      if String.eqb key dayKey then Some point else lookupDay dayKey rest
  end.

(** [dailyPrices[dayKey] = point]: a known key keeps its place, a new key
    comes last. *)
Fixpoint assignDay (dayKey : string) (point : DataPoint)
  (dailyPrices : DailyTable) : DailyTable :=
  match dailyPrices with
  | [] => [(dayKey, point)]
  | (key, current) :: rest =>
      if String.eqb key dayKey then (dayKey, point) :: rest
      else (key, current) :: assignDay dayKey point rest
  end.

(** [.sort((a, b) => a.timestamp - b.timestamp)]: the sort is stable, so
    its result is that of an insertion that puts a sample before the
    samples of the same time that came after it. *)
Fixpoint insertByTimestamp (point : DataPoint) (sorted : list DataPoint)
  : list DataPoint :=
  match sorted with
  | [] => [point]
  | next :: rest =>
      if (timestamp point <=? timestamp next)%Z then point :: next :: rest
      else next :: insertByTimestamp point rest
  end.

Definition sortByTimestamp (points : list DataPoint) : list DataPoint :=
  fold_right insertByTimestamp [] points.

Section DailyPrices.

(** The request to the CoinGecko API,
    [new Date(t).toISOString().split('T')[0]] and
    [new Date(dayKey + 'T00:00:00Z').getTime()]. *)
Variable getHistoricalData : string -> Z -> Z -> outcome (list DataPoint).
Variable dayKeyOf : Z -> string.
Variable midnightOf : string -> Z.

(** The callback of [allData.forEach]. *)
Definition recordPoint (dailyPrices : DailyTable) (point : DataPoint)
  : DailyTable :=
  let dayKey := dayKeyOf (timestamp point) in
  match lookupDay dayKey dailyPrices with
  | None => assignDay dayKey point dailyPrices
  | Some current =>
      let currentMidnight := midnightOf dayKey in
      let currentDiff := Z.abs (timestamp current - currentMidnight) in
      let newDiff := Z.abs (timestamp point - currentMidnight) in
      if (newDiff <? currentDiff)%Z then assignDay dayKey point dailyPrices
      else dailyPrices
  end.

(** The callback of the final [map]. *)
Definition dailyEntry (point : DataPoint) : DataPoint :=
  mkDataPoint (timestamp point) (dayKeyOf (timestamp point)) (price point).

(** [getDailyPrices(asset, startDate, endDate)] *)
Definition getDailyPrices (asset : string) (startDate endDate : Z)
  : outcome (list DataPoint) :=
  match getHistoricalData asset startDate endDate with
  | Thrown e => Thrown e
  | Returned allData =>
      let dailyPrices := fold_left recordPoint allData [] in
      Returned (map dailyEntry (sortByTimestamp (map snd dailyPrices)))
  end.

End DailyPrices.

End CoinGecko.

(* ================================================================== *)
(** ** Numbers with rounding *)
(* ================================================================== *)

(** The engine computes on binary64 Numbers: every sum, difference, product,
    quotient and square root is rounded to the nearest Number and overflows
    to an infinity.  The functions whose results depend on that are written
    here once more, from the source, over the operations on Numbers that
    they use; they are then read in two arithmetics:
      - [binary64], the Numbers of the engine themselves, on which the
        functions are run;
      - [rounded fl], the numbers of [JS] with every finite result rounded
        by [fl], for what holds whatever rounding to nearest does. *)

Module Numeric.

Class Number (num : Type) : Type := {
  (** an integer literal, an array length or a loop counter *)
  ofZ : Z -> num;
  add : num -> num -> num;
  sub : num -> num -> num;
  mul : num -> num -> num;
  div : num -> num -> num;
  Math_abs : num -> num;
  Math_sqrt : num -> num;
  (** [Math.pow(x, 2)] *)
  square : num -> num;
  (** [x > y], [x === y] and the truthiness of [x] *)
  gt : num -> num -> bool;
  strictEq : num -> num -> bool;
  truthy : num -> bool;
  (** [Number(x.toFixed(d))] *)
  roundTo : nat -> num -> num
}.

Section Services.

Context {num : Type} {N : Number num}.

Definition ofNat (n : nat) : num := ofZ (Z.of_nat n).

(** [x || y] on Numbers. *)
Definition orElse (x y : num) : num := if truthy x then x else y.

(** [xs.reduce((a, b) => a + b, 0)] *)
Definition sum (xs : list num) : num := fold_left add xs (ofZ 0).

(** *** [TechnicalIndicatorsService] *)

(** The array [changes] of [calculateRSI]. *)
Fixpoint priceChanges (prices : list num) : list num :=
  match prices with
  | previous :: (current :: _) as rest =>
      sub current previous :: priceChanges rest
  | _ => []
  end.

(** One turn of the second loop of [calculateRSI], on the pair
    [(gains, losses)]. *)
Definition rsiStep (acc : num * num) (change : num) : num * num :=
  let (gains, losses) := acc in
  if gt change (ofZ 0) then (add gains change, losses)
  else (gains, add losses (Math_abs change)).

Definition rsiGainsLosses (prices : list num) (period : nat) : num * num :=
  let changes := priceChanges prices in
  fold_left rsiStep (skipn (length changes - period) changes) (ofZ 0, ofZ 0).

Definition rsiAvgGain (prices : list num) (period : nat) : num :=
  div (fst (rsiGainsLosses prices period)) (ofNat period).

Definition rsiAvgLoss (prices : list num) (period : nat) : num :=
  div (snd (rsiGainsLosses prices period)) (ofNat period).

(** [calculateRSI(prices, period = 14)]; [None] is [null]. *)
Definition calculateRSI (prices : list num) (period : nat) : option num :=
  if length prices <? period + 1 then None
  else
    let avgGain := rsiAvgGain prices period in
    let avgLoss := rsiAvgLoss prices period in
    if strictEq avgLoss (ofZ 0) then Some (ofZ 100)
    else
      let rs := div avgGain avgLoss in
      Some (sub (ofZ 100) (div (ofZ 100) (add (ofZ 1) rs))).

(** The array [returns] of [calculateVolatility]. *)
Fixpoint simpleReturns (prices : list num) : list num :=
  match prices with
  | previous :: (current :: _) as rest =>
      if gt previous (ofZ 0)
      then div (sub current previous) previous :: simpleReturns rest
      else simpleReturns rest
  | _ => []
  end.

(** [returns.reduce((sum, r) => sum + Math.pow(r - mean, 2), 0)] *)
Definition sumSquaredDeviations (returns : list num) (mean : num) : num :=
  fold_left (fun acc r => add acc (square (sub r mean))) returns (ofZ 0).

(** [calculateVolatility(prices)] *)
Definition calculateVolatility (prices : list num) : option num :=
  if length prices <? 2 then None
  else
    let returns := simpleReturns prices in
    let mean := div (sum returns) (ofNat (length returns)) in
    let variance :=
      div (sumSquaredDeviations returns mean) (ofNat (length returns)) in
    let stdDev := Math_sqrt variance in
    Some (mul (mul stdDev (Math_sqrt (ofZ 365))) (ofZ 100)).

(** [getRiskLevel(volatility)] *)
Definition getRiskLevel (volatility : option num) : string :=
  match volatility with
  | None => "Unknown"%string
  | Some v =>
      if negb (truthy v) then "Unknown"%string
      else if gt v (ofZ 30) then "Very High"%string
      else if gt v (ofZ 20) then "High"%string
      else if gt v (ofZ 10) then "Medium"%string
      else "Low"%string
  end.

(** *** [BacktestingService] *)

(** The array [predictedPrices] that step 8 of [runBacktest] builds. *)
Definition predictedPricesFor (predictedPrice currentPrice : num)
  (daysToPredict : nat) : list num :=
  if daysToPredict =? 1 then [predictedPrice]
  else
    let priceChange := sub predictedPrice currentPrice in
    let dailyChange := div priceChange (ofNat daysToPredict) in
    map (fun i => add currentPrice (mul dailyChange (ofNat i)))
        (seq 1 daysToPredict).

Record MetricSet : Type := mkMetrics {
  absoluteErrors : list num;
  percentageErrors : list num;
  mae : num;
  mape : num;
  rmse : num;
  directionalAccuracy : num;
  directionalCorrect : list bool
}.

Record PointScore : Type := mkPoint {
  absoluteError : num;
  percentageError : num;
  directionOk : bool
}.

(** One turn of the loop of [calculateMetrics]. *)
Definition scorePoint (basePrice predictedPrice actualPrice : num)
  : PointScore :=
  let absoluteError := Math_abs (sub predictedPrice actualPrice) in
  let percentageError :=
    mul (Math_abs (div (sub predictedPrice actualPrice) actualPrice))
        (ofZ 100) in
  let predictedDirection := gt predictedPrice basePrice in
  let actualDirection := gt actualPrice basePrice in
  mkPoint absoluteError percentageError
          (Bool.eqb predictedDirection actualDirection).

(** The loop of [calculateMetrics]; [basePrice] is [currentPrice] at index
    [0] and [actual[i - 1]] afterwards. *)
Fixpoint scorePoints (basePrice : num) (predicted actual : list num)
  : list PointScore :=
  match predicted, actual with
  | p :: predicted', a :: actual' =>
      scorePoint basePrice p a :: scorePoints a predicted' actual'
  | _, _ => []
  end.

(** [errors.reduce((sum, err) => sum + err * err, 0)] *)
Definition sumOfSquares (errors : list num) : num :=
  fold_left (fun acc err => add acc (mul err err)) errors (ofZ 0).

(** The values of [calculateMetrics] before [toFixed]. *)
Definition unroundedMetrics (predicted actual : list num) (currentPrice : num)
  : MetricSet :=
  let points := scorePoints currentPrice predicted actual in
  let errors := map absoluteError points in
  let percentageErrors := map percentageError points in
  let directionalCorrect := map directionOk points in
  let mae := div (sum errors) (ofNat (length errors)) in
  let mape :=
    div (sum percentageErrors) (ofNat (length percentageErrors)) in
  let mse := div (sumOfSquares errors) (ofNat (length errors)) in
  let rmse := Math_sqrt mse in
  let directionalAccuracy :=
    div (ofNat (length (filter (fun b : bool => b) directionalCorrect)))
        (ofNat (length directionalCorrect)) in
  mkMetrics errors percentageErrors mae mape rmse directionalAccuracy
            directionalCorrect.

(** The object literal that [calculateMetrics] returns. *)
Definition roundMetrics (m : MetricSet) : MetricSet :=
  mkMetrics (absoluteErrors m) (percentageErrors m)
            (roundTo 4 (mae m)) (roundTo 2 (mape m)) (roundTo 4 (rmse m))
            (roundTo 4 (directionalAccuracy m)) (directionalCorrect m).

(** [calculateMetrics(predictedPrices, actualPrices, currentPrice)], called
    with an array of predicted prices. *)
Definition calculateMetrics (predicted actual : list num) (currentPrice : num)
  : Backtesting.outcome MetricSet :=
  if negb (length predicted =? length actual) then
    Backtesting.Thrown
      "Predicted and actual prices arrays must have the same length"%string
  else
    Backtesting.Returned
      (roundMetrics (unroundedMetrics predicted actual currentPrice)).

(** The result of a trial, as far as [calculateAggregateMetrics] reads it:
    its field [metrics], which may be missing. *)
Record TrialResult : Type := mkTrial {
  metrics : option MetricSet
}.

Record AggregateMetrics : Type := mkAggregate {
  averageMAE : num;
  averageMAPE : num;
  averageRMSE : num;
  averageDirectionalAccuracy : num
}.

(** [r.metrics?.field || 0] *)
Definition metricOrZero (field : MetricSet -> num) (r : TrialResult) : num :=
  match metrics r with
  | Some m => orElse (field m) (ofZ 0)
  | None => ofZ 0
  end.

(** [results.reduce((sum, r) => sum + (r.metrics?.field || 0), 0)] *)
Definition totalOf (field : MetricSet -> num) (results : list TrialResult)
  : num :=
  fold_left (fun acc r => add acc (metricOrZero field r)) results (ofZ 0).

(** [calculateAggregateMetrics(results)] *)
Definition calculateAggregateMetrics (results : list TrialResult)
  : AggregateMetrics :=
  match results with
  | [] => mkAggregate (ofZ 0) (ofZ 0) (ofZ 0) (ofZ 0)
  | _ :: _ =>
      let n := ofNat (length results) in
      mkAggregate
        (roundTo 4 (div (totalOf mae results) n))
        (roundTo 2 (div (totalOf mape results) n))
        (roundTo 4 (div (totalOf rmse results) n))
        (roundTo 4 (div (totalOf directionalAccuracy results) n))
  end.

End Services.

Arguments MetricSet num : clear implicits.
Arguments PointScore num : clear implicits.
Arguments TrialResult num : clear implicits.
Arguments AggregateMetrics num : clear implicits.

(** *** The Numbers of the engine *)

Definition float : Type := PrimFloat.float.

(** The Number nearest to an integer. *)
Definition float_ofZ (z : Z) : float :=
  FloatOps.SF2Prim
    (SpecFloat.binary_normalize FloatOps.prec FloatOps.emax z 0 false).

(** The Number nearest to [n / 10 ^ d]: what [Number] makes of the decimal
    that [toFixed] printed. *)
Definition float_ofDecimal (negative : bool) (n : Z) (d : nat) : float :=
  match n with
  | Z.pos digits =>
      FloatOps.SF2Prim
        (SpecFloat.SFdiv FloatOps.prec FloatOps.emax
           (SpecFloat.S754_finite negative digits 0)
           (SpecFloat.S754_finite false (Z.to_pos (10 ^ Z.of_nat d)) 0))
  | _ => FloatOps.SF2Prim (SpecFloat.S754_zero negative)
  end.

(** [Number(x.toFixed(d))] for [0 <= d <= 100]: [toFixed] takes the integer
    [n] for which [n / 10 ^ d] is nearest to the exact value of [x], the
    larger one of two; values of magnitude [1e21] and more, and the special
    values, are printed as [toString] prints them, so that [Number] gives
    them back. *)
Definition float_roundTo (d : nat) (x : float) : float :=
  match FloatOps.Prim2SF x with
  | SpecFloat.S754_finite negative m e =>
      if PrimFloat.leb (float_ofZ (10 ^ 21)) (PrimFloat.abs x) then x
      else
        let scaled := (Z.pos m * 10 ^ Z.of_nat d)%Z in
        let n :=
          if (0 <=? e)%Z then (scaled * 2 ^ e)%Z
          else ((2 * scaled + 2 ^ (- e)) / 2 ^ (- e + 1))%Z in
        float_ofDecimal negative n d
  | SpecFloat.S754_zero _ => float_ofZ 0
  | _ => x
  end.

(** The operations of the engine are those of IEEE-754 binary64, rounding
    to nearest, ties to even; [Math.pow(x, 2)] is read as the rounded
    product [x * x]. *)
#[global] Instance binary64 : Number float := {|
  ofZ := float_ofZ;
  add := PrimFloat.add;
  sub := PrimFloat.sub;
  mul := PrimFloat.mul;
  div := PrimFloat.div;
  Math_abs := PrimFloat.abs;
  Math_sqrt := PrimFloat.sqrt;
  square := fun x => PrimFloat.mul x x;
  gt := fun x y => PrimFloat.ltb y x;
  strictEq := PrimFloat.eqb;
  truthy := fun x => negb (PrimFloat.is_zero x || PrimFloat.is_nan x);
  roundTo := float_roundTo
|}.

(** The Number that a decimal literal [n / 10 ^ d] denotes. *)
Definition decimal (n : Z) (d : nat) : float :=
  float_ofDecimal (n <? 0)%Z (Z.abs n) d.

(** *** Real numbers with rounded results *)

Section Rounded.

Local Open Scope R_scope.

(** [fl x] is the Number that the real [x] rounds to. *)
Variable fl : R -> JS.num.

Definition rounded_add (x y : JS.num) : JS.num :=
  match x, y with
  | JS.Fin a, JS.Fin b => fl (a + b)
  | _, _ => JS.add x y
  end.

Definition rounded_sub (x y : JS.num) : JS.num :=
  match x, y with
  | JS.Fin a, JS.Fin b => fl (a - b)
  | _, _ => JS.sub x y
  end.

Definition rounded_mul (x y : JS.num) : JS.num :=
  match x, y with
  | JS.Fin a, JS.Fin b => fl (a * b)
  | _, _ => JS.mul x y
  end.

(** The only zero is the positive one, as in [JS.div]. *)
Definition rounded_div (x y : JS.num) : JS.num :=
  match x, y with
  | JS.Fin a, JS.Fin b =>
      if Req_dec_T b 0 then JS.div x y else fl (a / b)
  | _, _ => JS.div x y
  end.

Definition rounded_sqrt (x : JS.num) : JS.num :=
  match x with
  | JS.Fin r => if Rlt_dec r 0 then JS.NaN else fl (sqrt r)
  | _ => JS.Math_sqrt x
  end.

Definition rounded_square (x : JS.num) : JS.num := rounded_mul x x.

(** [toFixed] reads the exact value of [x]; [Number] rounds the decimal
    that it printed. *)
Definition rounded_roundTo (d : nat) (x : JS.num) : JS.num :=
  match JS.roundTo d x with
  | JS.Fin r => fl r
  | special => special
  end.

(** Integer literals and array lengths are Numbers, and comparisons,
    [Math.abs] and truthiness do not round. *)
Definition rounded : Number JS.num := {|
  ofZ := fun z => JS.Fin (IZR z);
  add := rounded_add;
  sub := rounded_sub;
  mul := rounded_mul;
  div := rounded_div;
  Math_abs := JS.Math_abs;
  Math_sqrt := rounded_sqrt;
  square := rounded_square;
  gt := JS.gt;
  strictEq := JS.strictEq;
  truthy := JS.truthy;
  roundTo := rounded_roundTo
|}.

End Rounded.

End Numeric.

(* ================================================================== *)
(** ** Notions of the specification *)
(* ================================================================== *)

Module Spec.
Import JS TechnicalIndicators Backtesting.

Local Open Scope R_scope.

(** The entries the specification calls strictly positive: Numbers greater
    than zero. *)
Definition isStrictlyPositive (p : value) : bool :=
  match p with
  | VNum x => gt x (Fin 0)
  | VNull | VUndefined => false
  end.

(** A finite Number other than zero. *)
Definition finiteNonZero (x : num) : Prop :=
  exists r : R, x = Fin r /\ r <> 0.

(** The sum of a list of reals. *)
Definition Rsum (xs : list R) : R := fold_right Rplus 0 xs.

(** The simple returns [(p[i] - p[i-1]) / p[i-1]] of a sequence of prices. *)
Fixpoint returnsOf (ps : list R) : list R :=
  match ps with
  | previous :: (current :: _) as rest =>
      (current - previous) / previous :: returnsOf rest
  | _ => []
  end.

(** The arithmetic mean of a list of Numbers. *)
Definition total (xs : list num) : num := fold_right add (Fin 0) xs.

Definition mean (xs : list num) : num := div (total xs) (ofNat (length xs)).

(** A trial result that carries the given metrics; its other fields, which
    the aggregation does not read, are those of a one-day trial without
    data. *)
Definition trialWithMetrics (m : option MetricSet) : BacktestResult :=
  mkResult "BTC"%string "2024-07-15"%string
           ("2024-06-15"%string, "2024-07-15"%string)
           1 VUndefined VUndefined [] []
           (mkReported "NEUTRAL"%string VUndefined (Fin 65) String.EmptyString)
           m (calculateAllIndicators [] VUndefined) 0.

(** The trial dates of a batch: [startDate], [startDate + stepDays], ... up
    to [endDate] inclusive. *)
Definition trialDates (startDate endDate stepDays : Z) : list Z :=
  if (endDate <? startDate)%Z then []
  else
    map (fun k => addDays startDate (Z.of_nat k * stepDays))
        (seq 0 (S (Z.to_nat ((endDate - startDate) / (stepDays * msPerDay))))).

(** The results of the trials that returned, in the order of their dates. *)
Definition succeeded (run : Z -> outcome BacktestResult) (dates : list Z)
  : list BacktestResult :=
  flat_map (fun d => match run d with
                     | Returned r => [r]
                     | Thrown _ => []
                     end) dates.

(** A price source and a forecaster for example scenario 3: one sample at
    price 100 in every window, a forecast of 110, and realized prices of
    105, except that no realized price exists for day 8. *)
Definition exampleHistory : string -> Z -> Z -> outcome (list DataPoint) :=
  fun _ _ _ =>
    Returned [mkDataPoint 0 "1970-01-01T00:00:00.000Z"%string (VNum (Fin 100))].

Definition exampleForecast : FormattedData -> outcome PredictionResult :=
  fun formattedData =>
    Returned (mkPredictionResult
                (Some (mkPrediction "UP"%string (Fin 110) (Fin 70) String.EmptyString))
                (fdCurrentPrice formattedData)).

Definition exampleActuals : string -> list Z -> outcome (list DatedPrice) :=
  fun _ dates =>
    if existsb (Z.eqb (8 * msPerDay)) dates then Returned []
    else Returned (map (fun _ => mkDatedPrice String.EmptyString (VNum (Fin 105))) dates).

Definition exampleIsoDay : Z -> string := fun _ => String.EmptyString.

Definition exampleDayPart : string -> string := fun s => s.

(** The distance of a sample to the target time. *)
Definition distanceTo (target : Z) (dp : DataPoint) : Z :=
  Z.abs (timestamp dp - target).

(** The entry of [getPricesForDates] for the date [d]: the date as an ISO
    string with the price of the sample closest to it. *)
Definition pricedByClosest (toISOString : Z -> string)
  (dataPoints : list DataPoint) (d : Z) (dp : DatedPrice) : Prop :=
  exists c : DataPoint,
    CoinGecko.closestPoint dataPoints d = Returned c /\
    dp = mkDatedPrice (toISOString d) (price c).

(** More collaborators for examples: a price source that is out of reach,
    and realized prices that are all [null]. *)
Definition exampleOffline : string -> Z -> Z -> outcome (list DataPoint) :=
  fun _ _ _ => Thrown "Failed to fetch CoinGecko data: timeout"%string.

Definition exampleUnknownActuals
  : string -> list Z -> outcome (list DatedPrice) :=
  fun _ dates =>
    Returned (map (fun _ => mkDatedPrice String.EmptyString VNull) dates).

(** The result of a call, for the examples in which the call returns. *)
Definition resultOf (o : outcome BacktestResult) : BacktestResult :=
  match o with
  | Returned r => r
  | Thrown _ => trialWithMetrics None
  end.

(** The first trial of example scenario 3, the same trial with unknown
    realized prices, and a two-day trial on the prices that
    [getPricesForDates] finds in the example history. *)
Definition exampleTrial : BacktestResult :=
  resultOf (runBacktest exampleHistory exampleForecast exampleActuals
              exampleIsoDay exampleDayPart "BTC"%string 0 1).

Definition exampleUnknownTrial : BacktestResult :=
  resultOf (runBacktest exampleHistory exampleForecast exampleUnknownActuals
              exampleIsoDay exampleDayPart "BTC"%string 0 1).

Definition exampleCoinGeckoTrial : BacktestResult :=
  resultOf (runBacktest exampleHistory exampleForecast
              (CoinGecko.getPricesForDates exampleHistory exampleIsoDay)
              exampleIsoDay exampleDayPart "BTC"%string 0 2).

(** Collaborators for examples of [getDailyPrices]: samples of two days,
    out of order, with the day key and the midnight of these two days. *)
Definition exampleDayKey : Z -> string :=
  fun t => if (t <? msPerDay)%Z then "1970-01-01"%string
           else "1970-01-02"%string.

Definition exampleMidnight : string -> Z :=
  fun dayKey => if String.eqb dayKey "1970-01-01" then 0%Z else msPerDay.

Definition exampleTicks : list DataPoint :=
  [mkDataPoint (msPerDay + 5) "1970-01-02T00:00:00.005Z"%string
     (VNum (Fin 103));
   mkDataPoint (msPerDay - 1) "1970-01-01T23:59:59.999Z"%string
     (VNum (Fin 102));
   mkDataPoint 3600000 "1970-01-01T01:00:00.000Z"%string
     (VNum (Fin 101));
   mkDataPoint (msPerDay + 5) "1970-01-02T00:00:00.005Z"%string
     (VNum (Fin 104))].

Definition exampleSamples : string -> Z -> Z -> outcome (list DataPoint) :=
  fun _ _ _ => Returned exampleTicks.

Definition exampleDaily : list DataPoint :=
  [mkDataPoint 3600000 "1970-01-01"%string (VNum (Fin 101));
   mkDataPoint (msPerDay + 5) "1970-01-02"%string (VNum (Fin 103))].

(** What [getDailyPrices] has in its table once it has seen the samples
    [seen]: one entry per day key, each entry a seen sample of that day that
    is as close to the day's midnight as any seen sample of the day, and an
    entry for the day of every seen sample. *)
Definition chosenPerDay (dayKeyOf : Z -> string) (midnightOf : string -> Z)
  (seen : list DataPoint) (table : CoinGecko.DailyTable) : Prop :=
  NoDup (map fst table) /\
  (forall k p, CoinGecko.lookupDay k table = Some p ->
     k = dayKeyOf (timestamp p) /\ In p seen /\
     forall q, In q seen -> dayKeyOf (timestamp q) = k ->
       (distanceTo (midnightOf k) p <= distanceTo (midnightOf k) q)%Z) /\
  (forall q, In q seen ->
     CoinGecko.lookupDay (dayKeyOf (timestamp q)) table <> None).

(** The order of the Numbers other than [NaN]. *)
Definition numLe (x y : num) : Prop :=
  match x, y with
  | NaN, _ | _, NaN => False
  | NInf, _ | _, PInf => True
  | Fin a, Fin b => a <= b
  | _, _ => False
  end.

(** What is assumed of a rounding [fl]: it keeps the order and never gives
    [NaN], it keeps 0, 1 and 100, which are Numbers, and it keeps its own
    finite results.  Rounding to the nearest binary64 Number, with overflow
    to the infinities, is such a rounding. *)
Record Rounding (fl : R -> num) : Prop := mkRounding {
  fl_monotone : forall x y : R, x <= y -> numLe (fl x) (fl y);
  fl_zero : fl 0 = Fin 0;
  fl_one : fl 1 = Fin 1;
  fl_hundred : fl 100 = Fin 100;
  fl_idempotent : forall x y : R, fl x = Fin y -> fl y = Fin y
}.

(** A rounding for examples: to the nearest integer, halves upwards, with
    overflow to the infinities from [2 ^ 62] on. *)
Definition toNearestInteger (x : R) : num :=
  let n := Zfloor (x + / 2) in
  if (2 ^ 62 <=? n)%Z then PInf
  else if (n <=? - 2 ^ 62)%Z then NInf
  else Fin (IZR n).

(** Inputs for examples on the Numbers of the engine: fifteen positive
    prices that alternate between [1e308] and 1, and three one-day trials
    whose forecasts miss the realized price 1 by about 0.00014, 0.00014 and
    0.00024. *)
Definition overflowingPrices : list Numeric.float :=
  let high := Numeric.float_ofZ (10 ^ 308) in
  let low := Numeric.float_ofZ 1 in
  [high; low; high; low; high; low; high; low; high; low; high; low; high;
   low; high].

Definition exampleForecasts : list Numeric.float :=
  [Numeric.decimal 100014 5; Numeric.decimal 100014 5;
   Numeric.decimal 100024 5].

(** The error of a one-day trial on the realized price 1, before rounding
    and as the trial stores it. *)
Definition exactError (forecast : Numeric.float) : Numeric.float :=
  Numeric.mae
    (Numeric.unroundedMetrics (N:=Numeric.binary64) [forecast]
       [Numeric.float_ofZ 1] (Numeric.float_ofZ 1)).

Definition trialOn (forecast : Numeric.float)
  : Numeric.TrialResult Numeric.float :=
  Numeric.mkTrial
    (match Numeric.calculateMetrics (N:=Numeric.binary64) [forecast]
             [Numeric.float_ofZ 1] (Numeric.float_ofZ 1) with
     | Backtesting.Returned m => Some m
     | Backtesting.Thrown _ => None
     end).

Definition exampleTrials : list (Numeric.TrialResult Numeric.float) :=
  map trialOn exampleForecasts.

(** The arithmetic mean of Numbers, as the engine would compute it. *)
Definition meanOf (xs : list Numeric.float) : Numeric.float :=
  PrimFloat.div (Numeric.sum (N:=Numeric.binary64) xs)
    (Numeric.float_ofZ (Z.of_nat (length xs))).

(** Fifteen prices for examples on rounded numbers. *)
Definition exampleCloses : list R :=
  [44; 45; 43; 46; 47; 45; 48; 49; 47; 50; 51; 49; 52; 53; 51].

End Spec.

(* ================================================================== *)
(** ** Arithmetic of [num] *)
(* ================================================================== *)

Import JS TechnicalIndicators Backtesting Spec.

Local Open Scope R_scope.

(** Decide the comparisons of reals that a goal tests, keeping the branch
    that linear arithmetic allows. *)
Ltac decide_reals :=
  repeat match goal with
  | |- context [Req_dec_T ?a ?b] =>
      destruct (Req_dec_T a b); try (exfalso; lra)
  | |- context [Rlt_dec ?a ?b] =>
      destruct (Rlt_dec a b); try (exfalso; lra)
  | |- context [Rle_dec ?a ?b] =>
      destruct (Rle_dec a b); try (exfalso; lra)
  end.

(** Equality of lists of finite numbers, entry by entry. *)
Ltac fin_lists :=
  repeat match goal with
  | |- _ :: _ = _ :: _ => f_equal
  | |- Fin _ = Fin _ => f_equal; simpl; lra
  end.

Lemma sub_Fin (a b : R) : sub (Fin a) (Fin b) = Fin (a - b).
Proof. reflexivity. Qed.

Lemma div_Fin (a b : R) : b <> 0 -> div (Fin a) (Fin b) = Fin (a / b).
Proof. intros Hb. simpl. destruct (Req_dec_T b 0); [contradiction|reflexivity]. Qed.

Lemma div_zero_Fin (b : R) : b <> 0 -> div (Fin 0) (Fin b) = Fin 0.
Proof. intros Hb. rewrite div_Fin by assumption. f_equal. unfold Rdiv. ring. Qed.

Lemma lt_Fin (a b : R) : lt (Fin a) (Fin b) = true <-> a < b.
Proof.
  simpl. destruct (Rlt_dec a b); split; intros; try assumption;
    try reflexivity; try discriminate; contradiction.
Qed.

Lemma lt_Fin_false (a b : R) : lt (Fin a) (Fin b) = false <-> b <= a.
Proof.
  simpl. destruct (Rlt_dec a b); split; intros; try discriminate;
    try reflexivity; lra.
Qed.

Lemma lt_irrefl (x : num) : lt x x = false.
Proof. destruct x; simpl; try reflexivity. decide_reals. reflexivity. Qed.

Lemma strictEq_Fin (a b : R) : strictEq (Fin a) (Fin b) = true <-> a = b.
Proof.
  simpl. destruct (Req_dec_T a b); split; intros; try assumption;
    try reflexivity; try discriminate; contradiction.
Qed.

Lemma INR_pos_of_lt (n : nat) : (0 < n)%nat -> 0 < INR n.
Proof. intros H. apply lt_0_INR. exact H. Qed.

Lemma ofNat_div_self (n : nat) : (0 < n)%nat -> div (ofNat n) (ofNat n) = Fin 1.
Proof.
  intros H. unfold ofNat. pose proof (INR_pos_of_lt H).
  rewrite div_Fin by lra. f_equal. field. lra.
Qed.

Lemma pow10_pos (d : nat) : 0 < 10 ^ d.
Proof. apply pow_lt. lra. Qed.

(** Rounding an integer leaves it as it is. *)
Lemma roundTo_IZR (d : nat) (z : Z) :
  (0 <= z)%Z -> IZR z < 10 ^ 21 -> roundTo d (Fin (IZR z)) = Fin (IZR z).
Proof.
  intros Hz Hbig. unfold roundTo.
  assert (H0 : 0 <= IZR z) by (apply IZR_le; exact Hz).
  rewrite (Rabs_pos_eq _ H0).
  destruct (Rle_dec (10 ^ 21) (IZR z)); [reflexivity|].
  destruct (Rlt_dec (IZR z) 0); [exfalso; lra|].
  f_equal.
  assert (Hf : Zfloor (IZR z * 10 ^ d + / 2) = (z * 10 ^ Z.of_nat d)%Z).
  { apply Zfloor_eq. rewrite mult_IZR. rewrite <- pow_IZR. lra. }
  rewrite Hf, mult_IZR, <- pow_IZR.
  pose proof (pow10_pos d). field. lra.
Qed.

Lemma roundTo_zero (d : nat) : roundTo d (Fin 0) = Fin 0.
Proof. apply (roundTo_IZR d (z := 0%Z)); [lia|]. pose proof (pow10_pos 21). lra. Qed.

Lemma roundTo_one (d : nat) : roundTo d (Fin 1) = Fin 1.
Proof.
  apply (roundTo_IZR d (z := 1%Z)); [lia|].
  assert (1 < 10 ^ 21); [|lra].
  apply Rlt_pow_R1; [lra|lia].
Qed.

(* ================================================================== *)
(** ** Moving averages below the window *)
(* ================================================================== *)

(** C9.  For every price sequence shorter than the window, [calculateSMA]
    and [calculateEMA] both return [null] ([None]); both are total
    functions, so that no input makes them throw. *)
Theorem sma_ema_absent_below_window (prices : list num) (period : nat) :
  (length prices < period)%nat ->
  calculateSMA prices period = None /\ calculateEMA prices period = None.
Proof.
  intros Hshort. unfold calculateSMA, calculateEMA.
  apply Nat.ltb_lt in Hshort. rewrite Hshort. split; reflexivity.
Qed.

Lemma sma_ema_absent_below_window_witness :
  calculateSMA [Fin 1; Fin 2; Fin 3] 7 = None /\
  calculateEMA [Fin 1; Fin 2; Fin 3] 7 = None.
Proof. apply sma_ema_absent_below_window. simpl. lia. Defined.

(* ================================================================== *)
(** ** The price filter of [calculateAllIndicators] *)
(* ================================================================== *)

Lemma isValidPrice_strictly_positive (p : value) :
  isValidPrice p = isStrictlyPositive p.
Proof.
  destruct p as [| |x]; try reflexivity.
  destruct x as [r| | |]; simpl; try reflexivity.
  unfold gt; simpl.
  destruct (Req_dec_T r 0) as [->|Hr]; simpl; [|reflexivity].
  destruct (Rlt_dec 0 0); [exfalso; lra|reflexivity].
Qed.

Lemma filter_isValidPrice_idem (prices : list value) :
  filter isValidPrice (filter isValidPrice prices) = filter isValidPrice prices.
Proof.
  induction prices as [|p ps IH]; simpl; [reflexivity|].
  destruct (isValidPrice p) eqn:Hp; simpl; [rewrite Hp, IH|]; auto.
Qed.

Lemma calculateAllIndicators_filter_twice (prices : list value)
  (currentPrice : value) :
  calculateAllIndicators prices currentPrice =
    calculateAllIndicators (filter isStrictlyPositive prices) currentPrice /\
  calculateAllIndicators (filter isValidPrice prices) currentPrice =
    calculateAllIndicators prices currentPrice.
Proof.
  assert (Hidem :
    calculateAllIndicators (filter isValidPrice prices) currentPrice =
    calculateAllIndicators prices currentPrice).
  { unfold calculateAllIndicators. rewrite filter_isValidPrice_idem.
    reflexivity. }
  split; [|exact Hidem].
  rewrite <- Hidem. f_equal.
  apply filter_ext. exact isValidPrice_strictly_positive.
Qed.

(** C10.  [calculateAllIndicators] gives the same snapshot on a list of
    prices and on its sublist of strictly positive entries: [null],
    [undefined], [NaN], zero and negative entries have no influence (and,
    the function being total, cannot make it fail).  The filter that
    [runBacktest] applies before the call therefore changes nothing. *)
Theorem calculateAllIndicators_ignores_invalid (prices : list value)
  (currentPrice : value) :
  calculateAllIndicators prices currentPrice =
    calculateAllIndicators (filter isStrictlyPositive prices) currentPrice /\
  calculateAllIndicators (filter isValidPrice prices) currentPrice =
    calculateAllIndicators prices currentPrice.
Proof. apply calculateAllIndicators_filter_twice. Qed.

(* ================================================================== *)
(** ** The predicted path, without rounding *)
(* ================================================================== *)

Lemma predictedPricesFor_many (target current : R) (n : nat) :
  (2 <= n)%nat ->
  predictedPricesFor (Fin target) (Fin current) n =
    map (fun i => Fin (current + (target - current) * INR i / INR n))
        (seq 1 n).
Proof.
  intros Hn. unfold predictedPricesFor.
  destruct (Nat.eqb_spec n 1) as [->|_]; [lia|].
  assert (Hpos : 0 < INR n) by (apply lt_0_INR; lia).
  apply map_ext. intros i. unfold ofNat.
  rewrite sub_Fin, div_Fin by lra. simpl. f_equal. field. lra.
Qed.

(** In exact arithmetic the path that [runBacktest] builds is the
    interpolation [currentPrice + (target - currentPrice) * i / n]; on the
    Numbers of the engine, where the daily change is rounded before it is
    multiplied, the two can differ in the last digits. *)
Lemma predictedPricesFor_exact_interpolation (target current : R) (n : nat) :
  (1 <= n)%nat ->
  predictedPricesFor (Fin target) (Fin current) n =
    map (fun i => Fin (current + (target - current) * INR i / INR n))
        (seq 1 n).
Proof.
  intros Hn. destruct (Nat.eq_dec n 1) as [->|Hne].
  - unfold predictedPricesFor. simpl. f_equal. f_equal. field.
  - apply predictedPricesFor_many. lia.
Qed.

(* ================================================================== *)
(** ** The scorer, index by index *)
(* ================================================================== *)

Lemma scorePoints_length (base : num) (predicted actual : list num) :
  length predicted = length actual ->
  length (scorePoints base predicted actual) = length predicted.
Proof.
  revert base actual.
  induction predicted as [|p ps IH]; intros base [|a acts] Hlen;
    simpl in *; try reflexivity; try discriminate.
  f_equal. apply IH. lia.
Qed.

Lemma scorePoints_nth_error (predicted actual : list num) :
  forall (base : num) (i : nat) (p a : num),
    nth_error predicted i = Some p ->
    nth_error actual i = Some a ->
    nth_error (scorePoints base predicted actual) i =
      Some (scorePoint (basePriceAt base actual i) p a).
Proof.
  revert actual.
  induction predicted as [|p0 ps IH]; intros [|a0 acts] base i p a Hp Ha;
    try (destruct i; discriminate).
  destruct i as [|i]; simpl in *.
  - inversion Hp; inversion Ha; subst. reflexivity.
  - rewrite (IH acts a0 i p a Hp Ha).
    destruct i as [|i]; reflexivity.
Qed.

Lemma calculateMetrics_returns (predicted actual : list num) (currentPrice : num) :
  length predicted = length actual ->
  calculateMetrics predicted actual currentPrice =
    Returned (roundMetrics (unroundedMetrics predicted actual currentPrice)).
Proof.
  intros Hlen. unfold calculateMetrics.
  rewrite Hlen, Nat.eqb_refl. reflexivity.
Qed.

Lemma percentageError_Fin (base : num) (p a : R) :
  percentageError (scorePoint base (Fin p) (Fin a)) =
    if Req_dec_T a 0 then (if Req_dec_T p 0 then NaN else PInf)
    else Fin (Rabs (p - a) / Rabs a * 100).
Proof.
  unfold scorePoint; simpl.
  destruct (Req_dec_T a 0) as [->|Ha].
  - destruct (Req_dec_T (p + - 0) 0), (Req_dec_T p 0);
      try (exfalso; lra); [reflexivity|].
    destruct (Rlt_dec 0 (p + - 0)); simpl; unfold scaleInf; decide_reals;
      reflexivity.
  - simpl. f_equal. unfold Rdiv at 1. rewrite Rabs_mult, Rabs_inv.
    reflexivity.
Qed.



Lemma percentageError_zero_actual_aux :
  calculateMetrics [Fin 1] [Fin 0] (Fin 1) =
    Returned (roundMetrics (unroundedMetrics [Fin 1] [Fin 0] (Fin 1))) /\
  nth_error
    (percentageErrors (roundMetrics (unroundedMetrics [Fin 1] [Fin 0] (Fin 1))))
    0 = Some PInf.
Proof.
  split; [reflexivity|].
  change (Some (percentageError (scorePoint (Fin 1) (Fin 1) (Fin 0))) =
          Some PInf).
  rewrite percentageError_Fin. decide_reals. reflexivity.
Qed.


(* ================================================================== *)
(** ** Scoring a sequence against itself *)
(* ================================================================== *)

#[local] Arguments add : simpl never.
#[local] Arguments sub : simpl never.
#[local] Arguments mul : simpl never.
#[local] Arguments div : simpl never.
#[local] Arguments ofNat : simpl never.
#[local] Arguments roundTo : simpl never.
#[local] Arguments Math_sqrt : simpl never.
#[local] Arguments Math_abs : simpl never.
#[local] Arguments lt : simpl never.
#[local] Arguments gt : simpl never.
#[local] Arguments strictEq : simpl never.

Lemma add_Fin (a b : R) : add (Fin a) (Fin b) = Fin (a + b).
Proof. reflexivity. Qed.

Lemma mul_Fin (a b : R) : mul (Fin a) (Fin b) = Fin (a * b).
Proof. reflexivity. Qed.

Lemma Math_abs_Fin (a : R) : Math_abs (Fin a) = Fin (Rabs a).
Proof. reflexivity. Qed.

Lemma Math_sqrt_Fin (a : R) : 0 <= a -> Math_sqrt (Fin a) = Fin (sqrt a).
Proof.
  intros Ha. unfold Math_sqrt. destruct (Rlt_dec a 0); [exfalso; lra|].
  reflexivity.
Qed.

Lemma sum_zeros_from (A : Type) (xs : list A) :
  fold_left add (map (fun _ => Fin 0) xs) (Fin 0) = Fin 0.
Proof.
  induction xs as [|x xs IH]; simpl; [reflexivity|].
  rewrite add_Fin. replace (0 + 0) with 0 by lra. exact IH.
Qed.

Lemma sumOfSquares_zeros (A : Type) (xs : list A) :
  sumOfSquares (map (fun _ => Fin 0) xs) = Fin 0.
Proof.
  unfold sumOfSquares.
  induction xs as [|x xs IH]; simpl; [reflexivity|].
  rewrite mul_Fin, add_Fin. replace (0 + 0 * 0) with 0 by lra. exact IH.
Qed.

Lemma scorePoint_self (base : num) (r : R) :
  r <> 0 ->
  scorePoint base (Fin r) (Fin r) = mkPoint (Fin 0) (Fin 0) true.
Proof.
  intros Hr. unfold scorePoint.
  rewrite sub_Fin. replace (r - r) with 0 by lra.
  rewrite div_zero_Fin by exact Hr.
  rewrite !Math_abs_Fin, mul_Fin, Rabs_R0, Rmult_0_l.
  destruct (gt (Fin r) base); reflexivity.
Qed.

Lemma scorePoints_self (s : list num) :
  Forall finiteNonZero s ->
  forall base, scorePoints base s s = map (fun _ => mkPoint (Fin 0) (Fin 0) true) s.
Proof.
  induction 1 as [|x xs [r [-> Hr]] _ IH]; intros base; simpl;
    [reflexivity|].
  fold (scorePoint base (Fin r) (Fin r)).
  rewrite (scorePoint_self base Hr), IH. reflexivity.
Qed.

Lemma filter_all_true (A : Type) (xs : list A) :
  filter (fun b : bool => b) (map (fun _ => true) xs) = map (fun _ => true) xs.
Proof. induction xs; simpl; congruence. Qed.

(** The whole [MetricSet] of a sequence of finite non-zero values scored
    against itself. *)
Lemma calculateMetrics_self (s : list num) (anchor : num) :
  s <> [] ->
  Forall finiteNonZero s ->
  calculateMetrics s s anchor =
    Returned (mkMetrics (map (fun _ => Fin 0) s) (map (fun _ => Fin 0) s)
                        (Fin 0) (Fin 0) (Fin 0) (Fin 1)
                        (map (fun _ => true) s)).
Proof.
  intros Hne Hs.
  assert (Hlen : (0 < length s)%nat)
    by (destruct s; [contradiction|simpl; lia]).
  assert (Hn : INR (length s) <> 0)
    by (pose proof (INR_pos_of_lt Hlen); lra).
  rewrite calculateMetrics_returns by reflexivity.
  unfold unroundedMetrics, roundMetrics; simpl.
  rewrite (scorePoints_self Hs anchor).
  rewrite !map_map; simpl.
  rewrite filter_all_true, sumOfSquares_zeros.
  unfold sum. rewrite sum_zeros_from.
  rewrite !length_map.
  rewrite ofNat_div_self by exact Hlen.
  unfold ofNat. rewrite div_zero_Fin by exact Hn.
  rewrite Math_sqrt_Fin by lra. rewrite sqrt_0.
  rewrite !roundTo_zero, roundTo_one.
  reflexivity.
Qed.

(** C8, as the code has it.  For every non-empty sequence [s] of finite
    non-zero values and every anchor (any Number), scoring [s] against
    itself returns [mae = 0], [mape = 0], [rmse = 0] and
    [directionalAccuracy = 1]. *)
Theorem scoring_identical_sequences (s : list num) (anchor : num) :
  s <> [] ->
  Forall finiteNonZero s ->
  exists m,
    calculateMetrics s s anchor = Returned m /\
    mae m = Fin 0 /\ mape m = Fin 0 /\ rmse m = Fin 0 /\
    directionalAccuracy m = Fin 1.
Proof.
  intros Hne Hs. eexists. split.
  - apply calculateMetrics_self; assumption.
  - simpl. repeat split; reflexivity.
Qed.

Lemma finiteNonZero_Fin (r : R) : r <> 0 -> finiteNonZero (Fin r).
Proof. intros Hr. exists r. split; [reflexivity|exact Hr]. Qed.

Lemma scoring_identical_sequences_witness :
  exists m,
    calculateMetrics [Fin 3; Fin (-2); Fin 3] [Fin 3; Fin (-2); Fin 3] NaN =
      Returned m /\
    mae m = Fin 0 /\ mape m = Fin 0 /\ rmse m = Fin 0 /\
    directionalAccuracy m = Fin 1.
Proof.
  apply scoring_identical_sequences.
  - discriminate.
  - repeat constructor; apply finiteNonZero_Fin; lra.
Defined.

Lemma mape_of_zero_against_zero :
  mape (roundMetrics (unroundedMetrics [Fin 0] [Fin 0] (Fin 1))) = NaN.
Proof.
  change (roundTo 2
            (div (sum [percentageError (scorePoint (Fin 1) (Fin 0) (Fin 0))])
                 (ofNat 1)) = NaN).
  rewrite percentageError_Fin. decide_reals. reflexivity.
Qed.

(** C8, as stated, fails: the sequence [[0]] scored against itself has
    [mape = NaN]. *)
Lemma scoring_identical_zero_counterexample :
  ~ (exists m,
       calculateMetrics [Fin 0] [Fin 0] (Fin 1) = Returned m /\
       mae m = Fin 0 /\ mape m = Fin 0 /\ rmse m = Fin 0 /\
       directionalAccuracy m = Fin 1).
Proof.
  intros [m [Hm [_ [Hmape _]]]].
  rewrite calculateMetrics_returns in Hm by reflexivity.
  inversion Hm; subst m. rewrite mape_of_zero_against_zero in Hmape.
  discriminate.
Qed.

(* ================================================================== *)
(** ** Example scenario 2 *)
(* ================================================================== *)

(** C5, as the code has it.  Scoring [predicted = [100, 105]] against
    [actual = [100, 105]] with anchor [100] gives [mae = 0], [mape = 0],
    [rmse = 0], [directionalAccuracy = 1] and
    [directionalCorrect = [true, true]]: at index 0 neither price is above
    the anchor, both directions are 'down', and they match. *)
Theorem scenario2_metrics :
  calculateMetrics [Fin 100; Fin 105] [Fin 100; Fin 105] (Fin 100) =
    Returned (mkMetrics [Fin 0; Fin 0] [Fin 0; Fin 0]
                        (Fin 0) (Fin 0) (Fin 0) (Fin 1) [true; true]).
Proof.
  apply (@calculateMetrics_self [Fin 100; Fin 105] (Fin 100)).
  - discriminate.
  - repeat constructor; apply finiteNonZero_Fin; lra.
Qed.

(** C5, as stated, fails: [directionalCorrect] is not [[false, true]]. *)
Lemma scenario2_directionalCorrect_counterexample :
  ~ (exists m,
       calculateMetrics [Fin 100; Fin 105] [Fin 100; Fin 105] (Fin 100) =
         Returned m /\
       mae m = Fin 0 /\ rmse m = Fin 0 /\ mape m = Fin 0 /\
       directionalAccuracy m = Fin 1 /\
       directionalCorrect m = [false; true]).
Proof.
  intros [m [Hm [_ [_ [_ [_ Hdir]]]]]].
  rewrite calculateMetrics_returns in Hm by reflexivity.
  inversion Hm; subst m. simpl in Hdir.
  unfold gt in Hdir. rewrite lt_irrefl in Hdir. discriminate.
Qed.

(* ================================================================== *)
(** ** Changes, windows and quotients *)
(* ================================================================== *)

Lemma priceChanges_length (prices : list num) :
  length (priceChanges prices) = (length prices - 1)%nat.
Proof.
  induction prices as [|x xs IH]; [reflexivity|].
  destruct xs as [|y ys]; [reflexivity|].
  change (S (length (priceChanges (y :: ys))) = length (y :: ys) - 0)%nat.
  rewrite IH. simpl. lia.
Qed.

Lemma Forall_skipn (A : Type) (P : A -> Prop) (n : nat) (xs : list A) :
  Forall P xs -> Forall P (skipn n xs).
Proof.
  revert xs. induction n as [|n IH]; intros xs H; [exact H|].
  destruct H; simpl; [constructor|apply IH; assumption].
Qed.

Lemma Rdiv_nonneg (a b : R) : 0 <= a -> 0 < b -> 0 <= a / b.
Proof. intros Ha Hb. apply Rle_mult_inv_pos; assumption. Qed.

(* ================================================================== *)
(** ** Sums of finite numbers *)
(* ================================================================== *)

Lemma fold_add_Fin (xs : list R) (a : R) :
  fold_left add (map Fin xs) (Fin a) = Fin (a + Rsum xs).
Proof.
  revert a. induction xs as [|x xs IH]; intros a; simpl.
  - f_equal. lra.
  - rewrite add_Fin, IH. f_equal. lra.
Qed.

Lemma sum_Fin (xs : list R) : sum (map Fin xs) = Fin (Rsum xs).
Proof. unfold sum. rewrite fold_add_Fin. f_equal. lra. Qed.

Lemma Rsum_nonneg (xs : list R) :
  Forall (fun x => 0 <= x) xs -> 0 <= Rsum xs.
Proof. induction 1; simpl; lra. Qed.

(* ================================================================== *)
(** ** Volatility of positive prices, in exact arithmetic *)
(* ================================================================== *)

Lemma simpleReturns_positive (ps : list R) :
  Forall (fun p => 0 < p) ps ->
  simpleReturns (map Fin ps) = map Fin (returnsOf ps).
Proof.
  induction 1 as [|a ps Ha Hps IH]; [reflexivity|].
  destruct ps as [|b ps]; [reflexivity|].
  change (simpleReturns (map Fin (a :: b :: ps))) with
    (if gt (Fin a) (Fin 0)
     then div (sub (Fin b) (Fin a)) (Fin a) :: simpleReturns (map Fin (b :: ps))
     else simpleReturns (map Fin (b :: ps))).
  assert (Hgt : gt (Fin a) (Fin 0) = true) by (apply lt_Fin; exact Ha).
  rewrite Hgt, IH, sub_Fin, div_Fin by lra. reflexivity.
Qed.

Lemma returnsOf_length (ps : list R) :
  length (returnsOf ps) = (length ps - 1)%nat.
Proof.
  induction ps as [|a ps IH]; [reflexivity|].
  destruct ps as [|b ps]; [reflexivity|].
  change (S (length (returnsOf (b :: ps))) = length (b :: ps) - 0)%nat.
  rewrite IH. simpl. lia.
Qed.

Lemma sumSquaredDeviations_Fin (rs : list R) (m : R) :
  sumSquaredDeviations (map Fin rs) (Fin m) =
    Fin (Rsum (map (fun r => (r - m) * (r - m)) rs)).
Proof.
  unfold sumSquaredDeviations.
  assert (H : forall a,
    fold_left (fun acc r => add acc (Math_pow (sub r (Fin m)) 2))
              (map Fin rs) (Fin a) =
    Fin (a + Rsum (map (fun r => (r - m) * (r - m)) rs))).
  { induction rs as [|r rs IH]; intros a; simpl.
    - f_equal. lra.
    - rewrite sub_Fin, !mul_Fin, add_Fin, IH. f_equal. lra. }
  rewrite H. f_equal. lra.
Qed.

Lemma squares_nonneg (rs : list R) (m : R) :
  Forall (fun x => 0 <= x) (map (fun r => (r - m) * (r - m)) rs).
Proof.
  induction rs as [|r rs IH]; simpl; constructor; [|exact IH].
  apply Rle_0_sqr.
Qed.

(** The value [calculateVolatility] returns on finite positive prices. *)
Lemma calculateVolatility_positive_prices (ps : list R) :
  Forall (fun p => 0 < p) ps ->
  (2 <= length ps)%nat ->
  let rs := returnsOf ps in
  let m := Rsum rs / INR (length rs) in
  let variance :=
    Rsum (map (fun r => (r - m) * (r - m)) rs) / INR (length rs) in
  calculateVolatility (map Fin ps) =
    Some (Fin (sqrt variance * sqrt 365 * 100)) /\ 0 <= variance.
Proof.
  intros Hpos Hlen rs m variance.
  assert (Hrs : (0 < length rs)%nat)
    by (unfold rs; rewrite returnsOf_length; lia).
  assert (Hn : 0 < INR (length rs)) by (apply lt_0_INR; exact Hrs).
  assert (Hvar : 0 <= variance).
  { apply Rdiv_nonneg; [|exact Hn].
    apply Rsum_nonneg, squares_nonneg. }
  split; [|exact Hvar].
  unfold calculateVolatility. rewrite length_map.
  destruct (Nat.ltb_spec (length ps) 2) as [Hlt|_]; [lia|].
  rewrite (simpleReturns_positive Hpos). fold rs.
  rewrite length_map, sum_Fin. unfold ofNat.
  rewrite div_Fin by lra. fold m.
  rewrite sumSquaredDeviations_Fin, div_Fin by lra. fold variance.
  rewrite Math_sqrt_Fin by exact Hvar.
  rewrite (@Math_sqrt_Fin 365) by lra.
  rewrite !mul_Fin. reflexivity.
Qed.

(* ================================================================== *)
(** ** Batches of trials *)
(* ================================================================== *)

Section Batches.

Variable getHistoricalData : string -> Z -> Z -> outcome (list DataPoint).
Variable generatePrediction : FormattedData -> outcome PredictionResult.
Variable getPricesForDates : string -> list Z -> outcome (list DatedPrice).
Variable isoDay : Z -> string.
Variable dayPart : string -> string.

Variable asset : string.
Variable endDate stepDays : Z.
Variable daysToPredict : nat.

Let trial (d : Z) : outcome BacktestResult :=
  runBacktest getHistoricalData generatePrediction getPricesForDates
              isoDay dayPart asset d daysToPredict.

Let loop (fuel : nat) (currentDate : Z) (results : list BacktestResult) :=
  backtestLoop getHistoricalData generatePrediction getPricesForDates
               isoDay dayPart fuel asset endDate stepDays daysToPredict
               currentDate results.

Let datesFrom (currentDate : Z) (n : nat) : list Z :=
  map (fun k => addDays currentDate (Z.of_nat k * stepDays)) (seq 0 n).

Lemma datesFrom_succ (currentDate : Z) (n : nat) :
  datesFrom currentDate (S n) =
    currentDate :: datesFrom (addDays currentDate stepDays) n.
Proof.
  unfold datesFrom. simpl. f_equal.
  - unfold addDays. lia.
  - rewrite <- seq_shift, map_map. apply map_ext. intros k.
    unfold addDays. lia.
Qed.

(** The loop visits [n] more dates when the [n]-th date from [currentDate]
    is the first one past [endDate]. *)
Lemma backtestLoop_visits (n : nat) :
  forall (fuel : nat) (currentDate : Z) (results : list BacktestResult),
    (n < fuel)%nat ->
    (endDate < currentDate + Z.of_nat n * (stepDays * msPerDay))%Z ->
    (n <> O ->
     currentDate + (Z.of_nat n - 1) * (stepDays * msPerDay) <= endDate)%Z ->
    (0 < stepDays)%Z ->
    loop fuel currentDate results =
      Some (results ++ succeeded trial (datesFrom currentDate n)).
Proof.
  unfold loop.
  induction n as [|n IH]; intros fuel currentDate results Hfuel Hpast Hin Hstep;
    (destruct fuel as [|fuel]; [lia|]); simpl backtestLoop.
  - destruct (Z.leb_spec currentDate endDate) as [Hle|_]; [lia|].
    simpl. rewrite app_nil_r. reflexivity.
  - assert (Hms : (0 < stepDays * msPerDay)%Z) by (unfold msPerDay; lia).
    assert (Hcur : (currentDate <= endDate)%Z).
    { specialize (Hin ltac:(discriminate)). nia. }
    destruct (Z.leb_spec currentDate endDate) as [_|Hgt]; [|lia].
    rewrite datesFrom_succ.
    rewrite IH; try lia.
    + simpl. fold (trial currentDate).
      destruct (trial currentDate); simpl.
      * rewrite <- app_assoc. reflexivity.
      * reflexivity.
    + unfold addDays. nia.
    + intros Hn. specialize (Hin ltac:(discriminate)).
      unfold addDays. nia.
Qed.

Lemma trialDates_datesFrom (startDate : Z) :
  (startDate <= endDate)%Z ->
  trialDates startDate endDate stepDays =
    datesFrom startDate
      (S (Z.to_nat ((endDate - startDate) / (stepDays * msPerDay)))).
Proof.
  intros Hle. unfold trialDates.
  destruct (Z.ltb_spec endDate startDate) as [Hlt|_]; [lia|reflexivity].
Qed.

Lemma runMultipleBacktests_returns (startDate : Z) (fuel : nat) :
  (0 < stepDays)%Z ->
  (length (trialDates startDate endDate stepDays) < fuel)%nat ->
  loop fuel startDate [] =
    Some (succeeded trial (trialDates startDate endDate stepDays)).
Proof.
  intros Hstep Hfuel.
  assert (Hms : (0 < stepDays * msPerDay)%Z) by (unfold msPerDay; lia).
  destruct (Z.lt_ge_cases endDate startDate) as [Hlt|Hge].
  - unfold trialDates in *.
    destruct (Z.ltb_spec endDate startDate) as [_|Hle]; [|lia].
    apply (@backtestLoop_visits 0 fuel startDate []); simpl in *; try lia.
  - rewrite (trialDates_datesFrom Hge) in *.
    unfold datesFrom in Hfuel. rewrite length_map, length_seq in Hfuel.
    set (q := ((endDate - startDate) / (stepDays * msPerDay))%Z) in *.
    assert (Hq : (0 <= q)%Z) by (apply Z.div_pos; lia).
    pose proof (Z.mul_div_le (endDate - startDate) _ Hms) as Hlo.
    pose proof (Z.mul_succ_div_gt (endDate - startDate) _ Hms) as Hhi.
    fold q in Hlo, Hhi.
    apply (@backtestLoop_visits (S (Z.to_nat q)) fuel startDate []);
      try assumption.
    + rewrite Nat2Z.inj_succ, Z2Nat.id by exact Hq. lia.
    + intros _. rewrite Nat2Z.inj_succ, Z2Nat.id by exact Hq. lia.
Qed.

End Batches.

Lemma succeeded_length (run : Z -> outcome BacktestResult) (dates : list Z) :
  length (succeeded run dates) =
    length (filter (fun d => isReturned (run d)) dates).
Proof.
  induction dates as [|d dates IH]; [reflexivity|].
  simpl. destruct (run d); simpl; rewrite <- IH; reflexivity.
Qed.

Lemma succeeded_none (run : Z -> outcome BacktestResult) (dates : list Z) :
  Forall (fun d => isReturned (run d) = false) dates ->
  succeeded run dates = [].
Proof.
  induction 1 as [|d dates Hd _ IH]; [reflexivity|].
  simpl. destruct (run d); [discriminate|exact IH].
Qed.

(** C2.  With a positive step, a batch returns once the loop has run over
    all its trial dates; a trial that throws is left out and the others
    still run: [results] holds the results of the trials that returned,
    [totalTests] is their number, the aggregate metrics are those of these
    results alone, and when no trial returns the aggregate metrics are all
    zero (and [totalTests] is 0). *)
Theorem batch_excludes_failed_trials
  (getHistoricalData : string -> Z -> Z -> outcome (list DataPoint))
  (generatePrediction : FormattedData -> outcome PredictionResult)
  (getPricesForDates : string -> list Z -> outcome (list DatedPrice))
  (isoDay : Z -> string) (dayPart : string -> string)
  (asset : string) (startDate endDate stepDays : Z)
  (daysToPredict fuel : nat) :
  (0 < stepDays)%Z ->
  (length (trialDates startDate endDate stepDays) < fuel)%nat ->
  let trial :=
    fun d => runBacktest getHistoricalData generatePrediction
               getPricesForDates isoDay dayPart asset d daysToPredict in
  let dates := trialDates startDate endDate stepDays in
  exists batch : BatchResult,
    runMultipleBacktests getHistoricalData generatePrediction
      getPricesForDates isoDay dayPart fuel asset startDate endDate stepDays
      daysToPredict = Some batch /\
    results batch = succeeded trial dates /\
    totalTests batch =
      length (filter (fun d => isReturned (trial d)) dates) /\
    aggregateMetrics batch = calculateAggregateMetrics (succeeded trial dates) /\
    (Forall (fun d => isReturned (trial d) = false) dates ->
     totalTests batch = O /\
     aggregateMetrics batch = mkAggregate (Fin 0) (Fin 0) (Fin 0) (Fin 0)).
Proof.
  intros Hstep Hfuel trial dates.
  unfold runMultipleBacktests.
  rewrite (@runMultipleBacktests_returns getHistoricalData generatePrediction
             getPricesForDates isoDay dayPart asset endDate stepDays
             daysToPredict startDate fuel Hstep Hfuel).
  fold trial. fold dates.
  eexists. split; [reflexivity|]. cbn [results totalTests aggregateMetrics].
  split; [reflexivity|]. split; [apply succeeded_length|].
  split; [reflexivity|].
  intros Hnone. rewrite (succeeded_none _ Hnone). split; reflexivity.
Qed.

Lemma batch_excludes_failed_trials_witness :
  let trial :=
    fun d => runBacktest exampleHistory exampleForecast exampleActuals
               exampleIsoDay exampleDayPart "BTC"%string d 1 in
  let dates := trialDates 0 (14 * msPerDay) 7 in
  exists batch : BatchResult,
    runMultipleBacktests exampleHistory exampleForecast exampleActuals
      exampleIsoDay exampleDayPart 4 "BTC"%string 0 (14 * msPerDay) 7 1 =
      Some batch /\
    results batch = succeeded trial dates /\
    totalTests batch =
      length (filter (fun d => isReturned (trial d)) dates) /\
    aggregateMetrics batch = calculateAggregateMetrics (succeeded trial dates) /\
    (Forall (fun d => isReturned (trial d) = false) dates ->
     totalTests batch = O /\
     aggregateMetrics batch = mkAggregate (Fin 0) (Fin 0) (Fin 0) (Fin 0)).
Proof.
  apply (@batch_excludes_failed_trials exampleHistory exampleForecast
           exampleActuals exampleIsoDay exampleDayPart "BTC"%string
           0 (14 * msPerDay) 7 1 4).
  - lia.
  - vm_compute. lia.
Defined.

(** Example scenario 3: of the three trials of the batch, the second one
    throws for want of realized prices, and the batch reports the two
    others. *)
Example scenario3_two_of_three_trials :
  trialDates 0 (14 * msPerDay) 7 = [0; 7 * msPerDay; 14 * msPerDay]%Z /\
  map (fun d => isReturned
                  (runBacktest exampleHistory exampleForecast exampleActuals
                     exampleIsoDay exampleDayPart "BTC"%string d 1))
      [0; 7 * msPerDay; 14 * msPerDay]%Z = [true; false; true] /\
  exists batch : BatchResult,
    runMultipleBacktests exampleHistory exampleForecast exampleActuals
      exampleIsoDay exampleDayPart 4 "BTC"%string 0 (14 * msPerDay) 7 1 =
      Some batch /\
    totalTests batch = 2%nat.
Proof.
  assert (Hdates :
    trialDates 0 (14 * msPerDay) 7 = [0; 7 * msPerDay; 14 * msPerDay]%Z)
    by (vm_compute; reflexivity).
  assert (Hruns :
    map (fun d => isReturned
                    (runBacktest exampleHistory exampleForecast exampleActuals
                       exampleIsoDay exampleDayPart "BTC"%string d 1))
        [0; 7 * msPerDay; 14 * msPerDay]%Z = [true; false; true])
    by (lazy; reflexivity).
  split; [exact Hdates|]. split; [exact Hruns|].
  unfold runMultipleBacktests.
  rewrite (@runMultipleBacktests_returns exampleHistory exampleForecast
             exampleActuals exampleIsoDay exampleDayPart "BTC"%string
             (14 * msPerDay) 7 1 0 4);
    [|lia|rewrite Hdates; simpl; lia].
  eexists. split; [reflexivity|]. cbn [totalTests].
  rewrite succeeded_length, Hdates.
  rewrite <- (length_map (fun d => d)).
  assert (Hcount : forall (f : Z -> bool) (ds : list Z),
             length (filter f ds) = length (filter (fun b : bool => b) (map f ds))).
  { intros f ds. induction ds as [|d ds IH]; [reflexivity|].
    simpl. destruct (f d); simpl; rewrite IH; reflexivity. }
  rewrite map_id, Hcount, Hruns. reflexivity.
Qed.

(* ================================================================== *)
(** ** What a returned trial holds *)
(* ================================================================== *)

Section Trials.

Variable getHistoricalData : string -> Z -> Z -> outcome (list DataPoint).
Variable generatePrediction : FormattedData -> outcome PredictionResult.
Variable getPricesForDates : string -> list Z -> outcome (list DatedPrice).
Variable isoDay : Z -> string.
Variable dayPart : string -> string.

Let trial := runBacktest getHistoricalData generatePrediction
               getPricesForDates isoDay dayPart.

(** A trial that returns has found history, a forecast and realized prices;
    its indicators are those of the unfiltered history, its predicted path
    is a prefix of the interpolated one, and its metrics are the scorer's,
    for this path and as many realized prices. *)
Lemma runBacktest_returned (asset : string) (testDate : Z) (n : nat)
  (r : BacktestResult) :
  trial asset testDate n = Returned r ->
  exists (historicalData : list DataPoint) (actual : list num) (m : MetricSet),
    getHistoricalData asset (addDays (startOfDay testDate) (-30))
                      (startOfDay testDate) = Returned historicalData /\
    historicalData <> [] /\
    resultCurrentPrice r = priceFromEnd historicalData 1 /\
    technicalIndicators r =
      calculateAllIndicators (map price historicalData) (resultCurrentPrice r) /\
    (exists k,
       predictedPrices r =
         firstn k (predictedPricesFor
                     (ToNumber (reportedPriceTarget (resultPrediction r)))
                     (ToNumber (resultCurrentPrice r)) n)) /\
    metrics r = Some m /\
    calculateMetrics (predictedPrices r) actual
                     (ToNumber (resultCurrentPrice r)) = Returned m.
Proof.
  unfold trial, runBacktest. intros Hrun.
  destruct (getHistoricalData asset (addDays (startOfDay testDate) (-30))
              (startOfDay testDate)) as [historicalData|] eqn:Hhist;
    [|discriminate].
  destruct (Nat.eqb_spec (length historicalData) 0) as [|Hlen];
    [discriminate|].
  destruct (generatePrediction _) as [predictionResult|] eqn:Hpred;
    [|discriminate].
  destruct (getPricesForDates asset _) as [actualPrices|] eqn:Hact;
    [|discriminate].
  destruct (length actualPrices =? 0); [discriminate|].
  destruct (calculateMetrics _ _ _) as [m|] eqn:Hm; [|discriminate].
  inversion Hrun; subst r; clear Hrun. cbn [resultCurrentPrice
    technicalIndicators predictedPrices metrics resultPrediction].
  eexists historicalData, _, m.
  split; [reflexivity|].
  split; [intros ->; apply Hlen; reflexivity|].
  split; [reflexivity|].
  split; [apply (proj2 (calculateAllIndicators_filter_twice _ _))|].
  split; [|split; [reflexivity|exact Hm]].
  destruct (prediction predictionResult); eexists; reflexivity.
Qed.

End Trials.

(* ================================================================== *)
(** ** The indicators on small inputs *)
(* ================================================================== *)

(** Finite arithmetic, one operation at a time. *)
Ltac num_eval :=
  unfold ofNat, sum; simpl;
  repeat (first
    [ rewrite add_Fin | rewrite sub_Fin | rewrite mul_Fin
    | rewrite Math_abs_Fin
    | rewrite div_Fin by (simpl; lra) ]).

Example calculateSMA_last_two :
  calculateSMA [Fin 1; Fin 2; Fin 3; Fin 4] 2 = Some (Fin (7 / 2)).
Proof.
  unfold calculateSMA. simpl. num_eval. do 2 f_equal. simpl. lra.
Qed.

Example calculateEMA_three_prices :
  calculateEMA [Fin 1; Fin 2; Fin 3] 2 = Some (Fin (5 / 2)).
Proof.
  unfold calculateEMA, emaStep. simpl. num_eval. do 2 f_equal.
  simpl. lra.
Qed.

Example calculateRSI_rising_prices :
  calculateRSI (map Fin [1; 2; 3; 4; 5; 6; 7; 8; 9; 10; 11; 12; 13; 14; 15]) 14
  = Some (Fin 100).
Proof.
  unfold calculateRSI, rsiAvgLoss, rsiAvgGain, rsiGainsLosses. simpl.
  num_eval. unfold rsiStep.
  repeat match goal with
  | |- context [gt (Fin ?a) (Fin 0)] =>
      replace (gt (Fin a) (Fin 0)) with true
        by (symmetry; apply lt_Fin; lra)
  end.
  num_eval.
  match goal with
  | |- context [strictEq (Fin ?a) (Fin 0)] =>
      replace (strictEq (Fin a) (Fin 0)) with true
        by (symmetry; apply strictEq_Fin; lra)
  end.
  reflexivity.
Qed.

Example calculateRSI_mixed_prices :
  calculateRSI
    (map Fin [10; 10; 10; 10; 10; 10; 10; 10; 10; 10; 10; 10; 10; 13; 12]) 14
  = Some (Fin 75).
Proof.
  unfold calculateRSI, rsiAvgLoss, rsiAvgGain, rsiGainsLosses. simpl.
  num_eval. unfold rsiStep.
  repeat match goal with
  | |- context [gt (Fin (?a - ?b)) (Fin 0)] =>
      first
        [ replace (gt (Fin (a - b)) (Fin 0)) with true
            by (symmetry; apply lt_Fin; lra)
        | replace (gt (Fin (a - b)) (Fin 0)) with false
            by (symmetry; apply lt_Fin_false; lra) ]
  end.
  num_eval.
  replace (Rabs (10 - 10)) with 0 by (rewrite Rabs_pos_eq; lra).
  replace (Rabs (12 - 13)) with 1 by (rewrite Rabs_left; lra).
  match goal with
  | |- context [strictEq (Fin ?a) (Fin 0)] =>
      replace (strictEq (Fin a) (Fin 0)) with false
        by (symmetry; unfold strictEq; decide_reals; reflexivity)
  end.
  num_eval. do 2 f_equal. lra.
Qed.

(** Example scenario 1: ten prices rising from 100 to 115. *)
Example calculateTrend_scenario1 :
  let t := calculateTrend
             (map Fin [100; 102; 101; 105; 108; 107; 110; 112; 111; 115]) in
  direction t = uptrend /\ priceChange t = Fin 15.
Proof.
  unfold calculateTrend. simpl. num_eval.
  assert (Hchange : (115 - 100) / 100 * 100 = 15) by lra.
  rewrite Hchange.
  replace (gt (Fin 15) (Fin 1)) with true by (symmetry; apply lt_Fin; lra).
  split; reflexivity.
Qed.

Example calculateVolatility_geometric_prices :
  calculateVolatility [Fin 1; Fin 2; Fin 4] = Some (Fin 0).
Proof.
  destruct (@calculateVolatility_positive_prices [1; 2; 4]) as [Hvol _];
    [repeat constructor; lra|simpl; lia|].
  change (map Fin [1; 2; 4]) with [Fin 1; Fin 2; Fin 4] in Hvol.
  rewrite Hvol. simpl.
  match goal with
  | |- context [sqrt ?x * _ * _] => replace x with 0 by field
  end.
  rewrite sqrt_0. do 2 f_equal. ring.
Qed.

Example roundTo_two_decimals : roundTo 2 (Fin (314159 / 100000)) = Fin (314 / 100).
Proof.
  unfold roundTo.
  assert (H21 : 10 ^ 2 <= 10 ^ 21) by (apply Rle_pow; [lra|lia]).
  assert (H2 : 10 ^ 2 = 100) by (simpl; lra).
  rewrite Rabs_pos_eq by lra.
  destruct (Rle_dec (10 ^ 21) (314159 / 100000)); [exfalso; lra|].
  destruct (Rlt_dec (314159 / 100000) 0); [exfalso; lra|].
  rewrite (@Zfloor_eq 314) by (rewrite H2; lra).
  rewrite H2. reflexivity.
Qed.

(* ================================================================== *)
(** ** Moving averages of finite prices *)
(* ================================================================== *)

(** On exactly [period] prices the exponential moving average is its seed,
    the simple moving average. *)
Theorem calculateEMA_of_one_window (prices : list num) :
  calculateEMA prices (length prices) = calculateSMA prices (length prices).
Proof.
  unfold calculateEMA, calculateSMA. rewrite Nat.ltb_irrefl.
  rewrite firstn_all, skipn_all. simpl. f_equal. f_equal. f_equal.
  unfold sliceLast. destruct (length prices) eqn:E; [reflexivity|].
  rewrite Nat.sub_diag. reflexivity.
Qed.

(* ================================================================== *)
(** ** The trailing window of the relative strength index *)
(* ================================================================== *)

Lemma priceChanges_cons2 (a b : num) (rest : list num) :
  priceChanges (a :: b :: rest) = sub b a :: priceChanges (b :: rest).
Proof. reflexivity. Qed.

Lemma priceChanges_app (older : list num) (r : num) (recent : list num) :
  priceChanges (older ++ r :: recent) =
    priceChanges (older ++ [r]) ++ priceChanges (r :: recent).
Proof.
  induction older as [|a older IH]; [reflexivity|].
  destruct older as [|b older].
  - simpl app. rewrite !priceChanges_cons2. reflexivity.
  - change ((a :: b :: older) ++ r :: recent)
      with (a :: b :: (older ++ r :: recent)).
    change ((a :: b :: older) ++ [r]) with (a :: b :: (older ++ [r])).
    rewrite !priceChanges_cons2.
    change (b :: older ++ r :: recent) with ((b :: older) ++ r :: recent).
    change (b :: older ++ [r]) with ((b :: older) ++ [r]).
    rewrite IH. reflexivity.
Qed.

Lemma skipn_app_exact (A : Type) (xs ys : list A) (n : nat) :
  length ys = n -> skipn (length (xs ++ ys) - n) (xs ++ ys) = ys.
Proof.
  intros <-. rewrite length_app, Nat.add_sub.
  rewrite skipn_app, Nat.sub_diag, skipn_all. reflexivity.
Qed.

(** The relative strength index and the simple moving average read only the
    end of the series: prices older than the last [period + 1] (for the
    index) or the last [period] (for the average) have no influence. *)
Theorem indicators_read_trailing_window (older recent : list num)
  (period : nat) :
  (length recent = S period ->
   calculateRSI (older ++ recent) period = calculateRSI recent period) /\
  (1 <= period -> length recent = period ->
   calculateSMA (older ++ recent) period = calculateSMA recent period)%nat.
Proof.
  split.
  - intros Hlen. unfold calculateRSI.
    rewrite length_app, Hlen.
    destruct (Nat.ltb_spec (length older + S period) (period + 1)); [lia|].
    destruct (Nat.ltb_spec (S period) (period + 1)); [lia|].
    assert (Hgl : rsiGainsLosses (older ++ recent) period =
                  rsiGainsLosses recent period).
    { unfold rsiGainsLosses. destruct recent as [|r recent]; [discriminate|].
      rewrite priceChanges_app.
      assert (Hc : length (priceChanges (r :: recent)) = period).
      { rewrite priceChanges_length. simpl in *. lia. }
      rewrite (skipn_app_exact _ _ Hc).
      rewrite Hc, Nat.sub_diag. reflexivity. }
    unfold rsiAvgGain, rsiAvgLoss. rewrite Hgl. reflexivity.
  - intros Hp Hlen. unfold calculateSMA.
    rewrite length_app, Hlen.
    destruct (Nat.ltb_spec (length older + period) period); [lia|].
    rewrite Nat.ltb_irrefl. unfold sliceLast.
    destruct period as [|k]; [lia|].
    rewrite <- Hlen at 1.
    rewrite (skipn_app_exact older recent eq_refl).
    rewrite Hlen, Nat.sub_diag. reflexivity.
Qed.

Lemma indicators_read_trailing_window_witness :
  calculateRSI ([Fin 9; Fin 1] ++ [Fin 1; Fin 2; Fin 1]) 2 =
    calculateRSI [Fin 1; Fin 2; Fin 1] 2 /\
  calculateSMA ([Fin 9; Fin 1] ++ [Fin 2; Fin 1]) 2 =
    calculateSMA [Fin 2; Fin 1] 2.
Proof.
  split.
  - apply (proj1 (indicators_read_trailing_window
                    [Fin 9; Fin 1] [Fin 1; Fin 2; Fin 1] 2)).
    reflexivity.
  - apply (proj2 (indicators_read_trailing_window
                    [Fin 9; Fin 1] [Fin 2; Fin 1] 2)).
    + lia.
    + reflexivity.
Defined.

(* ================================================================== *)
(** ** The relative strength index of one-way series *)
(* ================================================================== *)

Lemma priceChanges_sorted (rel : R -> R -> Prop) (P : R -> Prop) (ps : list R) :
  (forall a b, rel a b -> P (b - a)) ->
  Sorted rel ps ->
  Forall (fun c => exists r, c = Fin r /\ P r) (priceChanges (map Fin ps)).
Proof.
  intros Hrel. induction 1 as [|a ps Hs IH Hhd]; [constructor|].
  destruct Hhd as [|b ps Hab]; [constructor|].
  change (map Fin (a :: b :: ps)) with (Fin a :: Fin b :: map Fin ps).
  rewrite priceChanges_cons2. constructor; [|exact IH].
  exists (b - a). split; [reflexivity|apply Hrel; exact Hab].
Qed.

Lemma rsiStep_fold_no_loss (changes : list num) :
  Forall (fun c => exists r, c = Fin r /\ 0 <= r) changes ->
  forall g : R, exists g' : R,
    fold_left rsiStep changes (Fin g, Fin 0) = (Fin g', Fin 0).
Proof.
  induction 1 as [|c cs [r [-> Hr]] _ IH]; intros g; simpl.
  - exists g. reflexivity.
  - destruct (gt (Fin r) (Fin 0)) eqn:Hgt.
    + rewrite add_Fin. apply IH.
    + apply lt_Fin_false in Hgt.
      rewrite Math_abs_Fin, add_Fin.
      replace (0 + Rabs r) with 0; [apply IH|].
      replace r with 0 by lra. rewrite Rabs_R0. lra.
Qed.

Lemma rsiStep_fold_no_gain (changes : list num) :
  Forall (fun c => exists r, c = Fin r /\ r < 0) changes ->
  forall l : R, exists l' : R,
    fold_left rsiStep changes (Fin 0, Fin l) = (Fin 0, Fin l') /\
    l <= l' /\ (changes <> [] -> l < l').
Proof.
  induction 1 as [|c cs [r [-> Hr]] _ IH]; intros l; simpl.
  - exists l. split; [reflexivity|]. split; [lra|]. intros H; contradiction.
  - assert (Hgt : gt (Fin r) (Fin 0) = false) by (apply lt_Fin_false; lra).
    rewrite Hgt, Math_abs_Fin, add_Fin.
    destruct (IH (l + Rabs r)) as [l' [Hfold [Hle _]]].
    exists l'. split; [exact Hfold|].
    assert (0 < Rabs r) by (apply Rabs_pos_lt; lra).
    split; [lra|]. intros _. lra.
Qed.

Lemma changes_window_nonempty (ps : list R) (period : nat) :
  (1 <= period)%nat -> (S period <= length ps)%nat ->
  skipn (length (priceChanges (map Fin ps)) - period)
        (priceChanges (map Fin ps)) <> [].
Proof.
  intros Hp Hlen E.
  assert (Hl : length (skipn (length (priceChanges (map Fin ps)) - period)
                         (priceChanges (map Fin ps))) = period).
  { rewrite length_skipn, priceChanges_length, length_map. lia. }
  rewrite E in Hl. simpl in Hl. lia.
Qed.

Lemma calculateRSI_no_loss (ps : list R) (period : nat) :
  (1 <= period)%nat -> (S period <= length ps)%nat ->
  Sorted Rle ps ->
  calculateRSI (map Fin ps) period = Some (Fin 100).
Proof.
  intros Hp Hlen Hsorted.
  unfold calculateRSI. rewrite length_map.
  destruct (Nat.ltb_spec (length ps) (period + 1)); [lia|].
  unfold rsiAvgLoss, rsiGainsLosses.
  destruct (@rsiStep_fold_no_loss
              (skipn (length (priceChanges (map Fin ps)) - period)
                     (priceChanges (map Fin ps)))
              (Forall_skipn _
                 (@priceChanges_sorted Rle (fun r => 0 <= r) ps
                    ltac:(intros; lra) Hsorted)) 0) as [g Hfold].
  rewrite Hfold. cbn [snd]. unfold ofNat.
  assert (Hn : 0 < INR period) by (apply lt_0_INR; lia).
  rewrite div_zero_Fin by lra.
  replace (strictEq (Fin 0) (Fin 0)) with true
    by (symmetry; apply strictEq_Fin; reflexivity).
  reflexivity.
Qed.

(** Prices that never fall (flat prices included) have an index of 100,
    which [getRSIInterpretation] calls overbought. *)
Theorem rsi_of_rising_prices (ps : list R) (period : nat) :
  (1 <= period)%nat -> (S period <= length ps)%nat ->
  Sorted Rle ps ->
  calculateRSI (map Fin ps) period = Some (Fin 100) /\
  getRSIInterpretation (calculateRSI (map Fin ps) period) =
    "Overbought"%string.
Proof.
  intros Hp Hlen Hsorted.
  pose proof (calculateRSI_no_loss Hp Hlen Hsorted) as Hrsi.
  split; [exact Hrsi|]. rewrite Hrsi.
  unfold getRSIInterpretation, truthy.
  destruct (Req_dec_T 100 0); [exfalso; lra|]. cbn [negb].
  replace (gt (Fin 100) (Fin 70)) with true
    by (symmetry; apply lt_Fin; lra).
  reflexivity.
Qed.

Lemma rsi_of_rising_prices_witness :
  calculateRSI (map Fin [5; 5; 6]) 2 = Some (Fin 100) /\
  getRSIInterpretation (calculateRSI (map Fin [5; 5; 6]) 2) =
    "Overbought"%string.
Proof.
  apply rsi_of_rising_prices.
  - lia.
  - simpl. lia.
  - repeat constructor; lra.
Defined.

(** Prices that fall at every step have an index of 0, and
    [getRSIInterpretation], which tests [!rsi], reports this 0 as
    insufficient data, not as oversold. *)
Theorem rsi_of_falling_prices (ps : list R) (period : nat) :
  (1 <= period)%nat -> (S period <= length ps)%nat ->
  Sorted (fun a b => b < a) ps ->
  calculateRSI (map Fin ps) period = Some (Fin 0) /\
  getRSIInterpretation (calculateRSI (map Fin ps) period) =
    "Insufficient data"%string.
Proof.
  intros Hp Hlen Hsorted.
  assert (Hrsi : calculateRSI (map Fin ps) period = Some (Fin 0)).
  { unfold calculateRSI. rewrite length_map.
    destruct (Nat.ltb_spec (length ps) (period + 1)); [lia|].
    unfold rsiAvgLoss, rsiAvgGain, rsiGainsLosses.
    destruct (@rsiStep_fold_no_gain
                (skipn (length (priceChanges (map Fin ps)) - period)
                       (priceChanges (map Fin ps)))
                (Forall_skipn _
                   (@priceChanges_sorted (fun a b => b < a) (fun r => r < 0)
                      ps ltac:(intros; lra) Hsorted)) 0)
      as [l [Hfold [_ Hl]]].
    specialize (Hl (changes_window_nonempty ps Hp Hlen)).
    rewrite Hfold. cbn [fst snd]. unfold ofNat.
    assert (Hn : 0 < INR period) by (apply lt_0_INR; lia).
    assert (Havg : 0 < l / INR period) by (apply Rdiv_lt_0_compat; lra).
    rewrite div_zero_Fin by lra. rewrite div_Fin by lra.
    replace (strictEq (Fin (l / INR period)) (Fin 0)) with false
      by (symmetry; unfold strictEq; decide_reals; reflexivity).
    rewrite div_zero_Fin by lra. rewrite add_Fin.
    rewrite div_Fin by lra. rewrite sub_Fin. do 2 f_equal. field. }
  split; [exact Hrsi|]. rewrite Hrsi.
  unfold getRSIInterpretation, truthy.
  destruct (Req_dec_T 0 0) as [_|Hne]; [reflexivity|].
  exfalso. apply Hne. reflexivity.
Qed.

Lemma rsi_of_falling_prices_witness :
  calculateRSI (map Fin [9; 7; 4]) 2 = Some (Fin 0) /\
  getRSIInterpretation (calculateRSI (map Fin [9; 7; 4]) 2) =
    "Insufficient data"%string.
Proof.
  apply rsi_of_falling_prices.
  - lia.
  - simpl. lia.
  - repeat constructor; lra.
Defined.

(* ================================================================== *)
(** ** The snapshot of [calculateAllIndicators] *)
(* ================================================================== *)

(** Which indicators a snapshot holds depends only on the number [k] of
    strictly positive entries: the averages need 7, 30 and 12 of them, the
    index 15 and the volatility 2; below 10 the trend is the neutral one;
    the current price is handed through as it is. *)
Theorem indicator_presence (prices : list value) (cp : value) :
  let k := length (filter isStrictlyPositive prices) in
  let snapshot := calculateAllIndicators prices cp in
  (sma7 snapshot = None <-> k < 7)%nat /\
  (sma30 snapshot = None <-> k < 30)%nat /\
  (ema12 snapshot = None <-> k < 12)%nat /\
  (rsi snapshot = None <-> k < 15)%nat /\
  (volatility snapshot = None <-> k < 2)%nat /\
  ((k < 10)%nat -> trend snapshot = mkTrend neutral (Fin 0) (Fin 0)) /\
  currentPrice snapshot = cp.
Proof.
  intros k snapshot.
  assert (Hk : length (numbersOf (filter isValidPrice prices)) = k).
  { unfold numbersOf, k. rewrite length_map.
    rewrite (filter_ext _ _ isValidPrice_strictly_positive). reflexivity. }
  unfold snapshot, calculateAllIndicators.
  cbn [sma7 sma30 ema12 rsi volatility trend currentPrice].
  unfold calculateSMA, calculateEMA, calculateRSI, calculateVolatility,
    calculateTrend.
  rewrite Hk.
  repeat split;
    try (destruct (Nat.ltb_spec k 7); intros; (lia || discriminate || reflexivity));
    try (destruct (Nat.ltb_spec k 30); intros; (lia || discriminate || reflexivity));
    try (destruct (Nat.ltb_spec k 12); intros; (lia || discriminate || reflexivity));
    try (destruct (Nat.ltb_spec k 2); intros; (lia || discriminate || reflexivity));
    try (destruct (Nat.ltb_spec k 10); intros; (lia || discriminate || reflexivity)).
  - destruct (Nat.ltb_spec k (14 + 1)); intros; [lia|].
    destruct (strictEq _ _); discriminate.
  - destruct (Nat.ltb_spec k (14 + 1)); intros; [reflexivity|lia].
Qed.

Lemma indicator_presence_witness :
  let prices := [VNum (Fin 3); VNull; VNum (Fin 0); VNum (Fin 4)] in
  let k := length (filter isStrictlyPositive prices) in
  let snapshot := calculateAllIndicators prices VNull in
  (sma7 snapshot = None <-> k < 7)%nat /\
  (sma30 snapshot = None <-> k < 30)%nat /\
  (ema12 snapshot = None <-> k < 12)%nat /\
  (rsi snapshot = None <-> k < 15)%nat /\
  (volatility snapshot = None <-> k < 2)%nat /\
  ((k < 10)%nat -> trend snapshot = mkTrend neutral (Fin 0) (Fin 0)) /\
  currentPrice snapshot = VNull.
Proof.
  apply (indicator_presence
           [VNum (Fin 3); VNull; VNum (Fin 0); VNum (Fin 4)] VNull).
Defined.

(* ================================================================== *)
(** ** Rounding to a fixed number of decimals *)
(* ================================================================== *)

Lemma pow10_IZR (n : nat) : 10 ^ n = IZR (10 ^ Z.of_nat n).
Proof. rewrite <- pow_IZR. reflexivity. Qed.

(** What [roundTo] gives on a finite number below [1e21]. *)
Lemma roundTo_below (d : nat) (r : R) :
  Rabs r < 10 ^ 21 ->
  roundTo d (Fin r) =
    Fin ((if Rlt_dec r 0 then - IZR (Zfloor (Rabs r * 10 ^ d + / 2))
          else IZR (Zfloor (Rabs r * 10 ^ d + / 2))) / 10 ^ d).
Proof.
  intros Hr. unfold roundTo.
  destruct (Rle_dec (10 ^ 21) (Rabs r)); [exfalso; lra|reflexivity].
Qed.

Lemma roundTo_above (d : nat) (r : R) :
  10 ^ 21 <= Rabs r -> roundTo d (Fin r) = Fin r.
Proof.
  intros Hr. unfold roundTo.
  destruct (Rle_dec (10 ^ 21) (Rabs r)); [reflexivity|contradiction].
Qed.

(** Rounding keeps the order of non-negative numbers. *)
Lemma roundTo_monotone (d : nat) (x y : R) :
  0 <= x <= y ->
  exists x' y' : R,
    roundTo d (Fin x) = Fin x' /\ roundTo d (Fin y) = Fin y' /\
    0 <= x' <= y'.
Proof.
  intros [Hx Hxy].
  pose proof (pow10_pos d) as Hd.
  assert (Hfloor : forall z, 0 <= z ->
            0 <= IZR (Zfloor (z * 10 ^ d + / 2)) / 10 ^ d).
  { intros z Hz. apply Rdiv_nonneg; [|exact Hd].
    apply IZR_le, Zfloor_lub. simpl. nra. }
  destruct (Rle_dec (10 ^ 21) y) as [Hybig|Hysmall].
  - destruct (Rle_dec (10 ^ 21) x) as [Hxbig|Hxsmall].
    + exists x, y. rewrite !roundTo_above by (rewrite Rabs_pos_eq; lra).
      repeat split; lra.
    + rewrite (@roundTo_above d y) by (rewrite Rabs_pos_eq; lra).
      rewrite roundTo_below by (rewrite Rabs_pos_eq; lra).
      destruct (Rlt_dec x 0); [exfalso; lra|].
      rewrite Rabs_pos_eq by lra.
      eexists _, y. split; [reflexivity|]. split; [reflexivity|].
      split; [apply Hfloor; exact Hx|].
      assert (Hcap : (Zfloor (x * 10 ^ d + / 2) <= 10 ^ Z.of_nat (21 + d))%Z).
      { assert (Hlt : (Zfloor (x * 10 ^ d + / 2) <
                       10 ^ Z.of_nat (21 + d) + 1)%Z); [|lia].
        apply lt_IZR. rewrite plus_IZR, <- pow10_IZR, pow_add.
        pose proof (Zfloor_bound (x * 10 ^ d + / 2)) as [Hlo _].
        assert (x * 10 ^ d < 10 ^ 21 * 10 ^ d)
          by (apply Rmult_lt_compat_r; lra).
        lra. }
      apply IZR_le in Hcap. rewrite <- pow10_IZR, pow_add in Hcap.
      apply Rle_trans with (10 ^ 21); [|exact Hybig].
      replace (10 ^ 21) with (10 ^ 21 * 10 ^ d / 10 ^ d) by (field; lra).
      apply Rmult_le_compat_r;
        [apply Rlt_le, Rinv_0_lt_compat; exact Hd|exact Hcap].
  - rewrite !roundTo_below by (rewrite Rabs_pos_eq; lra).
    destruct (Rlt_dec x 0); [exfalso; lra|].
    destruct (Rlt_dec y 0); [exfalso; lra|].
    rewrite !Rabs_pos_eq by lra.
    eexists _, _. split; [reflexivity|]. split; [reflexivity|].
    split; [apply Hfloor; exact Hx|].
    apply Rmult_le_compat_r;
      [apply Rlt_le, Rinv_0_lt_compat; exact Hd|].
    apply IZR_le, Zfloor_le.
    assert (x * 10 ^ d <= y * 10 ^ d)
      by (apply Rmult_le_compat_r; lra).
    lra.
Qed.

(* ================================================================== *)
(** ** Ranges of the metrics *)
(* ================================================================== *)

Lemma count_true_le (bs : list bool) :
  (length (filter (fun b : bool => b) bs) <= length bs)%nat.
Proof. apply filter_length_le. Qed.

(** Whatever the prices are ([NaN] and infinities included), scoring two
    non-empty arrays of the same length returns three per-index arrays of
    that length and a directional accuracy between 0 and 1. *)
Theorem metrics_shape (predicted actual : list num) (currentPrice : num) :
  predicted <> [] ->
  length predicted = length actual ->
  exists (m : MetricSet) (v : R),
    calculateMetrics predicted actual currentPrice = Returned m /\
    length (absoluteErrors m) = length predicted /\
    length (percentageErrors m) = length predicted /\
    length (directionalCorrect m) = length predicted /\
    directionalAccuracy m = Fin v /\ 0 <= v <= 1.
Proof.
  intros Hne Hlen.
  rewrite calculateMetrics_returns by exact Hlen.
  set (points := scorePoints currentPrice predicted actual).
  assert (Hpts : length points = length predicted)
    by (apply scorePoints_length; exact Hlen).
  assert (Hn : 0 < INR (length points)).
  { apply lt_0_INR. rewrite Hpts. destruct predicted; [contradiction|].
    simpl. lia. }
  set (correct := map directionOk points).
  assert (Hcl : length correct = length points) by apply length_map.
  assert (Hratio : 0 <= INR (length (filter (fun b : bool => b) correct)) /
                        INR (length points) <= 1).
  { split.
    - apply Rdiv_nonneg; [apply pos_INR|exact Hn].
    - pose proof (count_true_le correct) as Hle.
      rewrite Hcl in Hle. apply le_INR in Hle.
      unfold Rdiv.
      replace 1 with (INR (length points) * / INR (length points))
        by (field; lra).
      apply Rmult_le_compat_r; [|exact Hle].
      apply Rlt_le, Rinv_0_lt_compat. exact Hn. }
  destruct (@roundTo_monotone 4 _ _ Hratio) as [v [one [Hv [Hone Hb]]]].
  rewrite roundTo_one in Hone. inversion Hone; subst one.
  eexists. exists v. split; [reflexivity|].
  unfold roundMetrics, unroundedMetrics.
  cbn [absoluteErrors percentageErrors directionalCorrect directionalAccuracy].
  fold points. fold correct. rewrite !length_map. fold correct.
  rewrite ?Hcl.
  repeat split; try exact Hpts; try lra.
  unfold ofNat. rewrite div_Fin by lra. exact Hv.
Qed.

Lemma metrics_shape_witness :
  exists (m : MetricSet) (v : R),
    calculateMetrics [NaN; Fin 2] [Fin 1; PInf] (Fin 1) = Returned m /\
    length (absoluteErrors m) = length [NaN; Fin 2] /\
    length (percentageErrors m) = length [NaN; Fin 2] /\
    length (directionalCorrect m) = length [NaN; Fin 2] /\
    directionalAccuracy m = Fin v /\ 0 <= v <= 1.
Proof. apply metrics_shape; [discriminate|reflexivity]. Defined.

(** The direction at index [i] is judged against the price before it, the
    anchor at index 0 and [actual[i - 1]] afterwards, and against nothing
    else: it is correct when the predicted and the actual price are both
    above this base price, or both not above it. *)
Theorem directionalCorrect_at_index (predicted actual : list num)
  (currentPrice : num) (i : nat) (p a : num) :
  length predicted = length actual ->
  nth_error predicted i = Some p ->
  nth_error actual i = Some a ->
  exists m,
    calculateMetrics predicted actual currentPrice = Returned m /\
    nth_error (directionalCorrect m) i =
      Some (Bool.eqb (gt p (basePriceAt currentPrice actual i))
                     (gt a (basePriceAt currentPrice actual i))).
Proof.
  intros Hlen Hp Ha. eexists. split.
  - apply calculateMetrics_returns. exact Hlen.
  - simpl. rewrite nth_error_map.
    rewrite (@scorePoints_nth_error predicted actual currentPrice i _ _ Hp Ha).
    reflexivity.
Qed.

Lemma directionalCorrect_at_index_witness :
  exists m,
    calculateMetrics [Fin 5; Fin 9] [Fin 7; Fin 8] (Fin 6) = Returned m /\
    nth_error (directionalCorrect m) 1 =
      Some (Bool.eqb (gt (Fin 9) (basePriceAt (Fin 6) [Fin 7; Fin 8] 1))
                     (gt (Fin 8) (basePriceAt (Fin 6) [Fin 7; Fin 8] 1))).
Proof.
  apply (@directionalCorrect_at_index [Fin 5; Fin 9] [Fin 7; Fin 8]
           (Fin 6) 1 (Fin 9) (Fin 8)); reflexivity.
Defined.

(* ================================================================== *)
(** ** The aggregate of a single trial *)
(* ================================================================== *)

Lemma Zfloor_half (k : Z) : Zfloor (IZR k + / 2) = k.
Proof. apply Zfloor_eq. lra. Qed.

(** A rounded number is left as it is by a second rounding. *)
Lemma roundTo_idempotent (d : nat) (x : num) :
  roundTo d (roundTo d x) = roundTo d x.
Proof.
  destruct x as [r| | |]; try reflexivity.
  pose proof (pow10_pos d) as Hd.
  destruct (Rle_dec (10 ^ 21) (Rabs r)) as [Hbig|Hsmall].
  - rewrite !(@roundTo_above d r) by exact Hbig. reflexivity.
  - rewrite (@roundTo_below d r) by lra.
    set (k := Zfloor (Rabs r * 10 ^ d + / 2)).
    assert (Hk : (0 <= k)%Z).
    { apply Zfloor_lub. pose proof (Rabs_pos r). simpl. nra. }
    apply IZR_le in Hk. simpl in Hk.
    set (r' := (if Rlt_dec r 0 then - IZR k else IZR k) / 10 ^ d).
    assert (Habs : Rabs r' = IZR k / 10 ^ d).
    { unfold r'. destruct (Rlt_dec r 0).
      - replace (- IZR k / 10 ^ d) with (- (IZR k / 10 ^ d)) by (field; lra).
        rewrite Rabs_Ropp. apply Rabs_pos_eq. apply Rdiv_nonneg; lra.
      - apply Rabs_pos_eq. apply Rdiv_nonneg; lra. }
    destruct (Rle_dec (10 ^ 21) (Rabs r')) as [Hbig'|Hsmall'].
    + apply roundTo_above. exact Hbig'.
    + rewrite (@roundTo_below d r') by lra.
      rewrite Habs.
      replace (IZR k / 10 ^ d * 10 ^ d) with (IZR k) by (field; lra).
      rewrite Zfloor_half. f_equal. unfold r'.
      destruct (Rlt_dec r 0) as [Hr|Hr].
      * destruct (Rlt_dec (- IZR k / 10 ^ d) 0) as [Hn|Hn]; [reflexivity|].
        assert (Hz : IZR k = 0).
        { assert (0 <= - IZR k / 10 ^ d) by lra.
          assert (0 <= IZR k / 10 ^ d) by (apply Rdiv_nonneg; lra).
          assert (- IZR k / 10 ^ d = - (IZR k / 10 ^ d)) by (field; lra).
          assert (Hq : IZR k / 10 ^ d = 0) by lra.
          unfold Rdiv in Hq. apply Rmult_integral in Hq.
          destruct Hq as [Hq|Hq]; [exact Hq|].
          pose proof (Rinv_0_lt_compat _ Hd). lra. }
        rewrite Hz. f_equal. lra.
      * destruct (Rlt_dec (IZR k / 10 ^ d) 0) as [Hn|Hn]; [|reflexivity].
        assert (0 <= IZR k / 10 ^ d) by (apply Rdiv_nonneg; lra). lra.
Qed.

Lemma single_trial_total (field : MetricSet -> num) (d : nat)
  (r : BacktestResult) (m : MetricSet) (x : num) :
  metrics r = Some m ->
  field m = roundTo d x ->
  roundTo d (div (totalOf field [r]) (ofNat 1)) =
    if isNaN (field m) then Fin 0 else field m.
Proof.
  intros Hm Hfield.
  unfold totalOf, metricOrZero. cbn [fold_left]. rewrite Hm.
  assert (H1 : INR 1 <> 0) by (simpl; lra).
  destruct (field m) as [y| | |] eqn:Hy; unfold orElse, truthy, isNaN.
  - assert (Hval : forall z, z = y ->
              roundTo d (div (add (Fin 0) (Fin z)) (ofNat 1)) = Fin y).
    { intros z ->. rewrite add_Fin. unfold ofNat.
      rewrite div_Fin by exact H1.
      replace ((0 + y) / INR 1) with y by (simpl; field).
      rewrite Hfield, roundTo_idempotent. reflexivity. }
    destruct (Req_dec_T y 0) as [Hz|Hnz]; apply Hval; congruence.
  - unfold ofNat, add, div.
    destruct (Rlt_dec (INR 1) 0); [simpl in *; exfalso; lra|reflexivity].
  - unfold ofNat, add, div.
    destruct (Rlt_dec (INR 1) 0); [simpl in *; exfalso; lra|reflexivity].
  - rewrite add_Fin. unfold ofNat. rewrite div_Fin by exact H1.
    replace ((0 + 0) / INR 1) with 0 by (simpl; field).
    apply roundTo_zero.
Qed.

(** The aggregate of a batch of one scored trial repeats the metrics of this
    trial, except that a metric stored as [NaN] (the mean over no index,
    [0/0]) is reported as 0. *)
Theorem aggregate_of_single_trial (r : BacktestResult) (m : MetricSet)
  (predicted actual : list num) (currentPrice : num) :
  metrics r = Some m ->
  calculateMetrics predicted actual currentPrice = Returned m ->
  calculateAggregateMetrics [r] =
    mkAggregate
      (if isNaN (mae m) then Fin 0 else mae m)
      (if isNaN (mape m) then Fin 0 else mape m)
      (if isNaN (rmse m) then Fin 0 else rmse m)
      (if isNaN (directionalAccuracy m) then Fin 0
       else directionalAccuracy m).
Proof.
  intros Hm Hcalc.
  unfold calculateMetrics in Hcalc.
  destruct (negb (length predicted =? length actual)); [discriminate|].
  inversion Hcalc as [Heq]. clear Hcalc. subst m.
  set (m := roundMetrics (unroundedMetrics predicted actual currentPrice))
    in *.
  unfold calculateAggregateMetrics. cbn [length].
  rewrite (@single_trial_total mae 4 r m _ Hm eq_refl).
  rewrite (@single_trial_total mape 2 r m _ Hm eq_refl).
  rewrite (@single_trial_total rmse 4 r m _ Hm eq_refl).
  rewrite (@single_trial_total directionalAccuracy 4 r m _ Hm eq_refl).
  reflexivity.
Qed.

Lemma aggregate_of_single_trial_witness :
  let m := roundMetrics (unroundedMetrics [] [] (Fin 1)) in
  calculateAggregateMetrics [trialWithMetrics (Some m)] =
    mkAggregate
      (if isNaN (mae m) then Fin 0 else mae m)
      (if isNaN (mape m) then Fin 0 else mape m)
      (if isNaN (rmse m) then Fin 0 else rmse m)
      (if isNaN (directionalAccuracy m) then Fin 0
       else directionalAccuracy m).
Proof.
  apply (@aggregate_of_single_trial
           (trialWithMetrics
              (Some (roundMetrics (unroundedMetrics [] [] (Fin 1)))))
           (roundMetrics (unroundedMetrics [] [] (Fin 1)))
           [] [] (Fin 1)); reflexivity.
Defined.

(* ================================================================== *)
(** ** The predicted path *)
(* ================================================================== *)

Lemma predictedPricesFor_length (target current : num) (n : nat) :
  length (predictedPricesFor target current n) = n.
Proof.
  unfold predictedPricesFor. destruct (Nat.eqb_spec n 1) as [->|_].
  - reflexivity.
  - rewrite length_map, length_seq. reflexivity.
Qed.

(* ================================================================== *)
(** ** Failures and results of a trial *)
(* ================================================================== *)

Section TrialOutcomes.

Variable getHistoricalData : string -> Z -> Z -> outcome (list DataPoint).
Variable generatePrediction : FormattedData -> outcome PredictionResult.
Variable getPricesForDates : string -> list Z -> outcome (list DatedPrice).
Variable isoDay : Z -> string.
Variable dayPart : string -> string.

Let trial := runBacktest getHistoricalData generatePrediction
               getPricesForDates isoDay dayPart.

(** The dates a trial asks realized prices for. *)
Let predictedDates (testDate : Z) (n : nat) : list Z :=
  map (fun i => startOfDay (addDays testDate (Z.of_nat i))) (seq 1 n).

Lemma calculateMetrics_truncated (predicted actual : list num) (c : num) :
  let k := Nat.min (length predicted) (length actual) in
  calculateMetrics (firstn k predicted) (firstn k actual) c =
    Returned (roundMetrics
                (unroundedMetrics (firstn k predicted) (firstn k actual) c)).
Proof.
  intros k. apply calculateMetrics_returns.
  rewrite !length_firstn. unfold k. lia.
Qed.

(** A trial fails for one of five reasons only: one of its three
    collaborators threw, or the history or the realized prices came back
    empty.  The length check of [calculateMetrics] never fails inside a
    trial, both arrays having been cut to the same length. *)
Theorem runBacktest_failures (asset : string) (testDate : Z) (n : nat)
  (e : string) :
  trial asset testDate n = Thrown e ->
  getHistoricalData asset (addDays (startOfDay testDate) (-30))
                    (startOfDay testDate) = Thrown e \/
  (getHistoricalData asset (addDays (startOfDay testDate) (-30))
                     (startOfDay testDate) = Returned [] /\
   e = "No historical data available for the specified date range"%string) \/
  (exists formattedData, generatePrediction formattedData = Thrown e) \/
  getPricesForDates asset (predictedDates testDate n) = Thrown e \/
  (getPricesForDates asset (predictedDates testDate n) = Returned [] /\
   e = "No actual prices found for predicted dates"%string).
Proof.
  unfold trial, runBacktest, predictedDates. intros Hrun.
  destruct (getHistoricalData asset (addDays (startOfDay testDate) (-30))
              (startOfDay testDate)) as [historicalData|e0] eqn:Hhist.
  2:{ left. inversion Hrun. reflexivity. }
  destruct historicalData as [|dp0 historicalData].
  { right; left. inversion Hrun. split; reflexivity. }
  cbn [length Nat.eqb] in Hrun.
  destruct (generatePrediction _) as [predictionResult|e1] eqn:Hpred.
  2:{ right; right; left. eexists. rewrite Hpred. inversion Hrun.
      reflexivity. }
  destruct (getPricesForDates asset _) as [actualPrices|e2] eqn:Hact.
  2:{ right; right; right; left. inversion Hrun. reflexivity. }
  destruct actualPrices as [|ap0 actualPrices].
  { right; right; right; right. inversion Hrun. split; reflexivity. }
  cbn [length Nat.eqb] in Hrun.
  rewrite calculateMetrics_truncated in Hrun. discriminate.
Qed.

(** What a returned trial has scored: as many days as the shorter of the
    horizon and the known realized prices (those that are neither [null] nor
    [NaN]); the arrays of its metrics have this length. *)
Theorem runBacktest_scored_horizon (asset : string) (testDate : Z) (n : nat)
  (r : BacktestResult) :
  trial asset testDate n = Returned r ->
  let known := filter isKnownPrice (map datedPrice (actualPrices r)) in
  exists m : MetricSet,
    metrics r = Some m /\
    length (actualPrices r) <> O /\
    length (predictedPrices r) = Nat.min n (length known) /\
    length (absoluteErrors m) = Nat.min n (length known) /\
    length (directionalCorrect m) = Nat.min n (length known).
Proof.
  intros Hrun known. unfold trial, runBacktest in Hrun.
  destruct (getHistoricalData asset (addDays (startOfDay testDate) (-30))
              (startOfDay testDate)) as [historicalData|] eqn:Hhist;
    [|discriminate].
  destruct (length historicalData =? 0); [discriminate|].
  destruct (generatePrediction _) as [predictionResult|] eqn:Hpred;
    [|discriminate].
  destruct (getPricesForDates asset _) as [fetched|] eqn:Hact;
    [|discriminate].
  destruct (Nat.eqb_spec (length fetched) 0) as [|Hne]; [discriminate|].
  rewrite calculateMetrics_truncated in Hrun.
  inversion Hrun; subst r; clear Hrun.
  unfold known. cbn [metrics Backtesting.actualPrices predictedPrices].
  rewrite map_map. cbn [datedPrice].
  eexists. split; [reflexivity|].
  rewrite length_map. split; [exact Hne|].
  unfold roundMetrics, unroundedMetrics.
  cbn [absoluteErrors directionalCorrect].
  rewrite !length_map, scorePoints_length
    by (rewrite !length_firstn; lia).
  rewrite !length_firstn, predictedPricesFor_length.
  unfold numbersOf. rewrite !length_map.
  change (map (fun x : DatedPrice => datedPrice x) fetched)
    with (map datedPrice fetched).
  repeat split; lia.
Qed.

(** A trial whose realized prices are all [null] or [NaN] does not fail: it
    returns with nothing scored and every metric [NaN], and a batch made of
    it reports an error of 0. *)
Theorem runBacktest_without_known_prices (asset : string) (testDate : Z)
  (n : nat) (r : BacktestResult) :
  trial asset testDate n = Returned r ->
  Forall (fun ap => isKnownPrice (datedPrice ap) = false) (actualPrices r) ->
  predictedPrices r = [] /\
  metrics r = Some (mkMetrics [] [] NaN NaN NaN NaN []) /\
  calculateAggregateMetrics [r] = mkAggregate (Fin 0) (Fin 0) (Fin 0) (Fin 0).
Proof.
  unfold trial, runBacktest. intros Hrun Hunknown.
  destruct (getHistoricalData asset (addDays (startOfDay testDate) (-30))
              (startOfDay testDate)) as [historicalData|] eqn:Hhist;
    [|discriminate].
  destruct (length historicalData =? 0); [discriminate|].
  destruct (generatePrediction _) as [predictionResult|] eqn:Hpred;
    [|discriminate].
  destruct (getPricesForDates asset _) as [fetched|] eqn:Hact;
    [|discriminate].
  destruct (length fetched =? 0); [discriminate|].
  rewrite calculateMetrics_truncated in Hrun.
  inversion Hrun; subst r; clear Hrun.
  cbn [Backtesting.actualPrices] in Hunknown.
  rewrite Forall_map in Hunknown. cbn [datedPrice] in Hunknown.
  assert (Hnone : filter isKnownPrice (map datedPrice fetched) = []).
  { clear - Hunknown.
    induction Hunknown as [|ap aps Hap _ IH]; [reflexivity|].
    simpl. rewrite Hap. exact IH. }
  cbn [predictedPrices metrics].
  rewrite Hnone. cbn [numbersOf map length].
  rewrite Nat.min_0_r. cbn [firstn].
  assert (Hm : roundMetrics (unroundedMetrics [] []
                 (ToNumber (priceFromEnd historicalData 1))) =
               mkMetrics [] [] NaN NaN NaN NaN []).
  { unfold roundMetrics, unroundedMetrics, ofNat, sum, sumOfSquares.
    cbn [scorePoints map fold_left length filter mae mape rmse
         directionalAccuracy absoluteErrors percentageErrors
         directionalCorrect INR].
    unfold div. destruct (Req_dec_T 0 0) as [_|Hne];
      [reflexivity|exfalso; apply Hne; reflexivity]. }
  split; [reflexivity|]. split; [rewrite Hm; reflexivity|].
  unfold calculateAggregateMetrics, totalOf, metricOrZero.
  cbn [fold_left metrics length]. rewrite Hm.
  cbn [mae mape rmse directionalAccuracy]. unfold orElse, truthy, ofNat.
  rewrite add_Fin. rewrite div_Fin by (simpl; lra).
  replace ((0 + 0) / INR 1) with 0 by (simpl; field).
  rewrite !roundTo_zero. reflexivity.
Qed.

End TrialOutcomes.

(* ================================================================== *)
(** ** Batches that make no progress, batches without dates *)
(* ================================================================== *)

Section BatchEdges.

Variable getHistoricalData : string -> Z -> Z -> outcome (list DataPoint).
Variable generatePrediction : FormattedData -> outcome PredictionResult.
Variable getPricesForDates : string -> list Z -> outcome (list DatedPrice).
Variable isoDay : Z -> string.
Variable dayPart : string -> string.

Lemma backtestLoop_stuck (asset : string) (endDate : Z)
  (daysToPredict : nat) :
  forall (fuel : nat) (currentDate : Z) (results : list BacktestResult),
    (currentDate <= endDate)%Z ->
    backtestLoop getHistoricalData generatePrediction getPricesForDates
      isoDay dayPart fuel asset endDate 0 daysToPredict
      currentDate results = None.
Proof.
  induction fuel as [|fuel IH]; intros currentDate results Hle;
    [reflexivity|].
  simpl. destruct (Z.leb_spec currentDate endDate) as [_|Hgt]; [|lia].
  apply IH. unfold addDays. lia.
Qed.

(** [runMultipleBacktests] itself does not check its step: with a step of
    0 days and a start date not after the end date the current date never
    moves and the loop never ends, whatever the trials do; with a start date
    after the end date it ends at once, with no trial and an aggregate of
    zeros. *)
Theorem runMultipleBacktests_edges (asset : string)
  (startDate endDate stepDays : Z) (daysToPredict : nat) :
  (stepDays = 0%Z -> (startDate <= endDate)%Z ->
   forall fuel : nat,
     runMultipleBacktests getHistoricalData generatePrediction
       getPricesForDates isoDay dayPart fuel asset startDate endDate
       stepDays daysToPredict = None) /\
  ((endDate < startDate)%Z ->
   forall fuel : nat,
     runMultipleBacktests getHistoricalData generatePrediction
       getPricesForDates isoDay dayPart (S fuel) asset startDate endDate
       stepDays daysToPredict =
     Some (mkBatch asset (isoDay startDate, isoDay endDate) stepDays
                   daysToPredict 0 []
                   (mkAggregate (Fin 0) (Fin 0) (Fin 0) (Fin 0)))).
Proof.
  split.
  - intros -> Hle fuel. unfold runMultipleBacktests.
    rewrite backtestLoop_stuck by assumption. reflexivity.
  - intros Hlt fuel. unfold runMultipleBacktests. simpl.
    destruct (Z.leb_spec startDate endDate) as [Hle|_]; [lia|reflexivity].
Qed.

End BatchEdges.

Lemma runMultipleBacktests_edges_witness :
  (forall fuel : nat,
     runMultipleBacktests exampleHistory exampleForecast exampleActuals
       exampleIsoDay exampleDayPart fuel "BTC"%string 0 (14 * msPerDay)
       0 1 = None) /\
  (forall fuel : nat,
     runMultipleBacktests exampleHistory exampleForecast exampleActuals
       exampleIsoDay exampleDayPart (S fuel) "BTC"%string (14 * msPerDay) 0
       7 1 =
     Some (mkBatch "BTC"%string
                   (exampleIsoDay (14 * msPerDay), exampleIsoDay 0) 7 1 0 []
                   (mkAggregate (Fin 0) (Fin 0) (Fin 0) (Fin 0)))).
Proof.
  split.
  - apply (proj1 (runMultipleBacktests_edges exampleHistory exampleForecast
                    exampleActuals exampleIsoDay exampleDayPart "BTC"%string
                    0 (14 * msPerDay) 0 1)).
    + reflexivity.
    + unfold msPerDay. lia.
  - apply (proj2 (runMultipleBacktests_edges exampleHistory exampleForecast
                    exampleActuals exampleIsoDay exampleDayPart "BTC"%string
                    (14 * msPerDay) 0 7 1)).
    unfold msPerDay. lia.
Defined.

(* ================================================================== *)
(** ** The closest sample *)
(* ================================================================== *)

Lemma closer_fold (target : Z) (rest : list DataPoint) :
  forall first : DataPoint,
  exists before after : list DataPoint,
    first :: rest =
      before ++ fold_left (CoinGecko.closer target) rest first :: after /\
    Forall (fun dp => (distanceTo target
                         (fold_left (CoinGecko.closer target) rest first) <
                       distanceTo target dp)%Z) before /\
    Forall (fun dp => (distanceTo target
                         (fold_left (CoinGecko.closer target) rest first) <=
                       distanceTo target dp)%Z) after.
Proof.
  induction rest as [|x rest IH]; intros first.
  - exists [], []. simpl. repeat split; constructor.
  - assert (Hstep : CoinGecko.closer target first x =
                     if (distanceTo target x <? distanceTo target first)%Z
                     then x else first) by reflexivity.
    cbn [fold_left]. rewrite Hstep.
    destruct (Z.ltb_spec (distanceTo target x) (distanceTo target first))
      as [Hlt|Hge].
    + destruct (IH x) as [before [after [Heq [Hb Ha]]]].
      set (c := fold_left (CoinGecko.closer target) rest x) in *.
      exists (first :: before), after. split; [simpl; rewrite Heq; reflexivity|].
      split; [|exact Ha]. constructor; [|exact Hb].
      assert (Hcx : (distanceTo target c <= distanceTo target x)%Z).
      { assert (Hin : In x (before ++ c :: after))
          by (rewrite <- Heq; left; reflexivity).
        apply in_app_or in Hin. rewrite Forall_forall in Hb, Ha.
        destruct Hin as [Hin|[Hsame|Hin]];
          [specialize (Hb _ Hin)|rewrite Hsame|specialize (Ha _ Hin)]; lia. }
      lia.
    + destruct (IH first) as [before [after [Heq [Hb Ha]]]].
      set (c := fold_left (CoinGecko.closer target) rest first) in *.
      destruct before as [|b0 before].
      * assert (Hc : first = c) by (simpl in Heq; congruence).
        assert (Hrest : rest = after) by (simpl in Heq; congruence).
        exists [], (x :: after).
        split; [simpl; rewrite <- Hc, Hrest; reflexivity|].
        split; [constructor|]. constructor; [|exact Ha].
        rewrite <- Hc. lia.
      * assert (Hb0 : first = b0) by (simpl in Heq; congruence).
        assert (Hrest : rest = before ++ c :: after)
          by (simpl in Heq; congruence).
        subst b0.
        exists (first :: x :: before), after.
        split; [simpl; rewrite Hrest; reflexivity|].
        split; [|exact Ha].
        assert (Hfirst : (distanceTo target c < distanceTo target first)%Z)
          by (apply Forall_inv in Hb; exact Hb).
        apply Forall_inv_tail in Hb.
        constructor; [exact Hfirst|]. constructor; [lia|exact Hb].
Qed.

(** On a non-empty series the closest sample is a sample of the series, no
    sample is nearer to the target time, and of several samples at the same
    smallest distance it is the first; on an empty series the [reduce]
    throws. *)
Theorem closestPoint_is_first_nearest (dataPoints : list DataPoint)
  (target : Z) :
  (dataPoints = [] ->
   CoinGecko.closestPoint dataPoints target =
     Thrown "Reduce of empty array with no initial value"%string) /\
  (dataPoints <> [] ->
   exists (c : DataPoint) (before after : list DataPoint),
     CoinGecko.closestPoint dataPoints target = Returned c /\
     dataPoints = before ++ c :: after /\
     Forall (fun dp => (distanceTo target c < distanceTo target dp)%Z)
            before /\
     Forall (fun dp => (distanceTo target c <= distanceTo target dp)%Z)
            after).
Proof.
  split.
  - intros ->. reflexivity.
  - intros Hne. destruct dataPoints as [|first rest]; [contradiction|].
    destruct (closer_fold target rest first) as [before [after H]].
    exists (fold_left (CoinGecko.closer target) rest first), before, after.
    split; [reflexivity|exact H].
Qed.

Lemma closestPoint_is_first_nearest_witness :
  let dataPoints :=
    [mkDataPoint 10 String.EmptyString (VNum (Fin 1));
     mkDataPoint 30 String.EmptyString (VNum (Fin 2))] in
  exists (c : DataPoint) (before after : list DataPoint),
    CoinGecko.closestPoint dataPoints 20 = Returned c /\
    dataPoints = before ++ c :: after /\
    Forall (fun dp => (distanceTo 20 c < distanceTo 20 dp)%Z) before /\
    Forall (fun dp => (distanceTo 20 c <= distanceTo 20 dp)%Z) after.
Proof.
  apply (proj2 (closestPoint_is_first_nearest
                  [mkDataPoint 10 String.EmptyString (VNum (Fin 1));
                   mkDataPoint 30 String.EmptyString (VNum (Fin 2))] 20)).
  discriminate.
Defined.

(* ================================================================== *)
(** ** Realized prices for a list of dates *)
(* ================================================================== *)

Lemma earliest_le (rest : list Z) :
  forall first : Z,
    (CoinGecko.earliest first rest <= first)%Z /\
    Forall (fun d => (CoinGecko.earliest first rest <= d)%Z) rest.
Proof.
  unfold CoinGecko.earliest.
  induction rest as [|x rest IH]; intros first; simpl.
  - split; [lia|constructor].
  - destruct (IH (Z.min first x)) as [Hmin Hrest].
    split; [lia|]. constructor; [lia|exact Hrest].
Qed.

Lemma latest_ge (rest : list Z) :
  forall first : Z,
    (first <= CoinGecko.latest first rest)%Z /\
    Forall (fun d => (d <= CoinGecko.latest first rest)%Z) rest.
Proof.
  unfold CoinGecko.latest.
  induction rest as [|x rest IH]; intros first; simpl.
  - split; [lia|constructor].
  - destruct (IH (Z.max first x)) as [Hmax Hrest].
    split; [lia|]. constructor; [lia|exact Hrest].
Qed.

Section RealizedPrices.

Variable getHistoricalData : string -> Z -> Z -> outcome (list DataPoint).
Variable toISOString : Z -> string.

Let pricesOnDates := CoinGecko.pricesOnDates toISOString.
Let getPricesForDates :=
  CoinGecko.getPricesForDates getHistoricalData toISOString.

Lemma pricesOnDates_of_samples (dataPoints : list DataPoint) (dates : list Z) :
  dataPoints <> [] ->
  exists prices : list DatedPrice,
    pricesOnDates dataPoints dates = Returned prices /\
    Forall2 (pricedByClosest toISOString dataPoints) dates prices.
Proof.
  intros Hne. unfold pricesOnDates.
  induction dates as [|d dates [prices [Hprices Hall]]].
  - exists []. split; [reflexivity|constructor].
  - destruct dataPoints as [|first rest] eqn:Hdp; [contradiction|].
    rewrite <- Hdp in *.
    assert (Hc : CoinGecko.closestPoint dataPoints d =
                 Returned (fold_left (CoinGecko.closer d) rest first))
      by (rewrite Hdp; reflexivity).
    simpl. rewrite Hc, Hprices.
    eexists. split; [reflexivity|].
    constructor; [|exact Hall]. eexists. split; [exact Hc|reflexivity].
Qed.

(** For a non-empty list of dates [getPricesForDates] asks for one window
    that covers every date, from the start of the earliest day; it passes a
    failure of the request on, throws when the window holds no sample, and
    otherwise returns exactly one price per date, in the order of the
    dates: the price of the sample closest to that date. *)
Theorem getPricesForDates_one_per_date (asset : string) (first : Z)
  (rest : list Z) :
  let dates := first :: rest in
  let startDate := startOfDay (CoinGecko.earliest first rest) in
  let endDate := addDays (CoinGecko.endOfDay (CoinGecko.latest first rest)) 1 in
  let fetched := getHistoricalData asset startDate endDate in
  Forall (fun d => (startDate <= d <= endDate)%Z) dates /\
  (forall e, fetched = Thrown e -> getPricesForDates asset dates = Thrown e) /\
  (fetched = Returned [] ->
   getPricesForDates asset dates =
     Thrown "Reduce of empty array with no initial value"%string) /\
  (forall dataPoints,
     dataPoints <> [] -> fetched = Returned dataPoints ->
     exists prices : list DatedPrice,
       getPricesForDates asset dates = Returned prices /\
       length prices = length dates /\
       Forall2 (pricedByClosest toISOString dataPoints) dates prices).
Proof.
  intros dates startDate endDate fetched.
  split; [|split; [|split]].
  - destruct (earliest_le rest first) as [Hmin Hmins].
    destruct (latest_ge rest first) as [Hmax Hmaxs].
    assert (Hstart : (startDate <= CoinGecko.earliest first rest)%Z).
    { unfold startDate, startOfDay, msPerDay.
      pose proof (Z.mod_pos_bound (CoinGecko.earliest first rest) 86400000).
      lia. }
    assert (Hend : (CoinGecko.latest first rest <= endDate)%Z).
    { unfold endDate, addDays, CoinGecko.endOfDay, startOfDay, msPerDay.
      pose proof (Z.mod_pos_bound (CoinGecko.latest first rest) 86400000).
      lia. }
    rewrite Forall_forall in Hmins, Hmaxs.
    apply Forall_forall. intros d [<-|Hd].
    + lia.
    + specialize (Hmins _ Hd). specialize (Hmaxs _ Hd). lia.
  - intros e He. unfold getPricesForDates, CoinGecko.getPricesForDates, dates.
    fold startDate. fold endDate. fold fetched. rewrite He. reflexivity.
  - intros He. unfold getPricesForDates, CoinGecko.getPricesForDates, dates.
    fold startDate. fold endDate. fold fetched. rewrite He. reflexivity.
  - intros dataPoints Hne He.
    destruct (pricesOnDates_of_samples dates Hne) as [prices [Hp Hall]].
    exists prices. split; [|split; [|exact Hall]].
    + unfold getPricesForDates, CoinGecko.getPricesForDates, dates.
      fold startDate. fold endDate. fold fetched. rewrite He. exact Hp.
    + symmetry. exact (Forall2_length Hall).
Qed.

End RealizedPrices.

(* ================================================================== *)
(** ** Trials on the prices of [CoinGeckoService] *)
(* ================================================================== *)

Section TrialsOnCoinGecko.

Variable getHistoricalData : string -> Z -> Z -> outcome (list DataPoint).
Variable generatePrediction : FormattedData -> outcome PredictionResult.
Variable toISOString : Z -> string.
Variable isoDay : Z -> string.
Variable dayPart : string -> string.

Lemma pricesOnDates_length (dataPoints : list DataPoint) (dates : list Z) :
  forall prices : list DatedPrice,
    CoinGecko.pricesOnDates toISOString dataPoints dates = Returned prices ->
    length prices = length dates.
Proof.
  induction dates as [|d dates IH]; intros prices H; simpl in H.
  - inversion H. reflexivity.
  - destruct (CoinGecko.closestPoint dataPoints d); [|discriminate].
    destruct (CoinGecko.pricesOnDates toISOString dataPoints dates)
      as [prices'|]; [|discriminate].
    inversion H. simpl. f_equal. apply IH. reflexivity.
Qed.

Lemma getPricesForDates_length (asset : string) (dates : list Z)
  (prices : list DatedPrice) :
  CoinGecko.getPricesForDates getHistoricalData toISOString asset dates =
    Returned prices ->
  length prices = length dates.
Proof.
  unfold CoinGecko.getPricesForDates. destruct dates as [|first rest].
  - intros H. inversion H. reflexivity.
  - destruct (getHistoricalData asset _ _) as [dataPoints|]; [|discriminate].
    apply pricesOnDates_length.
Qed.

(** With the realized prices of [getPricesForDates], a trial over a horizon
    of 0 days never returns, and a trial that returns over a horizon of
    [n >= 1] days holds exactly [n] realized prices, one per predicted
    day. *)
Theorem runBacktest_on_coinGecko_prices (asset : string) (testDate : Z)
  (n : nat) (r : BacktestResult) :
  runBacktest getHistoricalData generatePrediction
    (CoinGecko.getPricesForDates getHistoricalData toISOString)
    isoDay dayPart asset testDate 0 <> Returned r /\
  (runBacktest getHistoricalData generatePrediction
     (CoinGecko.getPricesForDates getHistoricalData toISOString)
     isoDay dayPart asset testDate n = Returned r ->
   length (actualPrices r) = n).
Proof.
  split.
  - unfold runBacktest. intros Hrun.
    destruct (getHistoricalData asset (addDays (startOfDay testDate) (-30))
                (startOfDay testDate)) as [historicalData|];
      [|discriminate].
    destruct (length historicalData =? 0); [discriminate|].
    destruct (generatePrediction _); discriminate.
  - unfold runBacktest. intros Hrun.
    destruct (getHistoricalData asset (addDays (startOfDay testDate) (-30))
                (startOfDay testDate)) as [historicalData|];
      [|discriminate].
    destruct (length historicalData =? 0); [discriminate|].
    destruct (generatePrediction _); [|discriminate].
    destruct (CoinGecko.getPricesForDates getHistoricalData toISOString asset _)
      as [fetched|] eqn:Hfetch; [|discriminate].
    destruct (length fetched =? 0); [discriminate|].
    rewrite calculateMetrics_truncated in Hrun.
    inversion Hrun; subst r; clear Hrun.
    cbn [Backtesting.actualPrices]. rewrite length_map.
    rewrite (getPricesForDates_length _ _ Hfetch), length_map, length_seq.
    reflexivity.
Qed.

End TrialsOnCoinGecko.

(* ================================================================== *)
(** ** The theorems on trials, on the example collaborators *)
(* ================================================================== *)

Lemma exampleTrial_returned :
  runBacktest exampleHistory exampleForecast exampleActuals
    exampleIsoDay exampleDayPart "BTC"%string 0 1 = Returned exampleTrial.
Proof. lazy. reflexivity. Qed.

Lemma exampleUnknownTrial_returned :
  runBacktest exampleHistory exampleForecast exampleUnknownActuals
    exampleIsoDay exampleDayPart "BTC"%string 0 1 =
    Returned exampleUnknownTrial.
Proof. lazy. reflexivity. Qed.

Lemma exampleCoinGeckoTrial_returned :
  runBacktest exampleHistory exampleForecast
    (CoinGecko.getPricesForDates exampleHistory exampleIsoDay)
    exampleIsoDay exampleDayPart "BTC"%string 0 2 =
    Returned exampleCoinGeckoTrial.
Proof. lazy. reflexivity. Qed.

Lemma runBacktest_failures_witness :
  exampleOffline "BTC"%string (addDays (startOfDay 0) (-30)) (startOfDay 0) =
    Thrown "Failed to fetch CoinGecko data: timeout"%string \/
  (exampleOffline "BTC"%string (addDays (startOfDay 0) (-30)) (startOfDay 0) =
     Returned [] /\
   "Failed to fetch CoinGecko data: timeout"%string =
     "No historical data available for the specified date range"%string) \/
  (exists formattedData,
     exampleForecast formattedData =
       Thrown "Failed to fetch CoinGecko data: timeout"%string) \/
  exampleActuals "BTC"%string
    (map (fun i => startOfDay (addDays 0 (Z.of_nat i))) (seq 1 1)) =
    Thrown "Failed to fetch CoinGecko data: timeout"%string \/
  (exampleActuals "BTC"%string
     (map (fun i => startOfDay (addDays 0 (Z.of_nat i))) (seq 1 1)) =
     Returned [] /\
   "Failed to fetch CoinGecko data: timeout"%string =
     "No actual prices found for predicted dates"%string).
Proof.
  apply (@runBacktest_failures exampleOffline exampleForecast exampleActuals
           exampleIsoDay exampleDayPart "BTC"%string 0 1
           "Failed to fetch CoinGecko data: timeout"%string).
  reflexivity.
Defined.

Lemma runBacktest_scored_horizon_witness :
  let known :=
    filter isKnownPrice (map datedPrice (actualPrices exampleTrial)) in
  exists m : MetricSet,
    metrics exampleTrial = Some m /\
    length (actualPrices exampleTrial) <> O /\
    length (predictedPrices exampleTrial) = Nat.min 1 (length known) /\
    length (absoluteErrors m) = Nat.min 1 (length known) /\
    length (directionalCorrect m) = Nat.min 1 (length known).
Proof.
  apply (@runBacktest_scored_horizon exampleHistory exampleForecast
           exampleActuals exampleIsoDay exampleDayPart "BTC"%string 0 1
           exampleTrial).
  exact exampleTrial_returned.
Defined.

Lemma runBacktest_without_known_prices_witness :
  predictedPrices exampleUnknownTrial = [] /\
  metrics exampleUnknownTrial = Some (mkMetrics [] [] NaN NaN NaN NaN []) /\
  calculateAggregateMetrics [exampleUnknownTrial] =
    mkAggregate (Fin 0) (Fin 0) (Fin 0) (Fin 0).
Proof.
  apply (@runBacktest_without_known_prices exampleHistory exampleForecast
           exampleUnknownActuals exampleIsoDay exampleDayPart "BTC"%string
           0 1 exampleUnknownTrial).
  - exact exampleUnknownTrial_returned.
  - lazy. repeat constructor.
Defined.

Lemma getPricesForDates_one_per_date_witness :
  let dates := [5; 3]%Z in
  let startDate := startOfDay (CoinGecko.earliest 5 [3%Z]) in
  let endDate := addDays (CoinGecko.endOfDay (CoinGecko.latest 5 [3%Z])) 1 in
  let fetched := exampleHistory "BTC"%string startDate endDate in
  Forall (fun d => (startDate <= d <= endDate)%Z) dates /\
  (forall e, fetched = Thrown e ->
     CoinGecko.getPricesForDates exampleHistory exampleIsoDay "BTC"%string
       dates = Thrown e) /\
  (fetched = Returned [] ->
   CoinGecko.getPricesForDates exampleHistory exampleIsoDay "BTC"%string
     dates = Thrown "Reduce of empty array with no initial value"%string) /\
  (forall dataPoints,
     dataPoints <> [] -> fetched = Returned dataPoints ->
     exists prices : list DatedPrice,
       CoinGecko.getPricesForDates exampleHistory exampleIsoDay "BTC"%string
         dates = Returned prices /\
       length prices = length dates /\
       Forall2 (pricedByClosest exampleIsoDay dataPoints) dates prices).
Proof.
  apply (@getPricesForDates_one_per_date exampleHistory exampleIsoDay
           "BTC"%string 5 [3%Z]).
Defined.

Lemma runBacktest_on_coinGecko_prices_witness :
  runBacktest exampleHistory exampleForecast
    (CoinGecko.getPricesForDates exampleHistory exampleIsoDay)
    exampleIsoDay exampleDayPart "BTC"%string 0 0 <>
    Returned exampleCoinGeckoTrial /\
  length (actualPrices exampleCoinGeckoTrial) = 2%nat.
Proof.
  split.
  - apply (proj1 (@runBacktest_on_coinGecko_prices exampleHistory
                    exampleForecast exampleIsoDay exampleIsoDay exampleDayPart
                    "BTC"%string 0 2 exampleCoinGeckoTrial)).
  - apply (proj2 (@runBacktest_on_coinGecko_prices exampleHistory
                    exampleForecast exampleIsoDay exampleIsoDay exampleDayPart
                    "BTC"%string 0 2 exampleCoinGeckoTrial)).
    lazy. reflexivity.
Defined.

(* ================================================================== *)
(** ** One date, two functions *)
(* ================================================================== *)

(** For one date [getPriceOnDate] and [getPricesForDates] ask for the same
    window and read the same closest sample, so that one returns a price
    exactly when the other returns this price for the date; on a window
    without samples they both throw, with different errors. *)
Theorem getPriceOnDate_agrees_with_getPricesForDates
  (getHistoricalData : string -> Z -> Z -> outcome (list DataPoint))
  (toISOString : Z -> string) (asset : string) (date : Z) :
  (forall v : value,
     CoinGecko.getPriceOnDate getHistoricalData toISOString asset date =
       Returned v <->
     CoinGecko.getPricesForDates getHistoricalData toISOString asset [date] =
       Returned [mkDatedPrice (toISOString date) v]) /\
  (getHistoricalData asset (startOfDay date)
     (addDays (CoinGecko.endOfDay date) 1) = Returned [] ->
   CoinGecko.getPriceOnDate getHistoricalData toISOString asset date =
     Thrown (String.append "No price data available for "
               (String.append asset
                  (String.append " on " (toISOString date)))) /\
   CoinGecko.getPricesForDates getHistoricalData toISOString asset [date] =
     Thrown "Reduce of empty array with no initial value"%string).
Proof.
  unfold CoinGecko.getPriceOnDate, CoinGecko.getPricesForDates,
    CoinGecko.earliest, CoinGecko.latest.
  cbn [fold_left].
  destruct (getHistoricalData asset (startOfDay date)
              (addDays (CoinGecko.endOfDay date) 1)) as [dataPoints|e].
  - destruct dataPoints as [|first rest].
    + split; [|intros _; split; reflexivity].
      intros v. split; intros H; discriminate.
    + split; [|intros H; discriminate].
      intros v. simpl. split; intros H; inversion H; reflexivity.
  - split; [|intros H; discriminate].
    intros v. split; intros H; discriminate.
Qed.

Lemma getPriceOnDate_agrees_with_getPricesForDates_witness :
  (forall v : value,
     CoinGecko.getPriceOnDate (fun _ _ _ => Returned []) exampleIsoDay
       "BTC"%string 7 = Returned v <->
     CoinGecko.getPricesForDates (fun _ _ _ => Returned []) exampleIsoDay
       "BTC"%string [7%Z] = Returned [mkDatedPrice (exampleIsoDay 7) v]) /\
  CoinGecko.getPriceOnDate (fun _ _ _ => Returned []) exampleIsoDay
    "BTC"%string 7 =
    Thrown (String.append "No price data available for "
              (String.append "BTC" (String.append " on " (exampleIsoDay 7)))) /\
  CoinGecko.getPricesForDates (fun _ _ _ => Returned []) exampleIsoDay
    "BTC"%string [7%Z] =
    Thrown "Reduce of empty array with no initial value"%string.
Proof.
  destruct (@getPriceOnDate_agrees_with_getPricesForDates
              (fun _ _ _ => Returned []) exampleIsoDay "BTC"%string 7)
    as [Hiff Hempty].
  split; [exact Hiff|]. apply Hempty. reflexivity.
Defined.

(** ** Daily prices *)

Lemma lookupDay_assignDay (k1 k : string) (p : DataPoint)
  (t : CoinGecko.DailyTable) :
  CoinGecko.lookupDay k1 (CoinGecko.assignDay k p t) =
    if String.eqb k1 k then Some p else CoinGecko.lookupDay k1 t.
Proof.
  induction t as [|[k' p'] rest IH]; simpl.
  - rewrite String.eqb_sym. reflexivity.
  - destruct (String.eqb_spec k' k) as [->|Hne]; simpl.
    + rewrite (String.eqb_sym k k1).
      destruct (String.eqb_spec k1 k); reflexivity.
    + rewrite IH. destruct (String.eqb_spec k' k1) as [<-|]; [|reflexivity].
      destruct (String.eqb_spec k' k); [contradiction|reflexivity].
Qed.

Lemma assignDay_keys (k : string) (p : DataPoint) (t : CoinGecko.DailyTable) :
  map fst (CoinGecko.assignDay k p t) =
    match CoinGecko.lookupDay k t with
    | Some _ => map fst t
    | None => map fst t ++ [k]
    end.
Proof.
  induction t as [|[k' p'] rest IH]; simpl; [reflexivity|].
  destruct (String.eqb_spec k' k) as [->|Hne]; simpl; [reflexivity|].
  rewrite IH. destruct (CoinGecko.lookupDay k rest); reflexivity.
Qed.

Lemma lookupDay_None (k : string) (t : CoinGecko.DailyTable) :
  CoinGecko.lookupDay k t = None <-> ~ In k (map fst t).
Proof.
  induction t as [|[k' p'] rest IH]; simpl.
  - split; [intros _ H; exact H|reflexivity].
  - destruct (String.eqb_spec k' k) as [->|Hne].
    + split; [discriminate|]. intros H. exfalso. apply H. left. reflexivity.
    + rewrite IH. split.
      * intros H [E|Hin]; [exact (Hne E)|exact (H Hin)].
      * intros H Hin. apply H. right. exact Hin.
Qed.

Lemma lookupDay_In (k : string) (p : DataPoint) (t : CoinGecko.DailyTable) :
  CoinGecko.lookupDay k t = Some p -> In (k, p) t.
Proof.
  induction t as [|[k' p'] rest IH]; simpl; [discriminate|].
  destruct (String.eqb_spec k' k) as [->|Hne].
  - intros H. inversion H. left. reflexivity.
  - intros H. right. exact (IH H).
Qed.

Lemma In_lookupDay (k : string) (p : DataPoint) (t : CoinGecko.DailyTable) :
  NoDup (map fst t) -> In (k, p) t -> CoinGecko.lookupDay k t = Some p.
Proof.
  induction t as [|[k' p'] rest IH]; simpl; [intros _ []|].
  intros Hnd [E|Hin].
  - inversion E. subst. rewrite String.eqb_refl. reflexivity.
  - inversion Hnd as [|? ? Hnotin Hrest]. subst.
    destruct (String.eqb_spec k' k) as [->|Hne]; [|exact (IH Hrest Hin)].
    exfalso. apply Hnotin. apply (in_map fst) in Hin. exact Hin.
Qed.

Lemma NoDup_snoc (A : Type) (l : list A) (a : A) :
  NoDup l -> ~ In a l -> NoDup (l ++ [a]).
Proof.
  induction 1 as [|b l Hb Hl IH]; simpl; intros Ha.
  - constructor; [intros []|constructor].
  - constructor.
    + rewrite in_app_iff. intros [Hin|[E|[]]]; [exact (Hb Hin)|].
      apply Ha. left. symmetry. exact E.
    + apply IH. intros Hin. apply Ha. right. exact Hin.
Qed.

Lemma insertByTimestamp_perm (p : DataPoint) (l : list DataPoint) :
  Permutation (CoinGecko.insertByTimestamp p l) (p :: l).
Proof.
  induction l as [|q l IH]; simpl; [reflexivity|].
  destruct (timestamp p <=? timestamp q)%Z; [reflexivity|].
  rewrite IH. apply perm_swap.
Qed.

Lemma sortByTimestamp_perm (l : list DataPoint) :
  Permutation (CoinGecko.sortByTimestamp l) l.
Proof.
  induction l as [|p l IH]; simpl; [reflexivity|].
  rewrite insertByTimestamp_perm. constructor. exact IH.
Qed.

Lemma insertByTimestamp_sorted (p : DataPoint) (l : list DataPoint) :
  Sorted Z.le (map timestamp l) ->
  Sorted Z.le (map timestamp (CoinGecko.insertByTimestamp p l)).
Proof.
  induction l as [|q l IH]; simpl; intros Hs.
  - repeat constructor.
  - destruct (Z.leb_spec (timestamp p) (timestamp q)) as [Hle|Hgt]; simpl.
    + constructor; [exact Hs|]. constructor. exact Hle.
    + inversion Hs as [|? ? Hrest Hhd]. subst.
      constructor; [exact (IH Hrest)|].
      destruct l as [|r l]; simpl.
      * constructor. lia.
      * destruct (timestamp p <=? timestamp r)%Z; simpl.
        -- constructor. lia.
        -- inversion Hhd. subst. constructor. assumption.
Qed.

Lemma sortByTimestamp_sorted (l : list DataPoint) :
  Sorted Z.le (map timestamp (CoinGecko.sortByTimestamp l)).
Proof.
  induction l as [|p l IH]; simpl; [constructor|].
  apply insertByTimestamp_sorted. exact IH.
Qed.

Lemma increasing_of_distinct (l : list Z) :
  Sorted Z.le l -> NoDup l -> StronglySorted Z.lt l.
Proof.
  intros Hs Hnd.
  apply Sorted_StronglySorted in Hs; [|intros x y z; apply Z.le_trans].
  induction Hs as [|a l Hl IH Hall]; [constructor|].
  inversion Hnd as [|? ? Hnotin Hrest]. subst.
  constructor; [exact (IH Hrest)|].
  rewrite Forall_forall in *. intros b Hb.
  specialize (Hall b Hb).
  assert (a <> b) by (intros ->; exact (Hnotin Hb)). lia.
Qed.

Section DailySamples.

Variable getHistoricalData : string -> Z -> Z -> outcome (list DataPoint).
Variable dayKeyOf : Z -> string.
Variable midnightOf : string -> Z.

Let recordPoint := CoinGecko.recordPoint dayKeyOf midnightOf.
Let dailyEntry := CoinGecko.dailyEntry dayKeyOf.
Let getDailyPrices :=
  CoinGecko.getDailyPrices getHistoricalData dayKeyOf midnightOf.

Lemma recordPoint_chosen (seen : list DataPoint)
  (table : CoinGecko.DailyTable) (point : DataPoint) :
  chosenPerDay dayKeyOf midnightOf seen table ->
  chosenPerDay dayKeyOf midnightOf (seen ++ [point])
    (recordPoint table point).
Proof.
  intros [Hnd [Hentry Hcover]].
  unfold recordPoint, CoinGecko.recordPoint.
  set (k := dayKeyOf (timestamp point)).
  assert (Hassign : forall current,
            (forall q, In q seen -> dayKeyOf (timestamp q) = k ->
               (distanceTo (midnightOf k) point <=
                distanceTo (midnightOf k) q)%Z) ->
            (CoinGecko.lookupDay k table = Some current \/
             CoinGecko.lookupDay k table = None) ->
            chosenPerDay dayKeyOf midnightOf (seen ++ [point])
              (CoinGecko.assignDay k point table)).
  { intros current Hbest Hlook. split; [|split].
    - rewrite assignDay_keys.
      destruct (CoinGecko.lookupDay k table) eqn:Hl; [exact Hnd|].
      apply NoDup_snoc; [exact Hnd|]. apply lookupDay_None. exact Hl.
    - intros k1 p. rewrite lookupDay_assignDay.
      destruct (String.eqb_spec k1 k) as [->|Hne].
      + intros E. inversion E. subst p.
        split; [reflexivity|]. split; [apply in_or_app; right; left; reflexivity|].
        intros q Hq Hk. apply in_app_or in Hq.
        destruct Hq as [Hq|[<-|[]]]; [exact (Hbest q Hq Hk)|lia].
      + intros Hl. destruct (Hentry k1 p Hl) as [Hk [Hin Hmin]].
        split; [exact Hk|]. split; [apply in_or_app; left; exact Hin|].
        intros q Hq Hkq. apply in_app_or in Hq.
        destruct Hq as [Hq|[<-|[]]]; [exact (Hmin q Hq Hkq)|].
        exfalso. apply Hne. symmetry. exact Hkq.
    - intros q Hq. rewrite lookupDay_assignDay.
      destruct (String.eqb_spec (dayKeyOf (timestamp q)) k) as [_|Hne];
        [discriminate|].
      apply in_app_or in Hq. destruct Hq as [Hq|[<-|[]]];
        [exact (Hcover q Hq)|].
      exfalso. apply Hne. reflexivity. }
  destruct (CoinGecko.lookupDay k table) as [current|] eqn:Hl.
  - destruct (Hentry k current Hl) as [Hk [Hin Hmin]].
    cbv zeta.
    destruct (Z.ltb_spec (Z.abs (timestamp point - midnightOf k))
                (Z.abs (timestamp current - midnightOf k))) as [Hlt|Hge].
    + apply (Hassign current); [|left; reflexivity].
      intros q Hq Hkq. specialize (Hmin q Hq Hkq).
      unfold distanceTo in *. lia.
    + split; [exact Hnd|]. split.
      * intros k1 p Hl1. destruct (Hentry k1 p Hl1) as [Hk1 [Hin1 Hmin1]].
        split; [exact Hk1|]. split; [apply in_or_app; left; exact Hin1|].
        intros q Hq Hkq. apply in_app_or in Hq.
        destruct Hq as [Hq|[<-|[]]]; [exact (Hmin1 q Hq Hkq)|].
        fold k in Hkq. rewrite <- Hkq in Hl1 |- *. rewrite Hl in Hl1.
        inversion Hl1. subst p.
        unfold distanceTo. lia.
      * intros q Hq. apply in_app_or in Hq.
        destruct Hq as [Hq|[<-|[]]]; [exact (Hcover q Hq)|].
        fold k. rewrite Hl. discriminate.
  - apply (Hassign point); [|right; reflexivity].
    intros q Hq Hkq. exfalso. apply (Hcover q Hq). rewrite Hkq. exact Hl.
Qed.

Lemma recordPoint_fold_chosen (allData seen : list DataPoint)
  (table : CoinGecko.DailyTable) :
  chosenPerDay dayKeyOf midnightOf seen table ->
  chosenPerDay dayKeyOf midnightOf (seen ++ allData)
    (fold_left recordPoint allData table).
Proof.
  revert seen table.
  induction allData as [|point rest IH]; intros seen table Hinv; simpl.
  - rewrite app_nil_r. exact Hinv.
  - replace (seen ++ point :: rest) with ((seen ++ [point]) ++ rest)
      by (rewrite <- app_assoc; reflexivity).
    apply IH. apply recordPoint_chosen. exact Hinv.
Qed.

Lemma dailyTable_chosen (allData : list DataPoint) :
  chosenPerDay dayKeyOf midnightOf allData
    (fold_left recordPoint allData []).
Proof.
  apply (@recordPoint_fold_chosen allData [] []).
  split; [constructor|]. split; [intros k p H; discriminate|intros q []].
Qed.

Lemma dailyEntries_In (table : CoinGecko.DailyTable) (d : DataPoint) :
  NoDup (map fst table) ->
  In d (map dailyEntry (CoinGecko.sortByTimestamp (map snd table))) ->
  exists k p, CoinGecko.lookupDay k table = Some p /\ d = dailyEntry p.
Proof.
  intros Hnd Hin. apply in_map_iff in Hin. destruct Hin as [p [<- Hp]].
  apply (Permutation_in _ (sortByTimestamp_perm _)) in Hp.
  apply in_map_iff in Hp. destruct Hp as [[k p'] [E Hkp]]. simpl in E. subst p'.
  exists k, p. split; [exact (@In_lookupDay k p table Hnd Hkp)|reflexivity].
Qed.

Lemma dailyEntries_days (allData : list DataPoint) :
  let table := fold_left recordPoint allData [] in
  Permutation
    (map date (map dailyEntry (CoinGecko.sortByTimestamp (map snd table))))
    (map fst table).
Proof.
  intros table.
  destruct (dailyTable_chosen allData) as [Hnd [Hentry _]]. fold table in Hnd, Hentry.
  rewrite map_map.
  rewrite (Permutation_map _ (sortByTimestamp_perm (map snd table))).
  rewrite map_map.
  replace (map (fun x => date (dailyEntry (snd x))) table) with (map fst table);
    [reflexivity|].
  apply map_ext_in. intros [k p] Hkp. simpl.
  destruct (Hentry k p (@In_lookupDay k p table Hnd Hkp)) as [Hk _]. exact Hk.
Qed.

(** [getDailyPrices] returns one entry per day of the samples it fetched:
    the entries come in strictly increasing order of time, no day occurs
    twice, every day of a fetched sample has its entry, and every entry
    carries the time and the price of a fetched sample under the day key of
    that time. *)
Theorem getDailyPrices_one_entry_per_day (asset : string)
  (startDate endDate : Z) (allData : list DataPoint) :
  getHistoricalData asset startDate endDate = Returned allData ->
  exists daily : list DataPoint,
    getDailyPrices asset startDate endDate = Returned daily /\
    StronglySorted Z.lt (map timestamp daily) /\
    NoDup (map date daily) /\
    (forall q, In q allData -> In (dayKeyOf (timestamp q)) (map date daily)) /\
    (forall d, In d daily ->
       date d = dayKeyOf (timestamp d) /\
       exists p, In p allData /\
                 timestamp p = timestamp d /\ price p = price d).
Proof.
  intros Hfetch.
  unfold getDailyPrices, CoinGecko.getDailyPrices. rewrite Hfetch. cbv zeta.
  fold recordPoint dailyEntry.
  set (table := fold_left recordPoint allData []).
  pose proof (dailyTable_chosen allData) as [Hnd [Hentry Hcover]].
  fold table in Hnd, Hentry, Hcover.
  pose proof (dailyEntries_days allData) as Hdays.
  cbv zeta in Hdays. fold table in Hdays.
  set (daily := map dailyEntry (CoinGecko.sortByTimestamp (map snd table)))
    in *.
  assert (Hnodup : NoDup (map date daily)).
  { apply (Permutation_NoDup (Permutation_sym Hdays)). exact Hnd. }
  assert (Hown : forall d, In d daily -> date d = dayKeyOf (timestamp d)).
  { intros d Hd. apply in_map_iff in Hd. destruct Hd as [p [<- _]].
    reflexivity. }
  exists daily. split; [reflexivity|]. split; [|split; [exact Hnodup|split]].
  - apply increasing_of_distinct.
    + unfold daily. rewrite map_map. apply sortByTimestamp_sorted.
    + apply (NoDup_map_inv dayKeyOf). rewrite map_map.
      replace (map (fun x => dayKeyOf (timestamp x)) daily)
        with (map date daily); [exact Hnodup|].
      apply map_ext_in. exact Hown.
  - intros q Hq. apply (Permutation_in _ (Permutation_sym Hdays)).
    destruct (CoinGecko.lookupDay (dayKeyOf (timestamp q)) table)
      as [p|] eqn:Hl; [|exfalso; exact (Hcover q Hq Hl)].
    apply lookupDay_In in Hl. apply (in_map fst) in Hl. exact Hl.
  - intros d Hd. split; [exact (Hown d Hd)|].
    destruct (dailyEntries_In table d Hnd Hd) as [k [p [Hl ->]]].
    destruct (Hentry k p Hl) as [_ [Hin _]].
    exists p. split; [exact Hin|split; reflexivity].
Qed.

(** The entry that [getDailyPrices] keeps for a day is as close to the
    midnight that opens the day as any fetched sample of that day. *)
Theorem getDailyPrices_closest_to_midnight (asset : string)
  (startDate endDate : Z) (allData daily : list DataPoint) :
  getHistoricalData asset startDate endDate = Returned allData ->
  getDailyPrices asset startDate endDate = Returned daily ->
  forall d q, In d daily -> In q allData ->
    dayKeyOf (timestamp q) = date d ->
    (distanceTo (midnightOf (date d)) d <=
     distanceTo (midnightOf (date d)) q)%Z.
Proof.
  intros Hfetch Hdaily d q Hd Hq Hday.
  unfold getDailyPrices, CoinGecko.getDailyPrices in Hdaily.
  rewrite Hfetch in Hdaily. cbv zeta in Hdaily. inversion Hdaily as [E].
  clear Hdaily. fold recordPoint dailyEntry in E.
  pose proof (dailyTable_chosen allData) as [Hnd [Hentry _]].
  rewrite <- E in Hd.
  destruct (dailyEntries_In _ d Hnd Hd) as [k [p [Hl ->]]].
  destruct (Hentry k p Hl) as [Hk [_ Hmin]].
  simpl in *. rewrite <- Hk in *.
  exact (Hmin q Hq Hday).
Qed.

(** When no sample of a day lies before the midnight of its day key, the
    entry that [getDailyPrices] keeps for a day is the earliest sample of
    that day: never a later sample, however close to the next midnight. *)
Theorem getDailyPrices_keeps_first_sample (asset : string)
  (startDate endDate : Z) (allData daily : list DataPoint) :
  getHistoricalData asset startDate endDate = Returned allData ->
  Forall (fun p => (midnightOf (dayKeyOf (timestamp p)) <= timestamp p)%Z)
    allData ->
  getDailyPrices asset startDate endDate = Returned daily ->
  forall d q, In d daily -> In q allData ->
    dayKeyOf (timestamp q) = date d ->
    (timestamp d <= timestamp q)%Z.
Proof.
  intros Hfetch Hmid Hdaily d q Hd Hq Hday.
  unfold getDailyPrices, CoinGecko.getDailyPrices in Hdaily.
  rewrite Hfetch in Hdaily. cbv zeta in Hdaily. inversion Hdaily as [E].
  clear Hdaily. fold recordPoint dailyEntry in E.
  pose proof (dailyTable_chosen allData) as [Hnd [Hentry _]].
  rewrite <- E in Hd.
  destruct (dailyEntries_In _ d Hnd Hd) as [k [p [Hl ->]]].
  destruct (Hentry k p Hl) as [Hk [Hp Hmin]].
  simpl in *. rewrite <- Hk in Hday.
  specialize (Hmin q Hq Hday).
  rewrite Forall_forall in Hmid.
  pose proof (Hmid p Hp) as Hmp. pose proof (Hmid q Hq) as Hmq.
  rewrite Hday in Hmq. rewrite <- Hk in Hmp.
  unfold distanceTo in Hmin. lia.
Qed.

End DailySamples.

Example getDailyPrices_two_days :
  CoinGecko.getDailyPrices exampleSamples exampleDayKey exampleMidnight
    "BTC"%string 0 (2 * msPerDay) = Returned exampleDaily.
Proof. reflexivity. Qed.

Lemma getDailyPrices_one_entry_per_day_witness :
  exists daily : list DataPoint,
    CoinGecko.getDailyPrices exampleSamples exampleDayKey exampleMidnight
      "BTC"%string 0 (2 * msPerDay) = Returned daily /\
    StronglySorted Z.lt (map timestamp daily) /\
    NoDup (map date daily) /\
    (forall q, In q exampleTicks ->
       In (exampleDayKey (timestamp q)) (map date daily)) /\
    (forall d, In d daily ->
       date d = exampleDayKey (timestamp d) /\
       exists p, In p exampleTicks /\
                 timestamp p = timestamp d /\ price p = price d).
Proof.
  apply (@getDailyPrices_one_entry_per_day exampleSamples exampleDayKey
           exampleMidnight "BTC"%string 0 (2 * msPerDay) exampleTicks).
  reflexivity.
Defined.

Lemma getDailyPrices_closest_to_midnight_witness :
  (distanceTo (exampleMidnight "1970-01-01"%string)
     (mkDataPoint 3600000 "1970-01-01"%string (VNum (Fin 101))) <=
   distanceTo (exampleMidnight "1970-01-01"%string)
     (mkDataPoint (msPerDay - 1) "1970-01-01T23:59:59.999Z"%string
        (VNum (Fin 102))))%Z.
Proof.
  apply (@getDailyPrices_closest_to_midnight exampleSamples exampleDayKey
           exampleMidnight "BTC"%string 0 (2 * msPerDay) exampleTicks
           exampleDaily eq_refl eq_refl
           (mkDataPoint 3600000 "1970-01-01"%string (VNum (Fin 101)))
           (mkDataPoint (msPerDay - 1) "1970-01-01T23:59:59.999Z"%string
              (VNum (Fin 102)))).
  - left. reflexivity.
  - right. left. reflexivity.
  - reflexivity.
Defined.

Lemma getDailyPrices_keeps_first_sample_witness :
  (timestamp (mkDataPoint 3600000 "1970-01-01"%string (VNum (Fin 101))) <=
   timestamp (mkDataPoint (msPerDay - 1) "1970-01-01T23:59:59.999Z"%string
                (VNum (Fin 102))))%Z.
Proof.
  apply (@getDailyPrices_keeps_first_sample exampleSamples exampleDayKey
           exampleMidnight "BTC"%string 0 (2 * msPerDay) exampleTicks
           exampleDaily eq_refl).
  - repeat constructor; vm_compute; discriminate.
  - reflexivity.
  - left. reflexivity.
  - right. left. reflexivity.
  - reflexivity.
Defined.

(* ================================================================== *)
(** ** Numbers with rounding: what holds for every rounding *)
(* ================================================================== *)

Lemma numLe_refl_Fin (a : R) : numLe (Fin a) (Fin a).
Proof. simpl. lra. Qed.

Lemma numLe_trans (x y z : num) : numLe x y -> numLe y z -> numLe x z.
Proof.
  destruct x, y, z; simpl; try tauto; try lra.
Qed.

Lemma numLe_from_zero (x : num) :
  numLe (Fin 0) x -> x = PInf \/ exists v : R, x = Fin v /\ 0 <= v.
Proof.
  destruct x as [v| | |]; simpl; intros H; try contradiction.
  - right. exists v. split; [reflexivity|exact H].
  - left. reflexivity.
Qed.

Lemma toNearestInteger_rounding : Rounding toNearestInteger.
Proof.
  assert (Hfix : forall n : Z, Zfloor (IZR n + / 2) = n).
  { intros n. apply Zfloor_eq. lra. }
  split.
  - intros x y Hxy. unfold toNearestInteger.
    assert (Hn : (Zfloor (x + / 2) <= Zfloor (y + / 2))%Z)
      by (apply Zfloor_le; lra).
    destruct (Z.leb_spec (2 ^ 62) (Zfloor (x + / 2)));
      destruct (Z.leb_spec (2 ^ 62) (Zfloor (y + / 2)));
      destruct (Z.leb_spec (Zfloor (x + / 2)) (- 2 ^ 62));
      destruct (Z.leb_spec (Zfloor (y + / 2)) (- 2 ^ 62));
      simpl; try exact I; try lia.
    apply IZR_le. exact Hn.
  - unfold toNearestInteger. replace (0 + / 2) with (IZR 0 + / 2) by (simpl; lra).
    rewrite Hfix. reflexivity.
  - unfold toNearestInteger. rewrite (Hfix 1%Z). reflexivity.
  - unfold toNearestInteger. rewrite (Hfix 100%Z). reflexivity.
  - intros x y. unfold toNearestInteger.
    destruct (Z.leb_spec (2 ^ 62) (Zfloor (x + / 2))); [discriminate|].
    destruct (Z.leb_spec (Zfloor (x + / 2)) (- 2 ^ 62)); [discriminate|].
    intros E. inversion E. subst y. rewrite Hfix.
    destruct (Z.leb_spec (2 ^ 62) (Zfloor (x + / 2))); [lia|].
    destruct (Z.leb_spec (Zfloor (x + / 2)) (- 2 ^ 62)); [lia|].
    reflexivity.
Qed.

Section RoundedNumbers.

Variable fl : R -> num.
Hypothesis rounding : Rounding fl.

Let N : Numeric.Number num := Numeric.rounded fl.

Lemma fl_not_NaN (x : R) : fl x <> NaN.
Proof.
  intros E. pose proof (fl_monotone rounding (Rle_refl x)) as H.
  rewrite E in H. exact H.
Qed.

Lemma fl_nonneg (x : R) : 0 <= x -> numLe (Fin 0) (fl x).
Proof.
  intros Hx. rewrite <- (fl_zero rounding).
  apply (fl_monotone rounding). exact Hx.
Qed.

Lemma fl_between (lo hi x : R) :
  fl lo = Fin lo -> fl hi = Fin hi -> lo <= x <= hi ->
  exists v : R, fl x = Fin v /\ lo <= v <= hi.
Proof.
  intros Hlo Hhi [H1 H2].
  pose proof (fl_monotone rounding H1) as L.
  pose proof (fl_monotone rounding H2) as U.
  rewrite Hlo in L. rewrite Hhi in U.
  destruct (fl x) as [v| | |]; simpl in L, U; try contradiction.
  exists v. split; [reflexivity|lra].
Qed.

Lemma ofNat_rounded (n : nat) : Numeric.ofNat (N:=N) n = Fin (INR n).
Proof. unfold Numeric.ofNat. simpl. rewrite <- INR_IZR_INZ. reflexivity. Qed.

(** *** The relative strength index *)

Lemma rounded_priceChanges_not_NaN (ps : list R) :
  Forall (fun c => c <> NaN) (Numeric.priceChanges (N:=N) (map Fin ps)).
Proof.
  induction ps as [|a ps IH]; [constructor|].
  destruct ps as [|b rest]; [constructor|].
  change (Forall (fun c => c <> NaN)
            (fl (b - a) :: Numeric.priceChanges (N:=N) (map Fin (b :: rest)))).
  constructor; [apply fl_not_NaN|exact IH].
Qed.

Lemma rounded_rsiStep_nonneg (gains losses change : num) :
  numLe (Fin 0) gains -> numLe (Fin 0) losses -> change <> NaN ->
  numLe (Fin 0) (fst (Numeric.rsiStep (N:=N) (gains, losses) change)) /\
  numLe (Fin 0) (snd (Numeric.rsiStep (N:=N) (gains, losses) change)).
Proof.
  intros Hg Hl Hc.
  destruct (numLe_from_zero _ Hg) as [->|[g [-> Hg0]]];
    destruct (numLe_from_zero _ Hl) as [->|[l [-> Hl0]]];
    destruct change as [c| | |]; try contradiction;
    unfold Numeric.rsiStep; simpl; unfold gt, lt;
    try (destruct (Rlt_dec 0 c)); simpl; try exact I;
    try (split; [try exact I; try lra|try exact I; try lra]);
    try (apply fl_nonneg; pose proof (Rabs_pos c); lra).
Qed.

Lemma rounded_rsi_sums_nonneg (changes : list num) :
  Forall (fun c => c <> NaN) changes ->
  forall gains losses : num,
    numLe (Fin 0) gains -> numLe (Fin 0) losses ->
    numLe (Fin 0)
      (fst (fold_left (Numeric.rsiStep (N:=N)) changes (gains, losses))) /\
    numLe (Fin 0)
      (snd (fold_left (Numeric.rsiStep (N:=N)) changes (gains, losses))).
Proof.
  induction 1 as [|c changes Hc _ IH]; intros gains losses Hg Hl.
  - split; assumption.
  - cbn [fold_left].
    destruct (@rounded_rsiStep_nonneg gains losses c Hg Hl Hc) as [Hg' Hl'].
    destruct (Numeric.rsiStep (N:=N) (gains, losses) c) as [g' l'].
    apply IH; assumption.
Qed.

Lemma rounded_average_nonneg (x : num) (period : nat) :
  (1 <= period)%nat -> numLe (Fin 0) x ->
  numLe (Fin 0) (@Numeric.div _ N x (Numeric.ofNat (N:=N) period)).
Proof.
  intros Hp Hx. rewrite ofNat_rounded.
  assert (Hpos : 0 < INR period) by (apply lt_0_INR; lia).
  destruct (numLe_from_zero _ Hx) as [->|[v [-> Hv]]]; simpl; unfold div.
  - destruct (Rlt_dec (INR period) 0); [lra|exact I].
  - destruct (Req_dec_T (INR period) 0); [lra|].
    apply fl_nonneg. apply Rdiv_nonneg; lra.
Qed.

Lemma numLe_from_one (x : num) :
  numLe (Fin 1) x -> x = PInf \/ exists v : R, x = Fin v /\ 1 <= v.
Proof.
  destruct x as [v| | |]; simpl; intros H; try contradiction.
  - right. exists v. split; [reflexivity|exact H].
  - left. reflexivity.
Qed.

Lemma rounded_rsi_of_ratio (rs : num) :
  numLe (Fin 0) rs ->
  exists r : R,
    @Numeric.sub _ N (Fin 100)
      (@Numeric.div _ N (Fin 100) (@Numeric.add _ N (Fin 1) rs)) = Fin r /\
    0 <= r <= 100.
Proof.
  intros Hrs.
  assert (Hfar : exists r : R,
            @Numeric.sub _ N (Fin 100) (@Numeric.div _ N (Fin 100) PInf) =
              Fin r /\ 0 <= r <= 100).
  { exists 100. simpl. replace (100 - 0) with 100 by lra.
    split; [apply (fl_hundred rounding)|lra]. }
  destruct (numLe_from_zero _ Hrs) as [->|[v [-> Hv]]]; [exact Hfar|].
  assert (Hone : numLe (Fin 1) (fl (1 + v))).
  { rewrite <- (fl_one rounding). apply (fl_monotone rounding). lra. }
  change (@Numeric.add _ N (Fin 1) (Fin v)) with (fl (1 + v)).
  destruct (numLe_from_one _ Hone) as [->|[t [-> Ht]]]; [exact Hfar|].
  assert (Hq : 0 <= 100 / t <= 100).
  { split; [apply Rdiv_nonneg; lra|].
    apply (Rmult_le_reg_r t); [lra|]. unfold Rdiv.
    rewrite Rmult_assoc, Rinv_l by lra. nra. }
  destruct (fl_between (fl_zero rounding) (fl_hundred rounding) Hq)
    as [q [Eq Hq']].
  assert (Hdiv : @Numeric.div _ N (Fin 100) (Fin t) = Fin q).
  { simpl. destruct (Req_dec_T t 0); [lra|exact Eq]. }
  rewrite Hdiv.
  change (@Numeric.sub _ N (Fin 100) (Fin q)) with (fl (100 - q)).
  apply (fl_between (fl_zero rounding) (fl_hundred rounding)). lra.
Qed.


(** *** Volatility *)

Lemma rounded_add_zeros : @Numeric.add _ N (Fin 0) (Fin 0) = Fin 0.
Proof.
  change (fl (0 + 0) = Fin 0). rewrite Rplus_0_l. apply (fl_zero rounding).
Qed.

Lemma rounded_sum_zeros (zs : list num) :
  Forall (eq (Fin 0)) zs -> Numeric.sum (N:=N) zs = Fin 0.
Proof.
  unfold Numeric.sum. change (@Numeric.ofZ _ N 0) with (Fin 0).
  induction 1 as [|z zs <- _ IH]; [reflexivity|].
  cbn [fold_left]. rewrite rounded_add_zeros. exact IH.
Qed.

Lemma rounded_square_deviation_zero (v : R) :
  fl v = Fin v ->
  @Numeric.add _ N (Fin 0)
    (@Numeric.square _ N (@Numeric.sub _ N (Fin v) (Fin v))) = Fin 0.
Proof.
  intros _. change (@Numeric.sub _ N (Fin v) (Fin v)) with (fl (v - v)).
  replace (v - v) with 0 by lra. rewrite (fl_zero rounding).
  change (@Numeric.square _ N (Fin 0)) with (fl (0 * 0)).
  rewrite Rmult_0_l, (fl_zero rounding). apply rounded_add_zeros.
Qed.

Lemma rounded_deviations_of_equal (v : R) (rs : list num) :
  fl v = Fin v -> Forall (eq (Fin v)) rs ->
  Numeric.sumSquaredDeviations (N:=N) rs (Fin v) = Fin 0.
Proof.
  intros Hv. unfold Numeric.sumSquaredDeviations.
  change (@Numeric.ofZ _ N 0) with (Fin 0).
  induction 1 as [|r rs <- _ IH]; [reflexivity|].
  cbn [fold_left]. rewrite (rounded_square_deviation_zero Hv). exact IH.
Qed.

Lemma rounded_zero_over (n : nat) :
  (1 <= n)%nat ->
  @Numeric.div _ N (Fin 0) (Numeric.ofNat (N:=N) n) = Fin 0.
Proof.
  intros Hn. rewrite ofNat_rounded.
  assert (Hpos : 0 < INR n) by (apply lt_0_INR; lia).
  simpl. destruct (Req_dec_T (INR n) 0); [lra|].
  unfold Rdiv. rewrite Rmult_0_l. apply (fl_zero rounding).
Qed.

Lemma rounded_annualized_zero :
  @Numeric.mul _ N
    (@Numeric.mul _ N (@Numeric.Math_sqrt _ N (Fin 0))
       (@Numeric.Math_sqrt _ N (@Numeric.ofZ _ N 365)))
    (@Numeric.ofZ _ N 100) = Fin 0.
Proof.
  assert (Hroot : 0 <= sqrt 365 <= 100).
  { split; [apply sqrt_pos|].
    replace 100 with (sqrt (100 * 100)) by (apply sqrt_square; lra).
    apply sqrt_le_1_alt. lra. }
  destruct (fl_between (fl_zero rounding) (fl_hundred rounding) Hroot)
    as [s [Es _]].
  simpl. destruct (Rlt_dec 0 0); [lra|].
  destruct (Rlt_dec 365 0); [lra|].
  rewrite sqrt_0, (fl_zero rounding), Es. simpl.
  rewrite Rmult_0_l, (fl_zero rounding). simpl.
  rewrite Rmult_0_l. apply (fl_zero rounding).
Qed.

Lemma rounded_returns_flat (p : R) (prices : list R) :
  0 < p -> Forall (eq p) prices ->
  Forall (eq (Fin 0)) (Numeric.simpleReturns (N:=N) (map Fin prices)) /\
  length (Numeric.simpleReturns (N:=N) (map Fin prices)) =
    (length prices - 1)%nat.
Proof.
  intros Hp. induction 1 as [|a prices <- Hrest IH]; [split; [constructor|reflexivity]|].
  destruct Hrest as [|b rest <- Hrest']; [split; [constructor|reflexivity]|].
  destruct IH as [IHzero IHlen].
  assert (Hstep :
    Numeric.simpleReturns (N:=N) (map Fin (p :: p :: rest)) =
      Fin 0 :: Numeric.simpleReturns (N:=N) (map Fin (p :: rest))).
  { cbn [map Numeric.simpleReturns].
    change (@Numeric.gt _ N (Fin p) (@Numeric.ofZ _ N 0)) with (gt (Fin p) (Fin 0)).
    unfold gt, lt. destruct (Rlt_dec 0 p); [|lra].
    f_equal. change (@Numeric.sub _ N (Fin p) (Fin p)) with (fl (p - p)).
    replace (p - p) with 0 by lra. rewrite (fl_zero rounding).
    simpl. destruct (Req_dec_T p 0); [lra|].
    unfold Rdiv. rewrite Rmult_0_l. apply (fl_zero rounding). }
  rewrite Hstep. split.
  - constructor; [reflexivity|exact IHzero].
  - cbn [length]. rewrite IHlen. cbn [length]. lia.
Qed.

Lemma rounded_volatility_of_equal_returns (prices : list num) (v : R) :
  (2 <= length prices)%nat ->
  fl v = Fin v ->
  Numeric.simpleReturns (N:=N) prices <> [] ->
  Forall (eq (Fin v)) (Numeric.simpleReturns (N:=N) prices) ->
  @Numeric.div _ N (Numeric.sum (N:=N) (Numeric.simpleReturns (N:=N) prices))
     (Numeric.ofNat (N:=N) (length (Numeric.simpleReturns (N:=N) prices))) =
    Fin v ->
  Numeric.calculateVolatility (N:=N) prices = Some (Fin 0).
Proof.
  intros Hlen Hv Hne Hall Hmean.
  unfold Numeric.calculateVolatility.
  destruct (Nat.ltb_spec (length prices) 2) as [Hlt|_]; [lia|].
  cbv zeta. rewrite Hmean, (rounded_deviations_of_equal Hv Hall).
  rewrite rounded_zero_over.
  - f_equal. apply rounded_annualized_zero.
  - destruct (Numeric.simpleReturns (N:=N) prices); [contradiction|].
    simpl. lia.
Qed.

Lemma rounded_volatility_flat (p : R) (prices : list R) :
  0 < p -> (2 <= length prices)%nat -> Forall (eq p) prices ->
  Numeric.calculateVolatility (N:=N) (map Fin prices) = Some (Fin 0).
Proof.
  intros Hp Hlen Hflat.
  destruct (rounded_returns_flat Hp Hflat) as [Hzero Hcount].
  apply (@rounded_volatility_of_equal_returns _ 0).
  - rewrite length_map. exact Hlen.
  - apply (fl_zero rounding).
  - intros E. rewrite E in Hcount. simpl in Hcount. lia.
  - exact Hzero.
  - rewrite (rounded_sum_zeros Hzero). apply rounded_zero_over.
    rewrite Hcount. lia.
Qed.



End RoundedNumbers.

(* ================================================================== *)
(** ** Numbers with rounding: the engine's own arithmetic *)
(* ================================================================== *)

(** Two Numbers that [===] tells apart are not equal. *)
Ltac floats_differ H :=
  match type of H with
  | Some _ = Some ?y =>
      apply (f_equal (fun o => match o with
                               | Some z => PrimFloat.eqb z y
                               | None => false
                               end)) in H;
      vm_compute in H; discriminate H
  | _ = ?y =>
      apply (f_equal (fun z => PrimFloat.eqb z y)) in H;
      vm_compute in H; discriminate H
  end.






(** Equal returns need not give 0 either: the prices 1000, 1100, 1210 and
    1331 grow by a tenth each time, the three quotients are rounded, and the
    volatility is a small positive Number. *)
Example calculateVolatility_constant_growth :
  exists v : Numeric.float,
    Numeric.calculateVolatility
      (map Numeric.float_ofZ [1000; 1100; 1210; 1331]%Z) = Some v /\
    Numeric.gt v (Numeric.float_ofZ 0) = true /\
    Numeric.gt (Numeric.decimal 1 13) v = true.
Proof.
  eexists. split; [vm_compute; reflexivity|].
  split; vm_compute; reflexivity.
Qed.

Lemma totalOf_sum (num : Type) (N : Numeric.Number num)
  (field : Numeric.MetricSet num -> num)
  (results : list (Numeric.TrialResult num)) :
  Numeric.totalOf field results =
    Numeric.sum (map (Numeric.metricOrZero field) results).
Proof.
  unfold Numeric.totalOf, Numeric.sum.
  generalize (Numeric.ofZ 0). induction results as [|r results IH];
    intros acc; [reflexivity|].
  simpl. apply IH.
Qed.




(** *** Examples on rounded numbers *)


Lemma toNearestInteger_return_of_doubling :
  Numeric.simpleReturns (N:=Numeric.rounded toNearestInteger)
    [Fin 1; Fin 2] = [Fin 1].
Proof.
  cbn [Numeric.simpleReturns].
  change (@Numeric.gt _ (Numeric.rounded toNearestInteger) (Fin 1)
            (@Numeric.ofZ _ (Numeric.rounded toNearestInteger) 0))
    with (gt (Fin 1) (Fin 0)).
  unfold gt, lt. destruct (Rlt_dec 0 1); [|lra].
  change (@Numeric.sub _ (Numeric.rounded toNearestInteger) (Fin 2) (Fin 1))
    with (toNearestInteger (2 - 1)).
  replace (2 - 1) with 1 by lra.
  rewrite (fl_one toNearestInteger_rounding). simpl.
  destruct (Req_dec_T 1 0); [lra|].
  replace (1 / 1) with 1 by field.
  rewrite (fl_one toNearestInteger_rounding). reflexivity.
Qed.



(* ================================================================== *)
(** ** Numbers with rounding: the rounding that does not round *)
(* ================================================================== *)

(** With [Fin] for a rounding, the operations of [Numeric.rounded] are those
    of [JS], and the functions of [Numeric] are the functions of
    [TechnicalIndicators] and [Backtesting]: the two embeddings are one
    reading of the source, with and without rounding. *)

Lemma exact_rounding : Rounding Fin.
Proof.
  split; try reflexivity.
  intros x y Hxy. exact Hxy.
Qed.

Lemma exact_add (x y : num) :
  @Numeric.add _ (Numeric.rounded Fin) x y = add x y.
Proof. destruct x, y; reflexivity. Qed.

Lemma exact_sub (x y : num) :
  @Numeric.sub _ (Numeric.rounded Fin) x y = sub x y.
Proof. destruct x, y; reflexivity. Qed.

Lemma exact_mul (x y : num) :
  @Numeric.mul _ (Numeric.rounded Fin) x y = mul x y.
Proof. destruct x, y; reflexivity. Qed.

Lemma exact_div (x y : num) :
  @Numeric.div _ (Numeric.rounded Fin) x y = div x y.
Proof.
  destruct x as [a| | |], y as [b| | |]; try reflexivity.
  simpl. unfold Numeric.rounded_div, div.
  destruct (Req_dec_T b 0); reflexivity.
Qed.

Lemma exact_sqrt (x : num) :
  @Numeric.Math_sqrt _ (Numeric.rounded Fin) x = Math_sqrt x.
Proof. destruct x; reflexivity. Qed.

Lemma exact_square (x : num) :
  @Numeric.square _ (Numeric.rounded Fin) x = Math_pow x 2.
Proof.
  destruct x as [a| | |]; try reflexivity.
  - simpl. unfold Numeric.rounded_square, Numeric.rounded_mul.
    rewrite !mul_Fin. f_equal. lra.
  - simpl. unfold mul, scaleInf. destruct (Req_dec_T 1 0); [lra|].
    destruct (Rlt_dec 0 1); [reflexivity|lra].
  - simpl. unfold mul, scaleInf. destruct (Req_dec_T 1 0); [lra|].
    destruct (Rlt_dec 0 1); [reflexivity|lra].
Qed.

Lemma exact_ofNat (n : nat) :
  Numeric.ofNat (N:=Numeric.rounded Fin) n = ofNat n.
Proof. apply ofNat_rounded. Qed.

Lemma fold_left_pointwise (A B : Type) (f g : A -> B -> A) (xs : list B) :
  (forall a b, f a b = g a b) ->
  forall a : A, fold_left f xs a = fold_left g xs a.
Proof.
  intros Hfg. induction xs as [|x xs IH]; intros a; [reflexivity|].
  simpl. rewrite Hfg. apply IH.
Qed.

Lemma exact_sum (xs : list num) :
  Numeric.sum (N:=Numeric.rounded Fin) xs = sum xs.
Proof.
  unfold Numeric.sum, sum. apply fold_left_pointwise. exact exact_add.
Qed.

Lemma exact_priceChanges (prices : list num) :
  Numeric.priceChanges (N:=Numeric.rounded Fin) prices = priceChanges prices.
Proof.
  induction prices as [|a prices IH]; [reflexivity|].
  destruct prices as [|b rest]; [reflexivity|].
  change (@Numeric.sub _ (Numeric.rounded Fin) b a ::
            Numeric.priceChanges (N:=Numeric.rounded Fin) (b :: rest) =
          sub b a :: priceChanges (b :: rest)).
  rewrite exact_sub, IH. reflexivity.
Qed.

Lemma exact_rsiStep (acc : num * num) (change : num) :
  Numeric.rsiStep (N:=Numeric.rounded Fin) acc change = rsiStep acc change.
Proof.
  destruct acc as [gains losses]. unfold Numeric.rsiStep, rsiStep.
  change (@Numeric.gt _ (Numeric.rounded Fin) change
            (@Numeric.ofZ _ (Numeric.rounded Fin) 0))
    with (gt change (Fin 0)).
  destruct (gt change (Fin 0)); rewrite exact_add; reflexivity.
Qed.

(** [calculateRSI], read without rounding. *)
Lemma calculateRSI_without_rounding (prices : list num) (period : nat) :
  Numeric.calculateRSI (N:=Numeric.rounded Fin) prices period =
    calculateRSI prices period.
Proof.
  assert (Hsums :
    Numeric.rsiGainsLosses (N:=Numeric.rounded Fin) prices period =
      rsiGainsLosses prices period).
  { unfold Numeric.rsiGainsLosses, rsiGainsLosses.
    rewrite exact_priceChanges. apply fold_left_pointwise.
    exact exact_rsiStep. }
  unfold Numeric.calculateRSI, calculateRSI,
    Numeric.rsiAvgGain, Numeric.rsiAvgLoss, rsiAvgGain, rsiAvgLoss.
  rewrite Hsums.
  destruct (length prices <? period + 1); [reflexivity|].
  rewrite !exact_ofNat, !exact_div.
  change (@Numeric.strictEq _ (Numeric.rounded Fin)) with strictEq.
  change (@Numeric.ofZ _ (Numeric.rounded Fin) 0) with (Fin 0).
  destruct (strictEq _ (Fin 0)); [reflexivity|].
  rewrite exact_sub, exact_add. reflexivity.
Qed.

Lemma exact_simpleReturns (prices : list num) :
  Numeric.simpleReturns (N:=Numeric.rounded Fin) prices =
    simpleReturns prices.
Proof.
  induction prices as [|a prices IH]; [reflexivity|].
  destruct prices as [|b rest]; [reflexivity|].
  change (Numeric.simpleReturns (N:=Numeric.rounded Fin) (a :: b :: rest))
    with (if gt a (Fin 0)
          then @Numeric.div _ (Numeric.rounded Fin)
                 (@Numeric.sub _ (Numeric.rounded Fin) b a) a ::
               Numeric.simpleReturns (N:=Numeric.rounded Fin) (b :: rest)
          else Numeric.simpleReturns (N:=Numeric.rounded Fin) (b :: rest)).
  change (simpleReturns (a :: b :: rest))
    with (if gt a (Fin 0)
          then div (sub b a) a :: simpleReturns (b :: rest)
          else simpleReturns (b :: rest)).
  rewrite IH, exact_div, exact_sub. reflexivity.
Qed.

(** [calculateVolatility], read without rounding. *)
Lemma calculateVolatility_without_rounding (prices : list num) :
  Numeric.calculateVolatility (N:=Numeric.rounded Fin) prices =
    calculateVolatility prices.
Proof.
  unfold Numeric.calculateVolatility, calculateVolatility.
  destruct (length prices <? 2); [reflexivity|].
  cbv zeta. rewrite exact_simpleReturns, exact_sum.
  rewrite !exact_mul, !exact_sqrt, !exact_div, !exact_ofNat.
  assert (Hdev : forall returns mean,
    Numeric.sumSquaredDeviations (N:=Numeric.rounded Fin) returns mean =
      sumSquaredDeviations returns mean).
  { intros returns mean.
    unfold Numeric.sumSquaredDeviations, sumSquaredDeviations.
    apply fold_left_pointwise. intros acc r.
    rewrite exact_add, exact_square, exact_sub. reflexivity. }
  rewrite Hdev. reflexivity.
Qed.

(** The predicted path, read without rounding. *)
Lemma predictedPricesFor_without_rounding (target current : num) (n : nat) :
  Numeric.predictedPricesFor (N:=Numeric.rounded Fin) target current n =
    predictedPricesFor target current n.
Proof.
  unfold Numeric.predictedPricesFor, predictedPricesFor.
  destruct (n =? 1); [reflexivity|].
  apply map_ext. intros i.
  rewrite exact_add, exact_mul, exact_div, exact_sub, !exact_ofNat.
  reflexivity.
Qed.
